(** * Mock OIDC4VCI issuer: the authorize / token / credential handlers

    A shallow embedding of the OIDC4VCI part of
    [pkg/restapi/issuer/operation/operations.go]: the issuer configuration
    builder ([initiateIssuance], [saveIssuanceConfig]), the mock
    authorization server ([oidcAuthorize], [oidcSendAuthorizeResponse],
    [oidcTokenEndpoint], [oidcCredentialEndpoint]) and the credential
    assembly ([prepareCredential], [getCustomContext]).

    Go strings and byte slices are byte sequences: both are [string] here
    (a list of 8-bit [ascii]), and the conversions [[]byte(s)] and
    [string(b)] are the identity.  Go's [int], [int64], [rune] and
    [time.Duration] values are [Z].  The handlers run in a small state
    monad over the response writer and the world (the key-value store
    behind its interface, the log of store accesses, the UUID source). *)

From Stdlib Require Import ZArith String Ascii List Lia Bool DecimalString.
From stdpp Require Import base option gmap strings list sorting.

#[local] Set Warnings "-register-all".
#[local] Open Scope string_scope.
#[local] Open Scope Z_scope.

(** ** Bytes *)

Module Bytes.

(** The value of a byte, [0 <= byteZ c < 256]. *)
Definition byteZ (c : ascii) : Z := Z.of_N (N_of_ascii c).

(** [byte(z)] for [0 <= z < 256]. *)
Definition ofZ (z : Z) : ascii := ascii_of_N (Z.to_N z).

(** The double quote and the backslash, by their codes. *)
Definition dquote : ascii := "034"%char.
Definition backslash : ascii := "092"%char.

Definition str1 (c : ascii) : string := String c EmptyString.

(** [s[n:]], the whole of [""] past the end. *)
Fixpoint drop (n : nat) (s : string) : string :=
  match n, s with
  | O, _ => s
  | S k, EmptyString => EmptyString
  | S k, String _ t => drop k t
  end.

(** [s[:n]]. *)
Fixpoint take (n : nat) (s : string) : string :=
  match n, s with
  | O, _ => EmptyString
  | S k, EmptyString => EmptyString
  | S k, String c t => String c (take k t)
  end.

(** [s[i]] as a number, [0] past the end (the callers check the length
    first, as the Go code does). *)
Definition at_ (s : string) (i : nat) : Z :=
  match String.get i s with
  | Some c => byteZ c
  | None => 0
  end.

Definition isEmpty (s : string) : bool :=
  match s with EmptyString => true | _ => false end.

End Bytes.
Import Bytes.

(** ** Errors

    A Go [(value, error)] pair.  An error carries the text its [Error()]
    method returns. *)

Inductive result (A : Type) : Type :=
| Ok (a : A)
| Err (msg : string).
Arguments Ok {A} a.
Arguments Err {A} msg.

Definition isOk {A} (r : result A) : bool :=
  match r with Ok _ => true | Err _ => false end.

(** ** [net/url]: [PathUnescape] *)

Module Url.

(** [ishex] and [unhex] of net/url. *)
Definition ishex (c : ascii) : bool :=
  let z := byteZ c in
  ((48 <=? z) && (z <=? 57)) || ((97 <=? z) && (z <=? 102)) || ((65 <=? z) && (z <=? 70)).

Definition unhex (c : ascii) : Z :=
  let z := byteZ c in
  if (48 <=? z) && (z <=? 57) then z - 48
  else if (97 <=? z) && (z <=? 102) then z - 97 + 10
  else if (65 <=? z) && (z <=? 70) then z - 65 + 10
  else 0.

(** The text of an [EscapeError]: ["invalid URL escape "] followed by the
    quoted fragment ([strconv.Quote], whose escaping of the fragment is left
    to the function [quote]). *)
Definition escapeError (quote : string -> string) (frag : string) : string :=
  "invalid URL escape " ++ quote frag.

Section Unescape.
  Variable quote : string -> string.

  (** [unescape(s, encodePathSegment)]: every [%XX] with two hex digits
      becomes the byte [XX]; a [%] not followed by two hex digits is an
      [EscapeError] naming at most three bytes from the [%] on; [+] stays a
      [+] (only query components turn it into a space).  Go validates the
      whole string before it decodes: the first bad escape decides either
      way. *)
Fixpoint unescapePath (s : string) : result string :=
  match s with
  | EmptyString => Ok EmptyString
  | String c t =>
      if Ascii.eqb c "%" then
        match t with
        | String a (String b r) =>
            if ishex a && ishex b then
              match unescapePath r with
              | Ok u => Ok (String (ofZ (Z.lor (Z.shiftl (unhex a) 4) (unhex b))) u)
              | Err e => Err e
              end
            else Err (escapeError quote (take 3 s))
        | _ => Err (escapeError quote (take 3 s))
        end
      else
        match unescapePath t with
        | Ok u => Ok (String c u)
        | Err e => Err e
        end
  end.

Definition PathUnescape (s : string) : result string := unescapePath s.
End Unescape.

(** [url.Values] is [map[string][]string]. *)
Definition Values_Get (v : gmap string (list string)) (key : string) : string :=
  match v !! key with
  | Some (x :: _) => x
  | _ => EmptyString
  end.

Definition Values_Set (v : gmap string (list string)) (key value : string)
  : gmap string (list string) :=
  <[key := [value]]> v.

Definition Values_Add (v : gmap string (list string)) (key value : string)
  : gmap string (list string) :=
  <[key := (default [] (v !! key) ++ [value])%list]> v.

End Url.

(** ** [strings]: [Split] *)

Module Strings.

(** [strings.Split(s, sep)] for a non-empty [sep]: [s] is cut at every
    occurrence of [sep], found from left to right without overlap; [n]
    occurrences give [n + 1] parts.  [skip] counts the bytes of a separator
    just found that are still to be stepped over, [cur] is the part read so
    far. *)
Fixpoint splitFrom (sep : string) (skip : nat) (cur : string) (s : string) : list string :=
  match s with
  | EmptyString => [cur]
  | String c t =>
      match skip with
      | S k => splitFrom sep k cur t
      | O =>
          if String.prefix sep s
          then cur :: splitFrom sep (Nat.pred (String.length sep)) EmptyString t
          else splitFrom sep O (cur ++ str1 c) t
      end
  end.

Definition Split (s sep : string) : list string := splitFrom sep O EmptyString s.

(** [strings.Contains]. *)
Fixpoint Contains (s sub : string) : bool :=
  String.prefix sub s ||
  match s with
  | EmptyString => false
  | String _ t => Contains t sub
  end.

End Strings.

(** ** [unicode/utf8] and [unicode/utf16] *)

Module Utf8.

Definition RuneError : Z := 65533.      (* U+FFFD *)
Definition RuneSelf : Z := 128.
Definition MaxRune : Z := 1114111.      (* U+10FFFF *)
Definition surrogateMin : Z := 55296.   (* U+D800 *)
Definition surrogateMax : Z := 57343.   (* U+DFFF *)

(** What the table [first] says of a leading byte: the length of the
    sequence it starts and the range its second byte must lie in
    ([acceptRanges]); [None] for a byte that starts no sequence (the
    table's [xx]).  ASCII bytes are handled before the table is read. *)
Definition first (s0 : Z) : option (nat * (Z * Z)) :=
  if s0 <? 194 then None                                  (* 0x80..0xC1 *)
  else if s0 <=? 223 then Some (2%nat, (128, 191))        (* 0xC2..0xDF *)
  else if s0 =? 224 then Some (3%nat, (160, 191))         (* 0xE0 *)
  else if s0 <=? 236 then Some (3%nat, (128, 191))        (* 0xE1..0xEC *)
  else if s0 =? 237 then Some (3%nat, (128, 159))         (* 0xED *)
  else if s0 <=? 239 then Some (3%nat, (128, 191))        (* 0xEE..0xEF *)
  else if s0 =? 240 then Some (4%nat, (144, 191))         (* 0xF0 *)
  else if s0 <=? 243 then Some (4%nat, (128, 191))        (* 0xF1..0xF3 *)
  else if s0 =? 244 then Some (4%nat, (128, 143))         (* 0xF4 *)
  else None.                                              (* 0xF5..0xFF *)

(** A continuation byte, [locb <= b <= hicb]. *)
Definition isCont (b : Z) : bool := (128 <=? b) && (b <=? 191).

(** [utf8.DecodeRuneInString]: the first rune of [s] and its width in
    bytes; [(RuneError, 0)] for the empty string and [(RuneError, 1)] for a
    byte sequence that is not the UTF-8 of a rune. *)
Definition DecodeRuneInString (s : string) : Z * nat :=
  match s with
  | EmptyString => (RuneError, 0%nat)
  | String c0 _ =>
      let s0 := byteZ c0 in
      if s0 <? RuneSelf then (s0, 1%nat)
      else
        match first s0 with
        | None => (RuneError, 1%nat)
        | Some (sz, (lo, hi)) =>
            if (String.length s <? sz)%nat then (RuneError, 1%nat)
            else
              let s1 := at_ s 1 in
              if (s1 <? lo) || (hi <? s1) then (RuneError, 1%nat)
              else if (sz <=? 2)%nat then
                (Z.lor (Z.shiftl (Z.land s0 31) 6) (Z.land s1 63), 2%nat)
              else
                let s2 := at_ s 2 in
                if negb (isCont s2) then (RuneError, 1%nat)
                else if (sz <=? 3)%nat then
                  (Z.lor (Z.lor (Z.shiftl (Z.land s0 15) 12) (Z.shiftl (Z.land s1 63) 6))
                         (Z.land s2 63), 3%nat)
                else
                  let s3 := at_ s 3 in
                  if negb (isCont s3) then (RuneError, 1%nat)
                  else
                    (Z.lor (Z.lor (Z.lor (Z.shiftl (Z.land s0 7) 18)
                                         (Z.shiftl (Z.land s1 63) 12))
                                  (Z.shiftl (Z.land s2 63) 6))
                           (Z.land s3 63), 4%nat)
        end
  end.

(** [utf8.AppendRune(nil, r)]: the UTF-8 of [r]; a surrogate or a value out
    of range is written as U+FFFD. *)
Definition EncodeRune (r : Z) : string :=
  let enc3 (r : Z) :=
    String (ofZ (Z.lor 224 (Z.shiftr r 12)))
      (String (ofZ (Z.lor 128 (Z.land (Z.shiftr r 6) 63)))
         (String (ofZ (Z.lor 128 (Z.land r 63))) EmptyString)) in
  if (0 <=? r) && (r <=? 127) then str1 (ofZ r)
  else if (0 <=? r) && (r <=? 2047) then
    String (ofZ (Z.lor 192 (Z.shiftr r 6)))
      (String (ofZ (Z.lor 128 (Z.land r 63))) EmptyString)
  else if (r <? 0) || (MaxRune <? r) || ((surrogateMin <=? r) && (r <=? surrogateMax))
  then enc3 RuneError
  else if r <=? 65535 then enc3 r
  else
    String (ofZ (Z.lor 240 (Z.shiftr r 18)))
      (String (ofZ (Z.lor 128 (Z.land (Z.shiftr r 12) 63)))
         (String (ofZ (Z.lor 128 (Z.land (Z.shiftr r 6) 63)))
            (String (ofZ (Z.lor 128 (Z.land r 63))) EmptyString))).

(** [utf8.ValidString]: [s] is the UTF-8 of a sequence of runes.  [skip]
    counts the bytes of the rune just decoded that are still to be stepped
    over. *)
Fixpoint validFrom (skip : nat) (s : string) : bool :=
  match s with
  | EmptyString => true
  | String c t =>
      match skip with
      | S k => validFrom k t
      | O =>
          let '(r, size) := DecodeRuneInString s in
          if (r =? RuneError) && (size =? 1)%nat then false
          else validFrom (Nat.pred size) t
      end
  end.

Definition ValidString (s : string) : bool := validFrom O s.

(** [utf16.IsSurrogate] and [utf16.DecodeRune]: the rune of a surrogate
    pair, U+FFFD when [r1], [r2] is not a high surrogate followed by a low
    one. *)
Definition IsSurrogate (r : Z) : bool := (surrogateMin <=? r) && (r <? 57344).

Definition DecodeSurrogates (r1 r2 : Z) : Z :=
  if (55296 <=? r1) && (r1 <? 56320) && (56320 <=? r2) && (r2 <? 57344)
  then Z.lor (Z.shiftl (r1 - 55296) 10) (r2 - 56320) + 65536
  else RuneError.

End Utf8.

(** ** [encoding/json] *)

Module Json.
Import Utf8.

(** *** Encoding *)

(** [hex[n]] for [0 <= n < 16]. *)
Definition hexDigit (n : Z) : ascii :=
  match String.get (Z.to_nat n) "0123456789abcdef" with
  | Some c => c
  | None => "0"%char
  end.

(** [htmlSafeSet[b]] for an ASCII byte: printable, and none of the double
    quote, the backslash, [<], [>] and [&]. *)
Definition htmlSafe (b : Z) : bool :=
  (32 <=? b) && negb ((b =? 34) || (b =? 38) || (b =? 60) || (b =? 62) || (b =? 92)).

(** What [appendString] writes for one ASCII byte (with [escapeHTML], as
    [json.Marshal] sets it).  The bytes 8 and 12 are written [\u0008] and
    [\u000c]; Go 1.22 and later write them [\b] and [\f], which the decoder
    reads alike. *)
Definition escapeByte (c : ascii) : string :=
  let b := byteZ c in
  if htmlSafe b then str1 c
  else if (b =? 92) || (b =? 34) then String backslash (str1 c)
  else if b =? 10 then String backslash "n"
  else if b =? 13 then String backslash "r"
  else if b =? 9 then String backslash "t"
  else String backslash
         ("u00" ++ String (hexDigit (Z.shiftr b 4)) (str1 (hexDigit (Z.land b 15)))).

(** The loop of [appendString] over [src[i:]]: ASCII bytes through
    [escapeByte]; a byte that starts no valid UTF-8 sequence becomes the six
    bytes of the escape for U+FFFD; U+2028 and U+2029 become their six-byte
    escapes; every other rune is copied.  [skip] counts the bytes of the rune just handled
    that are still to be stepped over ([i += size]). *)
Fixpoint appendFrom (skip : nat) (s : string) : string :=
  match s with
  | EmptyString => EmptyString
  | String c t =>
      match skip with
      | S k => appendFrom k t
      | O =>
          if byteZ c <? RuneSelf then escapeByte c ++ appendFrom O t
          else
            let '(r, size) := DecodeRuneInString s in
            if (r =? RuneError) && (size =? 1)%nat
            then String backslash "ufffd" ++ appendFrom O t
            else if (r =? 8232) || (r =? 8233)
            then String backslash "u202" ++ str1 (hexDigit (Z.land r 15))
                   ++ appendFrom (Nat.pred size) t
            else take size s ++ appendFrom (Nat.pred size) t
      end
  end.

(** [appendString(nil, s, true)]: the JSON string literal of [s]. *)
Definition appendString (s : string) : string :=
  String dquote (appendFrom O s ++ str1 dquote).

(** The values the handlers put into a [map[string]interface{}]: a string,
    an integer ([time.Duration] is an [int64]) and a [json.RawMessage]. *)
Inductive value : Type :=
| VString (s : string)
| VInt (n : Z)
| VRaw (m : string).

(** [strconv.AppendInt(nil, n, 10)]. *)
Definition formatInt (n : Z) : string := NilZero.string_of_int (Z.to_int n).

Section Marshal.
  (** [compact] of encoding/json on a raw message: the message without
      insignificant white space, or the error of a message that is not
      valid JSON. *)
  Variable compact : string -> result string.

Definition encodeValue (v : value) : result string :=
  match v with
  | VString s => Ok (appendString s)
  | VInt n => Ok (formatInt n)
  | VRaw m => compact m
  end.

  (** The members of an object, in the order given, separated by commas. *)
Fixpoint encodeMembers (kvs : list (string * value)) : result string :=
  match kvs with
  | [] => Ok EmptyString
  | (k, v) :: rest =>
      match encodeValue v, encodeMembers rest with
      | Ok ev, Ok er =>
          Ok (appendString k ++ ":" ++ ev
                ++ (if Nat.eqb (List.length rest) O then EmptyString else ",") ++ er)
      | Err e, _ => Err e
      | _, Err e => Err e
      end
  end.

Definition keyLe (a b : string * value) : Prop := String.leb (fst a) (fst b) = true.

#[local] Instance keyLe_dec a b : Decision (keyLe a b).
Proof. unfold keyLe. apply _. Defined.

  (** [json.Marshal] of a non-nil [map[string]interface{}]: an object whose
      members are sorted by key, byte by byte. *)
Definition Marshal (m : gmap string value) : result string :=
  match encodeMembers (merge_sort keyLe (map_to_list m)) with
  | Ok body => Ok ("{" ++ body ++ "}")
  | Err e => Err e
  end.
End Marshal.

(** [json.Marshal] of a non-nil [map[string]string]; it has no error. *)
Definition MarshalStrings (m : gmap string string) : result string :=
  Marshal (fun raw => Ok raw) (VString <$> m).

(** *** Decoding into a [map[string]string] *)

(** [getu4]: the number written by the four hex digits of a [\uXXXX] at the
    start of [s], [-1] when [s] does not start with one. *)
Definition getu4 (s : string) : Z :=
  match s with
  | String b (String u (String h1 (String h2 (String h3 (String h4 _))))) =>
      if Ascii.eqb b backslash && Ascii.eqb u "u"
         && Url.ishex h1 && Url.ishex h2 && Url.ishex h3 && Url.ishex h4
      then ((Url.unhex h1 * 16 + Url.unhex h2) * 16 + Url.unhex h3) * 16 + Url.unhex h4
      else -1
  | _ => -1
  end.

(** [unquoteBytes] on the inside of a string literal: escapes are replaced
    by what they stand for, a [\uXXXX] surrogate pair by its rune and a lone
    surrogate by U+FFFD, and bytes that are no valid UTF-8 by U+FFFD; [None]
    for a control character, a bare double quote or an escape JSON does not
    have.  [skip] counts the bytes of the escape or rune just handled that
    are still to be stepped over. *)
Fixpoint unquoteFrom (skip : nat) (s : string) : option string :=
  match s with
  | EmptyString => Some EmptyString
  | String c t =>
      match skip with
      | S k => unquoteFrom k t
      | O =>
          if Ascii.eqb c backslash then
            match t with
            | EmptyString => None
            | String e _ =>
                let z := byteZ e in
                if (z =? 34) || (z =? 92) || (z =? 47) then String e <$> unquoteFrom 1 t
                else if z =? 98 then String "008"%char <$> unquoteFrom 1 t
                else if z =? 102 then String "012"%char <$> unquoteFrom 1 t
                else if z =? 110 then String "010"%char <$> unquoteFrom 1 t
                else if z =? 114 then String "013"%char <$> unquoteFrom 1 t
                else if z =? 116 then String "009"%char <$> unquoteFrom 1 t
                else if z =? 117 then
                  let rr := getu4 s in
                  if rr <? 0 then None
                  else if IsSurrogate rr then
                    let dec := DecodeSurrogates rr (getu4 (drop 6 s)) in
                    if negb (dec =? RuneError)
                    then String.append (EncodeRune dec) <$> unquoteFrom 11 t
                    else String.append (EncodeRune RuneError) <$> unquoteFrom 5 t
                  else String.append (EncodeRune rr) <$> unquoteFrom 5 t
                else None
            end
          else if (byteZ c =? 34) || (byteZ c <? 32) then None
          else if byteZ c <? RuneSelf then String c <$> unquoteFrom O t
          else
            let '(rr, size) := DecodeRuneInString s in
            String.append (EncodeRune rr) <$> unquoteFrom (Nat.pred size) t
      end
  end.

Definition unquote (raw : string) : option string := unquoteFrom O raw.

(** The decoder reads its input byte by byte, as the scanner of
    encoding/json does.  These are the places it can be in while it reads a
    value for a [map[string]string]: the literal [null] (the map stays nil,
    which reads like the empty map) or an object whose member values are
    strings or [null] (a [null] member stores the empty string).  Every
    other input ends in [DFail]: it is either no valid JSON or holds a value
    that is no string, and [json.Unmarshal] returns an error for both. *)
Inductive dstate : Type :=
| DBegin                                             (* before the value *)
| DTopNull (rest : string)                           (* inside the literal null *)
| DObjOpen                                           (* after the opening brace *)
| DKey (esc : bool) (raw : string)                   (* inside a key *)
| DColon (key : string)                              (* after a key *)
| DValue (key : string)                              (* after the colon *)
| DStr (key : string) (esc : bool) (raw : string)    (* inside a string value *)
| DValNull (key : string) (rest : string)            (* inside a null value *)
| DNext                                              (* after a member *)
| DComma                                             (* after a comma *)
| DEnd                                               (* after the value *)
| DFail.

Definition isSpace (c : ascii) : bool :=
  let z := byteZ c in (z =? 32) || (z =? 9) || (z =? 13) || (z =? 10).

(** One more byte of a literal whose remaining bytes are [rest]: the rest
    still expected, [Some ""] when the literal is complete. *)
Definition literalStep (rest : string) (c : ascii) : option string :=
  match rest with
  | String x r => if Ascii.eqb c x then Some r else None
  | EmptyString => None
  end.

Definition step (st : dstate * gmap string string) (c : ascii) : dstate * gmap string string :=
  let '(d, m) := st in
  let z := byteZ c in
  match d with
  | DBegin =>
      if isSpace c then (DBegin, m)
      else if z =? 123 then (DObjOpen, m)
      else if z =? 110 then (DTopNull "ull", m)
      else (DFail, m)
  | DTopNull rest =>
      match literalStep rest c with
      | Some EmptyString => (DEnd, m)
      | Some r => (DTopNull r, m)
      | None => (DFail, m)
      end
  | DObjOpen =>
      if isSpace c then (DObjOpen, m)
      else if z =? 34 then (DKey false EmptyString, m)
      else if z =? 125 then (DEnd, m)
      else (DFail, m)
  | DKey esc raw =>
      if esc then (DKey false (raw ++ str1 c), m)
      else if z =? 92 then (DKey true (raw ++ str1 c), m)
      else if z =? 34 then
        match unquote raw with
        | Some k => (DColon k, m)
        | None => (DFail, m)
        end
      else (DKey false (raw ++ str1 c), m)
  | DColon k =>
      if isSpace c then (DColon k, m)
      else if z =? 58 then (DValue k, m)
      else (DFail, m)
  | DValue k =>
      if isSpace c then (DValue k, m)
      else if z =? 34 then (DStr k false EmptyString, m)
      else if z =? 110 then (DValNull k "ull", m)
      else (DFail, m)
  | DStr k esc raw =>
      if esc then (DStr k false (raw ++ str1 c), m)
      else if z =? 92 then (DStr k true (raw ++ str1 c), m)
      else if z =? 34 then
        match unquote raw with
        | Some v => (DNext, <[k := v]> m)
        | None => (DFail, m)
        end
      else (DStr k false (raw ++ str1 c), m)
  | DValNull k rest =>
      match literalStep rest c with
      | Some EmptyString => (DNext, <[k := EmptyString]> m)
      | Some r => (DValNull k r, m)
      | None => (DFail, m)
      end
  | DNext =>
      if isSpace c then (DNext, m)
      else if z =? 44 then (DComma, m)
      else if z =? 125 then (DEnd, m)
      else (DFail, m)
  | DComma =>
      if isSpace c then (DComma, m)
      else if z =? 34 then (DKey false EmptyString, m)
      else (DFail, m)
  | DEnd => if isSpace c then (DEnd, m) else (DFail, m)
  | DFail => (DFail, m)
  end.

Fixpoint run (st : dstate * gmap string string) (data : string) : dstate * gmap string string :=
  match data with
  | EmptyString => st
  | String c t => run (step st c) t
  end.

(** [json.Unmarshal(data, &m)] for a nil [m] of type [map[string]string]:
    the map read, [None] when Unmarshal returns an error. *)
Definition Unmarshal (data : string) : option (gmap string string) :=
  match run (DBegin, ∅) data with
  | (DEnd, m) => Some m
  | _ => None
  end.

End Json.

(** ** The key-value store ([storage.Store])

    The handlers reach the store through an interface: [Put] and [Get] can
    fail, and a [Get] of a key that was never put fails with
    [ErrDataNotFound]. *)

Module Storage.

Class Store (S : Type) : Type := {
  Put : S -> string -> string -> result S;
  Get : S -> string -> result string
}.

(** What a provider guarantees: a value put is the value got, and a put
    leaves the other keys as they were. *)
Class StoreLaws (S : Type) `{Store S} : Prop := {
  get_put : forall s s' k v, Put s k v = Ok s' -> Get s' k = Ok v;
  get_put_ne : forall s s' k v k', Put s k v = Ok s' -> k' <> k -> Get s' k' = Get s k'
}.

Definition ErrDataNotFound : string := "data not found".

(** The in-memory provider: a map; it refuses the empty key. *)
#[export] Instance MemStore : Store (gmap string string) := {
  Put s k v := if isEmpty k then Err "key is mandatory" else Ok (<[k := v]> s);
  Get s k := match s !! k with Some v => Ok v | None => Err ErrDataNotFound end
}.

(** One access of a handler to the store. *)
Inductive access : Type :=
| AGet (key : string)
| APut (key value : string).

End Storage.
Import Storage.

(** ** [net/http]: requests and the response writer *)

Module Http.

Definition StatusOK : Z := 200.
Definition StatusFound : Z := 302.
Definition StatusBadRequest : Z := 400.
Definition StatusForbidden : Z := 403.
Definition StatusInternalServerError : Z := 500.

(** A request as the handlers read it.  [Form] is what [r.ParseForm] leaves
    in [r.Form] and [parseFormErr] the error it returns, if any; [Header]
    is keyed by canonical header names; [Vars] are the path variables of
    the route ([mux.Vars]). *)
Record Request : Type := {
  Method : string;
  parseFormErr : option string;
  Form : gmap string (list string);
  Header : gmap string (list string);
  Cookies : list (string * string);
  Vars : gmap string string;
  Body : string
}.

(** [r.FormValue(key)]: the first value of [key], errors of the parse
    ignored. *)
Definition FormValue (r : Request) (key : string) : string := Url.Values_Get (Form r) key.

(** [r.Header.Get(key)] for a canonical [key]. *)
Definition Header_Get (r : Request) (key : string) : string := Url.Values_Get (Header r) key.

(** [r.Cookie(name)]: the value of the first cookie of that name. *)
Fixpoint findCookie (cs : list (string * string)) (name : string) : result string :=
  match cs with
  | [] => Err "http: named cookie not present"
  | (n, v) :: rest => if String.eqb n name then Ok v else findCookie rest name
  end.

Definition Cookie (r : Request) (name : string) : result string := findCookie (Cookies r) name.

(** [mux.Vars(r)[name]]. *)
Definition Var (r : Request) (name : string) : string := default EmptyString (Vars r !! name).

Record SetCookie : Type := {
  cookieName : string;
  cookieValue : string;
  cookieExpires : Z;
  cookiePath : string
}.

(** What a handler has done to its [http.ResponseWriter]: the headers set,
    the status of the first [WriteHeader] ([None] before it), the bytes
    written, the cookies set and the target handed to [http.Redirect] (the
    [Location] header net/http derives from the target, and the short HTML
    body it adds to a redirected GET, are not modelled). *)
Record Response : Type := {
  headers : gmap string (list string);
  status : option Z;
  body : string;
  cookies : list SetCookie;
  redirect : option string
}.

Definition emptyResponse : Response :=
  {| headers := ∅; status := None; body := EmptyString; cookies := []; redirect := None |}.

(** [w.Header().Set(key, value)]. *)
Definition setHeader (key value : string) (w : Response) : Response :=
  {| headers := <[key := [value]]> (headers w); status := status w; body := body w;
     cookies := cookies w; redirect := redirect w |}.

(** [w.WriteHeader(code)]: the first call decides the status, a later one
    is superfluous and changes nothing. *)
Definition WriteHeader (code : Z) (w : Response) : Response :=
  {| headers := headers w;
     status := match status w with Some c => Some c | None => Some code end;
     body := body w; cookies := cookies w; redirect := redirect w |}.

(** [w.Write(data)]: writes the status 200 first if none was written. *)
Definition Write (data : string) (w : Response) : Response :=
  let w' := WriteHeader StatusOK w in
  {| headers := headers w'; status := status w'; body := body w' ++ data;
     cookies := cookies w'; redirect := redirect w' |}.

(** [http.SetCookie(w, cookie)]. *)
Definition addCookie (c : SetCookie) (w : Response) : Response :=
  {| headers := headers w; status := status w; body := body w;
     cookies := (cookies w ++ [c])%list; redirect := redirect w |}.

(** [http.Redirect(w, r, target, code)]. *)
Definition Redirect (target : string) (code : Z) (w : Response) : Response :=
  let w' := WriteHeader code w in
  {| headers := headers w'; status := status w'; body := body w';
     cookies := cookies w';
     redirect := match redirect w with Some t => Some t | None => Some target end |}.

End Http.
Import Http.

(** ** [time] *)

Module Time.
Definition Nanosecond : Z := 1.
Definition Microsecond : Z := 1000 * Nanosecond.
Definition Millisecond : Z := 1000 * Microsecond.
Definition Second : Z := 1000 * Millisecond.
Definition Minute : Z := 60 * Second.
End Time.

(** ** The handler monad *)

Module Handler.

(** The world a handler runs in: the store, the log of the accesses made
    to it (oldest first), the number of UUIDs drawn so far and the clock. *)
Record World (S : Type) : Type := {
  store : S;
  accesses : list access;
  drawn : nat;
  clock : Z
}.
Arguments store {S} w.
Arguments accesses {S} w.
Arguments drawn {S} w.
Arguments clock {S} w.

Record State (S : Type) : Type := { resp : Response; world : World S }.
Arguments resp {S} s.
Arguments world {S} s.
Arguments Build_State {S} resp world.

(** A step of a handler goes on with a value or has returned from the
    handler. *)
Inductive flow (A : Type) : Type :=
| Next (a : A)
| Returned.
Arguments Next {A} a.
Arguments Returned {A}.

Definition M (S A : Type) : Type := State S -> flow A * State S.

Definition pure {S A} (a : A) : M S A := fun st => (Next a, st).

Definition bind {S A B} (m : M S A) (k : A -> M S B) : M S B :=
  fun st =>
    match m st with
    | (Next a, st') => k a st'
    | (Returned, st') => (Returned, st')
    end.

(** Go's [return] in a handler. *)
Definition ret {S A} : M S A := fun st => (Returned, st).

Declare Scope handler_scope.
Delimit Scope handler_scope with handler.
Notation "x <- m ;; k" := (bind m (fun x => k))
  (at level 100, m at next level, right associativity) : handler_scope.
Notation "m ;; k" := (bind m (fun _ => k))
  (at level 100, right associativity) : handler_scope.

#[local] Open Scope handler_scope.

(** [x, err := m; if err != nil { onErr(err); return }]. *)
Definition orReturn {S A} (m : M S (result A)) (onErr : string -> M S unit) : M S A :=
  r <- m ;;
  match r with
  | Ok a => pure a
  | Err e => onErr e ;; ret
  end.

(** [if cond { body; return }]. *)
Definition returnIf {S} (cond : bool) (body : M S unit) : M S unit :=
  if cond then body ;; ret else pure tt.

(** A call on the response writer. *)
Definition onResponse {S} (f : Response -> Response) : M S unit :=
  fun st => (Next tt, Build_State (f (resp st)) (world st)).

Section Primitives.
  Context {S : Type} `{Store S}.

  (** The sequence of UUIDs [uuid.NewString] yields. *)
  Variable uuidSource : nat -> string.

Definition logged (a : access) (w : World S) (s : S) : World S :=
  {| store := s; accesses := (accesses w ++ [a])%list; drawn := drawn w; clock := clock w |}.

  (** [c.store.Get(key)]. *)
Definition storeGet (key : string) : M S (result string) :=
  fun st =>
    let w := world st in
    (Next (Get (store w) key), Build_State (resp st) (logged (AGet key) w (store w))).

  (** [c.store.Put(key, value)]. *)
Definition storePut (key value : string) : M S (result unit) :=
  fun st =>
    let w := world st in
    match Put (store w) key value with
    | Ok s' => (Next (Ok tt), Build_State (resp st) (logged (APut key value) w s'))
    | Err e => (Next (Err e), Build_State (resp st) (logged (APut key value) w (store w)))
    end.

  (** [uuid.NewString()]. *)
Definition newUUID : M S string :=
  fun st =>
    let w := world st in
    (Next (uuidSource (drawn w)),
     Build_State (resp st)
       {| store := store w; accesses := accesses w; drawn := Datatypes.S (drawn w);
          clock := clock w |}).

  (** [time.Now()]. *)
Definition now : M S Z := fun st => (Next (clock (world st)), st).

  (** Running a handler on a fresh response writer. *)
Definition serve (h : M S unit) (w : World S) : Response * World S :=
  let '(_, st) := h (Build_State emptyResponse w) in (resp st, world st).
End Primitives.

End Handler.
Import Handler.
#[local] Open Scope handler_scope.

(** ** The operations *)

Module Operation.

Definition oidcIssuanceLogin : string := "/oidc/login".

Definition getCredStoreKeyPrefix (key : string) : string := "cred_store_" ++ key.
Definition getAuthStateKeyPrefix (key : string) : string := "authstate_" ++ key.
Definition getAuthCodeKeyPrefix (key : string) : string := "authcode_" ++ key.
Definition getAccessTokenKeyPrefix (key : string) : string := "access_token_" ++ key.

(** The body [sendOIDCErrorResponse] writes: the message between the
    quotes of a one-member object, a space after the colon. *)
Definition oidcErrorBody (msg : string) : string :=
  "{" ++ str1 dquote ++ "error" ++ str1 dquote ++ ": " ++ str1 dquote ++ msg ++ str1 dquote ++ "}".

(** Modelled from the spec: the type [oidcIssuanceRequest], whose
    declaration is not among the sources; the fields are those
    [initiateIssuance] reads. *)
Record oidcIssuanceRequest (Manifests : Type) : Type := {
  WalletInitIssuanceURL : string;
  CredentialTypes : string;
  ManifestIDs : string;
  IssuerURL : string;
  CredManifest : Manifests;
  Credential : string
}.
Arguments WalletInitIssuanceURL {Manifests} _.
Arguments CredentialTypes {Manifests} _.
Arguments ManifestIDs {Manifests} _.
Arguments IssuerURL {Manifests} _.
Arguments CredManifest {Manifests} _.
Arguments Credential {Manifests} _.

(** Modelled from the spec: the type [issuerConfiguration], whose
    declaration is not among the sources: the well-known document with
    the members issuer, authorization_endpoint, token_endpoint,
    credential_endpoint and credential_manifests. *)
Record issuerConfiguration (Manifests : Type) : Type := {
  Issuer : string;
  AuthorizationEndpoint : string;
  TokenEndpoint : string;
  CredentialEndpoint : string;
  CredentialManifests : Manifests
}.
Arguments Issuer {Manifests} _.
Arguments AuthorizationEndpoint {Manifests} _.
Arguments TokenEndpoint {Manifests} _.
Arguments CredentialEndpoint {Manifests} _.
Arguments CredentialManifests {Manifests} _.

(** The proof options [signVCWithED25519] builds. *)
Record LinkedDataProofContext : Type := {
  SignatureType : string;
  VerificationMethod : string;
  Purpose : string;
  Created : Z
}.

Definition kid : string :=
  "did:key:z6MknC1wwS6DEYwtGbZZo2QvjQjkh2qSBjb4GYmbye8dv4S5#z6MknC1wwS6DEYwtGbZZo2QvjQjkh2qSBjb4GYmbye8dv4S5".

Section Handlers.
  Context {S : Type} `{Store S}.

  (** The UUIDs [uuid.NewString] yields, in order. *)
  Variable uuidSource : nat -> string.
  (** [strconv.Quote], for the text of an [EscapeError]. *)
  Variable strconvQuote : string -> string.
  (** [compact] of encoding/json, for a [json.RawMessage]. *)
  Variable jsonCompact : string -> result string.
  (** The wallet URL the service is configured with ([c.walletURL]). *)
  Variable walletURL : string.

  (** The request body of [initiateIssuance] read by [json.Decoder], and
      [json.MarshalIndent] of the well-known document (tab-indented). *)
  Variable Manifests : Type.
  Variable decodeIssuanceRequest : string -> result (oidcIssuanceRequest Manifests).
  Variable marshalIndentIssuerConfiguration : issuerConfiguration Manifests -> result string.

  (** [net/url]: [url.Parse], [u.Query()], [q.Encode()], the assignment to
      [u.RawQuery] and [u.String()]. *)
  Variable URL : Type.
  Variable urlParse : string -> result URL.
  Variable urlQuery : URL -> gmap string (list string).
  Variable valuesEncode : gmap string (list string) -> string.
  Variable urlSetRawQuery : URL -> string -> URL.
  Variable urlString : URL -> string.

  (** The verifiable-credential library: [verifiable.ParseCredential],
      [vc.AddLinkedDataProof] and [vc.MarshalJSON]. *)
  Variable VC : Type.
  Variable ParseCredential : string -> result VC.
  Variable AddLinkedDataProof : VC -> LinkedDataProofContext -> result VC.
  Variable MarshalJSON : VC -> result string.

  Abbreviation M := (Handler.M S).

Definition writeErrorResponse (status : Z) (msg : string) : M unit :=
  onResponse (WriteHeader status) ;;
  onResponse (Write msg).

Definition writeResponse (status : Z) (data : string) : M unit :=
  onResponse (WriteHeader status) ;;
  onResponse (Write data).

Definition setOIDCResponseHeaders : M unit :=
  onResponse (setHeader "Content-Type" "application/json") ;;
  onResponse (setHeader "Cache-Control" "no-store") ;;
  onResponse (setHeader "Pragma" "no-cache").

Definition sendOIDCErrorResponse (msg : string) (status : Z) : M unit :=
  onResponse (WriteHeader status) ;;
  writeResponse status (oidcErrorBody msg).

Definition enableCors : M unit :=
  onResponse (setHeader "Access-Control-Allow-Origin" "*").

  (** [v, ok := m[key]; if !ok { onMissing; return }]. *)
Definition required {A} (o : option A) (onMissing : M unit) : M A :=
  match o with
  | Some a => pure a
  | None => onMissing ;; ret
  end.

Definition saveIssuanceConfig (key issuerConf credential : string) : M (result unit) :=
  r1 <- storePut key issuerConf ;;
  match r1 with
  | Err e => pure (Err ("failed to store issuer server configuration : " ++ e))
  | Ok _ =>
      r2 <- storePut (getCredStoreKeyPrefix key) credential ;;
      match r2 with
      | Err e => pure (Err ("failed to store credential : " ++ e))
      | Ok _ => pure (Ok tt)
      end
  end.

Definition parseWalletURL (walletURL issuer : string) (credentialTypes manifestIDs : list string)
  : result string :=
  match urlParse walletURL with
  | Err e => Err ("failed to parse wallet init issuance URL : " ++ e)
  | Ok u =>
      let q := urlQuery u in
      let q := Url.Values_Set q "issuer" issuer in
      let q := fold_left (fun q credType => Url.Values_Add q "credential_type" credType)
                 credentialTypes q in
      let q := fold_left (fun q manifestID => Url.Values_Add q "manifest_id" manifestID)
                 manifestIDs q in
      Ok (urlString (urlSetRawQuery u (valuesEncode q)))
  end.

Definition initiateIssuance (r : Request) : M unit :=
  oidcIssuanceReq <- orReturn (pure (decodeIssuanceRequest (Body r)))
    (fun err => writeErrorResponse StatusBadRequest ("failed to decode request: " ++ err)) ;;
  let walletURL :=
    if isEmpty (WalletInitIssuanceURL oidcIssuanceReq) then walletURL
    else WalletInitIssuanceURL oidcIssuanceReq in
  let credentialTypes := Strings.Split (CredentialTypes oidcIssuanceReq) "," in
  let manifestIDs := Strings.Split (ManifestIDs oidcIssuanceReq) "," in
  let issuerURL := IssuerURL oidcIssuanceReq in
  let credManifest := CredManifest oidcIssuanceReq in
  let credential := Credential oidcIssuanceReq in
  key <- newUUID uuidSource ;;
  let issuer := issuerURL ++ "/" ++ key in
  issuerConf <- orReturn
    (pure (marshalIndentIssuerConfiguration
             {| Issuer := issuer;
                AuthorizationEndpoint := issuer ++ "/oidc/authorize";
                TokenEndpoint := issuer ++ "/oidc/token";
                CredentialEndpoint := issuer ++ "/oidc/credential";
                CredentialManifests := credManifest |}))
    (fun err => writeErrorResponse StatusInternalServerError
                  ("failed to prepare issuer wellknown configuration : " ++ err)) ;;
  orReturn (saveIssuanceConfig key issuerConf credential)
    (fun err => writeErrorResponse StatusInternalServerError
                  ("failed to store issuer server configuration : " ++ err)) ;;
  redirectURL <- orReturn (pure (parseWalletURL walletURL issuer credentialTypes manifestIDs))
    (fun err => writeErrorResponse StatusInternalServerError
                  ("failed to parse wallet init issuance URL : " ++ err)) ;;
  writeResponse StatusOK redirectURL.

Definition wellKnownConfiguration (r : Request) : M unit :=
  enableCors ;;
  let id := Var r "id" in
  issuerConf <- orReturn (storeGet id)
    (fun err => writeErrorResponse StatusInternalServerError
                  ("failed to read well known configuration : " ++ err)) ;;
  onResponse (setHeader "Content-Type" "application/json") ;;
  writeResponse StatusOK issuerConf.

Definition oidcAuthorize (r : Request) : M unit :=
  orReturn (pure (match parseFormErr r with Some e => Err e | None => Ok tt end))
    (fun err => writeErrorResponse StatusBadRequest ("failed to parse request : " ++ err)) ;;
  claims <- orReturn (pure (Url.PathUnescape strconvQuote (Url.Values_Get (Form r) "claims")))
    (fun err => writeErrorResponse StatusBadRequest ("failed to read claims : " ++ err)) ;;
  redirectURI <- orReturn
    (pure (Url.PathUnescape strconvQuote (Url.Values_Get (Form r) "redirect_uri")))
    (fun err => writeErrorResponse StatusBadRequest ("failed to read redirect URI : " ++ err)) ;;
  let scope := Url.Values_Get (Form r) "scope" in
  let state := Url.Values_Get (Form r) "state" in
  let responseType := Url.Values_Get (Form r) "response_type" in
  let clientID := Url.Values_Get (Form r) "client_id" in
  (* basic validation only. *)
  returnIf (isEmpty claims || isEmpty redirectURI || isEmpty clientID || isEmpty state)
    (writeErrorResponse StatusBadRequest "Invalid Request") ;;
  authState <- newUUID uuidSource ;;
  authRequest <- orReturn
    (pure (Json.MarshalStrings
             (<["claims" := claims]>
              (<["scope" := scope]>
               (<["state" := state]>
                (<["response_type" := responseType]>
                 (<["client_id" := clientID]>
                  (<["redirect_uri" := redirectURI]> ∅))))))))
    (fun err => writeErrorResponse StatusInternalServerError
                  ("failed to process authorization request : " ++ err)) ;;
  orReturn (storePut (getAuthStateKeyPrefix authState) authRequest)
    (fun err => writeErrorResponse StatusInternalServerError ("failed to save state : " ++ err)) ;;
  t <- now ;;
  onResponse (addCookie {| cookieName := "state"; cookieValue := authState;
                           cookieExpires := t + 5 * Time.Minute; cookiePath := "/" |}) ;;
  onResponse (Redirect oidcIssuanceLogin StatusFound).

Definition oidcSendAuthorizeResponse (r : Request) : M unit :=
  stateCookie <- orReturn (pure (Cookie r "state"))
    (fun _ => writeErrorResponse StatusForbidden "invalid state") ;;
  authRqstBytes <- orReturn (storeGet (getAuthStateKeyPrefix stateCookie))
    (fun _ => writeErrorResponse StatusBadRequest "invalid request") ;;
  authRequest <- required (Json.Unmarshal authRqstBytes)
    (writeErrorResponse StatusInternalServerError "failed to read request") ;;
  redirectURI <- required (authRequest !! "redirect_uri")
    (writeErrorResponse StatusInternalServerError "failed to redirect, invalid URL") ;;
  state <- required (authRequest !! "state")
    (writeErrorResponse StatusInternalServerError "failed to redirect, invalid state") ;;
  authCode <- newUUID uuidSource ;;
  orReturn (storePut (getAuthCodeKeyPrefix authCode) stateCookie)
    (fun _ => writeErrorResponse StatusInternalServerError "failed to store state cookie value") ;;
  let redirectTo := redirectURI ++ "?code=" ++ authCode ++ "&state=" ++ state in
  onResponse (Redirect redirectTo StatusFound).

  (** The map [oidcTokenEndpoint] marshals into its response. *)
Definition tokenResponse (mockAccessToken : string) : gmap string Json.value :=
  <["token_type" := Json.VString "Bearer"]>
    (<["access_token" := Json.VString mockAccessToken]>
       (<["expires_in" := Json.VInt (3600 * Time.Second)]> ∅)).

Definition oidcTokenEndpoint (r : Request) : M unit :=
  setOIDCResponseHeaders ;;
  let code := FormValue r "code" in
  let redirectURI := FormValue r "redirect_uri" in
  let grantType := FormValue r "grant_type" in
  returnIf (negb (String.eqb grantType "authorization_code"))
    (sendOIDCErrorResponse "unsupported grant type" StatusBadRequest) ;;
  authState <- orReturn (storeGet (getAuthCodeKeyPrefix code))
    (fun _ => sendOIDCErrorResponse "invalid state" StatusBadRequest) ;;
  authRqstBytes <- orReturn (storeGet (getAuthStateKeyPrefix authState))
    (fun _ => sendOIDCErrorResponse "invalid request" StatusBadRequest) ;;
  authRequest <- required (Json.Unmarshal authRqstBytes)
    (sendOIDCErrorResponse "failed to read request" StatusInternalServerError) ;;
  returnIf (negb (String.eqb (default EmptyString (authRequest !! "redirect_uri")) redirectURI))
    (sendOIDCErrorResponse "request validation failed" StatusInternalServerError) ;;
  mockAccessToken <- newUUID uuidSource ;;
  let mockIssuerID := Var r "id" in
  orReturn (storePut (getAccessTokenKeyPrefix mockAccessToken) mockIssuerID)
    (fun _ => sendOIDCErrorResponse "failed to save token state" StatusInternalServerError) ;;
  response <- orReturn (pure (Json.Marshal jsonCompact (tokenResponse mockAccessToken)))
    (fun _ => sendOIDCErrorResponse "response_write_error" StatusBadRequest) ;;
  writeResponse StatusOK response.

Definition signVCWithED25519 (vc : VC) : M (result VC) :=
  tt <- now ;;
  pure (AddLinkedDataProof vc
          {| SignatureType := "Ed25519Signature2018"; VerificationMethod := kid;
             Purpose := "assertionMethod"; Created := tt |}).

Definition oidcCredentialEndpoint (r : Request) : M unit :=
  setOIDCResponseHeaders ;;
  let format := FormValue r "format" in
  returnIf (negb (String.eqb format "") && negb (String.eqb format "ldp_vc"))
    (sendOIDCErrorResponse "unsupported format requested" StatusBadRequest) ;;
  let authHeader := Strings.Split (Header_Get r "Authorization") "Bearer " in
  returnIf (negb (Nat.eqb (List.length authHeader) 2))
    (sendOIDCErrorResponse "malformed token" StatusBadRequest) ;;
  returnIf (String.eqb (nth 1 authHeader EmptyString) "")
    (sendOIDCErrorResponse "invalid token" StatusForbidden) ;;
  let mockIssuerID := Var r "id" in
  issuerID <- orReturn (storeGet (getAccessTokenKeyPrefix (nth 1 authHeader EmptyString)))
    (fun _ => sendOIDCErrorResponse "unsupported format requested" StatusBadRequest) ;;
  returnIf (negb (String.eqb mockIssuerID issuerID))
    (sendOIDCErrorResponse "invalid transaction" StatusForbidden) ;;
  credentialBytes <- orReturn (storeGet (getCredStoreKeyPrefix mockIssuerID))
    (fun _ => sendOIDCErrorResponse "failed to get credential" StatusInternalServerError) ;;
  credential <- orReturn (pure (ParseCredential credentialBytes))
    (fun _ => sendOIDCErrorResponse "failed to prepare credential" StatusInternalServerError) ;;
  signed <- orReturn (signVCWithED25519 credential)
    (fun _ => sendOIDCErrorResponse "failed to issue credential" StatusInternalServerError) ;;
  credBytes <- orReturn (pure (MarshalJSON signed))
    (fun _ => sendOIDCErrorResponse "failed to write credential bytes"
                StatusInternalServerError) ;;
  response <- orReturn
    (pure (Json.Marshal jsonCompact
             (<["format" := Json.VString format]>
                (<["credential" := Json.VRaw credBytes]> ∅))))
    (fun _ => sendOIDCErrorResponse "response_write_error" StatusBadRequest) ;;
  writeResponse StatusOK response.
End Handlers.

End Operation.

(** ** Credential assembly *)

Module Assembly.

Definition credentialContext : string := "https://www.w3.org/2018/credentials/v1".
Definition trustBlocExampleContext : string :=
  "https://trustbloc.github.io/context/vc/examples-ext-v1.jsonld".
Definition citizenshipContext : string := "https://w3id.org/citizenship/v1".
Definition externalScopeQueryParam : string := "subject_data".

(** A value of type [interface{}] as [encoding/json] produces them. *)
Inductive any : Type :=
| ANil
| ABool (b : bool)
| ANumber (n : Z)
| AString (s : string)
| AList (l : list any)
| AMap (m : gmap string any).

(** A computation that may panic (a failed type assertion). *)
Inductive outcome (A : Type) : Type :=
| Done (a : A)
| Panic.
Arguments Done {A} a.
Arguments Panic {A}.

(** [vcprofile.IssuerProfile], the fields read here. *)
Record IssuerProfile : Type := { Name : string; DID : string; URI : string }.

(** [verifiable.Issuer] and [verifiable.Credential], the fields set here. *)
Record Issuer : Type := { IssuerID : string; IssuerCustomFields : gmap string any }.

Record Credential : Type := {
  Context : list string;
  ID : string;
  Types : list string;
  Subject : any;
  CredIssuer : Issuer;
  Issued : Z;
  CustomFields : gmap string any
}.

(** The loop of [getCustomContext]: [v.(string)] for every element, in
    order; an element that is no string panics. *)
Fixpoint assertStrings (l : list any) : outcome (list string) :=
  match l with
  | [] => Done []
  | AString s :: rest =>
      match assertStrings rest with
      | Done ss => Done (s :: ss)
      | Panic => Panic
      end
  | _ :: _ => Panic
  end.

Definition getCustomContext (existingContext : list string) (customCtx : gmap string any)
  : outcome (list string) :=
  match customCtx !! "@context" with
  | Some ctx =>
      match ctx with
      | AList l => assertStrings l
      | _ => Panic
      end
  | None => Done existingContext
  end.

(** [m[key]] of a [map[string]interface{}]: nil for a missing key. *)
Definition index (m : gmap string any) (key : string) : any := default ANil (m !! key).

Section Prepare.
(** [c.retrieveProfile]: the issuer profile the VC service returns. *)
Variable retrieveProfile : string -> result IssuerProfile.
(** [time.Now().UTC()] and [uuid.New().String()] at the call. *)
Variable now : Z.
Variable uuid : string.
(** [json.Marshal] of a [verifiable.Credential]. *)
Variable marshalCredential : Credential -> result string.

(** [prepareCredential] up to its last line: the credential handed to
    [json.Marshal], or the error returned, together with the caller's
    [subject] map as the call leaves it; [Panic] when a type assertion of
    [getCustomContext] fails. *)
Definition assembleCredential (subject : gmap string any) (scope vcsProfile : string)
  : outcome (result Credential * gmap string any) :=
  (* will be replaced by DID auth response subject ID *)
  let subject := <["id" := AString ""]> subject in
  let defaultCredTypes := ["VerifiableCredential"; "PermanentResidentCard"] in
  let vcContext := [credentialContext; trustBlocExampleContext] in
  let customFields : gmap string any := ∅ in
  (* get custom vc data if available *)
  let custom :=
    match subject !! "vcmetadata" with
    | Some (AMap vcMetaData) =>
        match getCustomContext vcContext vcMetaData with
        | Done ctx =>
            Done (ctx, <["description" := index vcMetaData "description"]>
                         (<["name" := index vcMetaData "name"]> customFields))
        | Panic => Panic
        end
    | _ => Done (vcContext, customFields)
    end in
  match custom with
  | Panic => Panic
  | Done (vcContext, customFields) =>
      (* remove cms specific fields *)
      let subject :=
        delete "vcmetadata" (delete "userid" (delete "updated_at" (delete "created_at" subject))) in
      match retrieveProfile vcsProfile with
      | Err e => Done (Err ("retrieve profile - name=" ++ vcsProfile ++ " err=" ++ e), subject)
      | Ok profileResponse =>
          let '(types, sub, customFields, context) :=
            if String.eqb scope externalScopeQueryParam
            then (defaultCredTypes, index subject "subjectData",
                  <["name" := AString "Permanent Resident Card"]> customFields,
                  [credentialContext; citizenshipContext])
            else (["VerifiableCredential"; scope], AMap subject, customFields, vcContext) in
          (* credential subject as single json entity in CMS for complex data *)
          let sub :=
            match subject !! "vccredentialsubject" with
            | Some (AMap s) => AMap s
            | _ => sub
            end in
          Done (Ok {| Context := context;
                      ID := URI profileResponse ++ "/" ++ uuid;
                      Types := types;
                      Subject := sub;
                      CredIssuer := {| IssuerID := DID profileResponse;
                                       IssuerCustomFields :=
                                         {["name" := AString (Name profileResponse)]} |};
                      Issued := now;
                      CustomFields := customFields |}, subject)
      end
  end.

(** [prepareCredential] on a subject map that was made; the nil map is
    the case [None] of [prepareCredentialOf] below. *)
Definition prepareCredential (subject : gmap string any) (scope vcsProfile : string)
  : outcome (result string * gmap string any) :=
  match assembleCredential subject scope vcsProfile with
  | Done (Ok cred, subject') => Done (marshalCredential cred, subject')
  | Done (Err e, subject') => Done (Err e, subject')
  | Panic => Panic
  end.

(** [prepareCredential] on any value of type [map[string]interface{}]:
    [None] is the nil map ([unmarshalSubject] returns one for the array
    [[null]]), [Some m] a map that was made.  The first statement assigns
    the empty string to [subject["id"]]: on the nil map that assignment
    panics, and nothing after it runs. *)
Definition prepareCredentialOf (subject : option (gmap string any)) (scope vcsProfile : string)
  : outcome (result string * gmap string any) :=
  match subject with
  | None => Panic
  | Some m => prepareCredential m scope vcsProfile
  end.
End Prepare.

End Assembly.

(** ** Predicates and values the statements use *)

Module Spec.
Import Utf8.





(** A member name between double quotes. *)
Definition quoted (s : string) : string := str1 dquote ++ s ++ str1 dquote.

(** The body of a successful token response for the access token [token],
    byte for byte. *)
Definition tokenBody (token : string) : string :=
  "{" ++ quoted "access_token" ++ ":" ++ Json.appendString token ++ ","
      ++ quoted "expires_in" ++ ":3600000000000,"
      ++ quoted "token_type" ++ ":" ++ quoted "Bearer" ++ "}".

(** The headers [setOIDCResponseHeaders] sets. *)
Definition oidcHeaders : gmap string (list string) :=
  <["Pragma" := ["no-cache"]]>
    (<["Cache-Control" := ["no-store"]]>
       (<["Content-Type" := ["application/json"]]> ∅)).

(** The authorization request [oidcAuthorize] serializes for the request
    [r], given what its claims and redirect_uri parameters unescape to. *)
Definition authorizationRequest (claims redirectURI : string) (r : Request)
  : gmap string string :=
  <["claims" := claims]>
    (<["scope" := Url.Values_Get (Form r) "scope"]>
       (<["state" := Url.Values_Get (Form r) "state"]>
          (<["response_type" := Url.Values_Get (Form r) "response_type"]>
             (<["client_id" := Url.Values_Get (Form r) "client_id"]>
                (<["redirect_uri" := redirectURI]> ∅))))).

(** What [oidcSendAuthorizeResponse] (and [oidcTokenEndpoint] after it)
    loads and deserializes for the state [authState]: the record stored
    under [authstate_{authState}], read by [json.Unmarshal]; [None] when
    either step fails. *)
Definition loadAuthorizationRequest {S : Type} `{Store S} (s : S) (authState : string)
  : option (gmap string string) :=
  match Get s (Operation.getAuthStateKeyPrefix authState) with
  | Ok bs => Json.Unmarshal bs
  | Err _ => None
  end.

(** The [@context] of the credential [prepareCredential] assembles, if it
    assembles one. *)
Definition assembledContext
  (o : Assembly.outcome (result Assembly.Credential * gmap string Assembly.any))
  : option (list string) :=
  match o with
  | Assembly.Done (Ok cred, _) => Some (Assembly.Context cred)
  | _ => None
  end.

End Spec.
Import Spec.

(** ** Sample inputs *)

Module Sample.
Import Operation.

(** A UUID source: the [n]-th UUID drawn is ["uuid-n"]. *)
Definition uuids (n : nat) : string := "uuid-" ++ NilEmpty.string_of_uint (Nat.to_uint n).

(** A fresh world on the in-memory store. *)
Definition world0 (m : gmap string string) : World (gmap string string) :=
  {| store := m; accesses := []; drawn := O; clock := 0 |}.

Definition request (form : gmap string (list string)) (header : gmap string (list string))
  (cookies : list (string * string)) (id : string) : Request :=
  {| Method := "POST"; parseFormErr := None; Form := form; Header := header;
     Cookies := cookies; Vars := {["id" := id]}; Body := EmptyString |}.

(** A token request for the code [code]. *)
Definition tokenRequest (code redirectURI grantType id : string) : Request :=
  request (<["code" := [code]]> (<["redirect_uri" := [redirectURI]]>
             (<["grant_type" := [grantType]]> ∅))) ∅ [] id.

(** An authorize request. *)
Definition authorizeRequest (claims redirectURI clientID state : string) : Request :=
  request (<["claims" := [claims]]> (<["redirect_uri" := [redirectURI]]>
             (<["client_id" := [clientID]]> (<["state" := [state]]> ∅)))) ∅ [] "issuer1".

(** A credential request with the given Authorization header. *)
Definition credentialRequest (authorization id : string) : Request :=
  request ∅ {["Authorization" := [authorization]]} [] id.

(** A store after authorize and authorize-response: the code [c1] stands
    for the state [st1], whose request has the redirect URI
    [https://wallet.example/cb]. *)
Definition storedRequest : string :=
  "{" ++ quoted "redirect_uri" ++ ":" ++ quoted "https://wallet.example/cb" ++ ","
      ++ quoted "state" ++ ":" ++ quoted "xyz" ++ "}".

Definition codeStore : gmap string string :=
  <["authcode_c1" := "st1"]> (<["authstate_st1" := storedRequest]> ∅).

(** The verifiable-credential library, trivially: a credential is its
    bytes and signing wraps them. *)
Definition parseVC (b : string) : result string := Ok b.
Definition signVC (vc : string) (_ : LinkedDataProofContext) : result string :=
  Ok ("{" ++ quoted "signed" ++ ":" ++ vc ++ "}").
Definition marshalVC (vc : string) : result string := Ok vc.
Definition compact (raw : string) : result string := Ok raw.

(** An issuance request decoded from a body that holds just the issuer
    URL, with manifests that are text; the well-known document rendered
    member by member; URLs that are their own text. *)
Definition decodeIssuance (body : string) : result (oidcIssuanceRequest string) :=
  Ok {| WalletInitIssuanceURL := EmptyString; CredentialTypes := "VerifiedEmployee";
        ManifestIDs := "m1"; IssuerURL := body; CredManifest := "{}";
        Credential := "{}" |}.

Definition marshalConfiguration (c : issuerConfiguration string) : result string :=
  Ok ("{" ++ quoted "issuer" ++ ": " ++ Json.appendString (Issuer c) ++ ","
          ++ quoted "authorization_endpoint" ++ ": "
          ++ Json.appendString (AuthorizationEndpoint c) ++ ","
          ++ quoted "token_endpoint" ++ ": " ++ Json.appendString (TokenEndpoint c) ++ ","
          ++ quoted "credential_endpoint" ++ ": "
          ++ Json.appendString (CredentialEndpoint c) ++ ","
          ++ quoted "credential_manifests" ++ ": " ++ CredentialManifests c ++ "}").

Definition parseURL (s : string) : result string := Ok s.
Definition queryOf (_ : string) : gmap string (list string) := ∅.
Definition encodeQuery (q : gmap string (list string)) : string :=
  "issuer=" ++ Url.Values_Get q "issuer".
Definition withQuery (u q : string) : string := u ++ "?" ++ q.

(** An issuer profile for every name. *)
Definition profile (name : string) : result Assembly.IssuerProfile :=
  Ok {| Assembly.Name := name; Assembly.DID := "did:example:issuer";
        Assembly.URI := "https://issuer.example/credentials" |}.

(** A subject whose metadata overrides the context with [a], [b]. *)
Definition subjectWithContext : gmap string Assembly.any :=
  <["vcmetadata" :=
      Assembly.AMap {["@context" := Assembly.AList [Assembly.AString "a"; Assembly.AString "b"]]}]>
    {["name" := Assembly.AString "Alice"]}.

End Sample.

(** ** Form validation *)

Module Forms.

(** [getFormValue]: the first value of the key and whether there is one. *)
Definition getFormValue (k : string) (vals : gmap string (list string)) : string * bool :=
  match vals !! k with
  | Some (cr0 :: _) => (cr0, true)
  | _ => (EmptyString, false)
  end.

(** [validateForm]: the error names the first key, in the order given,
    that has no value. *)
Fixpoint validateForm (formVals : gmap string (list string)) (keys : list string)
  : result unit :=
  match keys with
  | [] => Ok tt
  | key :: rest =>
      if snd (getFormValue key formVals) then validateForm formVals rest
      else Err ("invalid '" ++ key ++ "'")
  end.

End Forms.

(** ** The DID auth response *)

Module AuthResponse.
Import Assembly.

(** [verifiable.Presentation], the fields read here: the holder and the
    proofs, each a [map[string]interface{}]. *)
Record Presentation : Type := { Holder : string; Proofs : list (gmap string any) }.

(** [d, ok := proof[key]; if ok && d != nil { s, ok = d.(string) }]: the
    string read and the final [ok].  A member that is [null] leaves the
    string empty and [ok] true. *)
Definition proofString (proof : gmap string any) (key : string) : string * bool :=
  match proof !! key with
  | Some ANil => (EmptyString, true)
  | Some (AString s) => (s, true)
  | Some _ => (EmptyString, false)
  | None => (EmptyString, false)
  end.

Section Validate.
(** [verifiable.ParsePresentation] with the proof check disabled. *)
Variable ParsePresentation : string -> result Presentation.

(** [validateAuthResp]; [Panic] is the index out of range of
    [vp.Proofs[0]] on a presentation without proofs. *)
Definition validateAuthResp (authResp holder domain challenge : string)
  : outcome (result unit) :=
  match ParsePresentation authResp with
  | Err e => Done (Err e)
  | Ok vp =>
      if negb (String.eqb (Holder vp) holder)
      then Done (Err "invalid auth response, invalid holder proof")
      else
        match Proofs vp with
        | [] => Panic
        | proofOfInterest :: _ =>
            let '(proofChallenge, ok) := proofString proofOfInterest "challenge" in
            if negb ok then Done (Err "invalid auth response proof, missing challenge")
            else
              let '(proofDomain, ok) := proofString proofOfInterest "domain" in
              if negb ok then Done (Err "invalid auth response proof, missing domain")
              else if negb (String.eqb proofChallenge challenge)
                      || negb (String.eqb proofDomain domain)
              then Done (Err "invalid proof and challenge in response")
              else Done (Ok tt)
        end
  end.
End Validate.

End AuthResponse.

(** ** The login, DIDComm and OIDC handlers

    These handlers read and assign fields of the [Operation] they belong
    to, and some of them can panic; they run in a monad that adds both to
    the handler monad. *)

Module Service.
Import Operation.

Definition StatusTemporaryRedirect : Z := 307.
Definition StatusUnauthorized : Z := 401.

Definition vcsProfileCookie : string := "vcsProfile".
Definition callbackURLCookie : string := "callbackURL".
Definition ScopeOpenID : string := "openid".

(** [w.Header().Add(key, value)] for a canonical [key]. *)
Definition addHeader (key value : string) (w : Response) : Response :=
  {| headers := <[key := (default [] (headers w !! key) ++ [value])%list]> (headers w);
     status := status w; body := body w; cookies := cookies w; redirect := redirect w |}.

(** [strings.TrimPrefix]. *)
Definition TrimPrefix (s prefix : string) : string :=
  if String.prefix prefix s then drop (String.length prefix) s else s.

(** A request together with what [r.URL.Query()] returns for it. *)
Record URLRequest : Type := { Req : Request; Query : gmap string (list string) }.

(** [r.URL.Query()[key]]: nil for a missing key. *)
Definition queryValues (r : URLRequest) (key : string) : list string :=
  default [] (Query r !! key).

(** The fields of the [Operation] that handlers assign after [New]. *)
Record Fields : Type := {
  didcommScopes : gset string;
  assuranceScopes : gmap string string;
  externalLogin : bool
}.

Record Env (S : Type) : Type := { base : State S; fields : Fields }.
Arguments base {S} e.
Arguments fields {S} e.
Arguments Build_Env {S} base fields.

(** A step goes on with a value, has returned from the handler, or has
    panicked. *)
Inductive step (A : Type) : Type :=
| Go (a : A)
| Stop
| Crash.
Arguments Go {A} a.
Arguments Stop {A}.
Arguments Crash {A}.

Definition P (S A : Type) : Type := Env S -> step A * Env S.

Definition pureP {S A} (a : A) : P S A := fun e => (Go a, e).

Definition bindP {S A B} (m : P S A) (k : A -> P S B) : P S B :=
  fun e =>
    match m e with
    | (Go a, e') => k a e'
    | (Stop, e') => (Stop, e')
    | (Crash, e') => (Crash, e')
    end.

Definition stop {S A} : P S A := fun e => (Stop, e).

(** A run-time panic: a nil pointer dereferenced, an index out of range. *)
Definition crash {S A} : P S A := fun e => (Crash, e).

(** A step of the handler monad, here. *)
Definition lift {S A} (m : M S A) : P S A :=
  fun e =>
    match m (base e) with
    | (Next a, st) => (Go a, Build_Env st (fields e))
    | (Returned, st) => (Stop, Build_Env st (fields e))
    end.

Declare Scope service_scope.
Delimit Scope service_scope with service.
Notation "x <- m ;; k" := (bindP m (fun x => k))
  (at level 100, m at next level, right associativity) : service_scope.
Notation "m ;; k" := (bindP m (fun _ => k))
  (at level 100, right associativity) : service_scope.

#[local] Open Scope service_scope.

(** [x, err := m; if err != nil { onErr(err); return }]. *)
Definition orStop {S A} (m : P S (result A)) (onErr : string -> P S unit) : P S A :=
  r <- m ;;
  match r with
  | Ok a => pureP a
  | Err e => onErr e ;; stop
  end.

(** [if cond { body; return }]. *)
Definition stopIf {S} (cond : bool) (body : P S unit) : P S unit :=
  if cond then body ;; stop else pureP tt.

(** [*p] for a pointer a decoder may have left nil. *)
Definition deref {S A} (p : option A) : P S A :=
  match p with
  | Some a => pureP a
  | None => crash
  end.

Definition getFields {S} : P S Fields := fun e => (Go (fields e), e).

Definition setFields {S} (f : Fields -> Fields) : P S unit :=
  fun e => (Go tt, Build_Env (base e) (f (fields e))).

(** What a call has left behind: whether it panicked, the response, the
    world and the fields. *)
Record Served (S : Type) : Type := {
  panicked : bool;
  answer : Response;
  after : World S;
  service : Fields
}.
Arguments panicked {S} s.
Arguments answer {S} s.
Arguments after {S} s.
Arguments service {S} s.

Definition handle {S} (h : P S unit) (w : World S) (c : Fields) : Served S :=
  let '(s, e) := h (Build_Env (Build_State emptyResponse w) c) in
  {| panicked := match s with Crash => true | _ => false end;
     answer := resp (base e); after := world (base e); service := fields e |}.

(** [token.Introspection], the fields read here. *)
Record Introspection : Type := { Active : bool; Subject : string; Scope : string }.

(** The request and response bodies of the DIDComm endpoints. *)
Record adapterTokenReq : Type := { reqState : string }.
Record adapterDataReq : Type := { reqToken : string }.
Record adapterTokenResp : Type := { respToken : string; respUserID : string }.
Record userDataMap : Type := {
  userID : string;
  userData : string;
  userAssuranceScope : string
}.

(** What the templates are executed with. *)
Record vc : Type := { Msg : string; Data : string }.

(** [json.Marshal] of an [adapterTokenResp]: the member [token] is left
    out when empty, [userid] is always written. *)
Definition marshalAdapterTokenResp (r : adapterTokenResp) : string :=
  "{" ++ (if isEmpty (respToken r) then EmptyString
          else Json.appendString "token" ++ ":" ++ Json.appendString (respToken r) ++ ",")
      ++ Json.appendString "userid" ++ ":" ++ Json.appendString (respUserID r) ++ "}".

(** [json.Marshal] of a [createOIDCRequestResponse]. *)
Definition marshalCreateOIDCRequestResponse (request : string) : string :=
  "{" ++ Json.appendString "request" ++ ":" ++ Json.appendString request ++ "}".

Section Handlers.
Context {S : Type} `{Store S}.

(** The UUIDs [uuid.New] yields, in order. *)
Variable uuidSource : nat -> string.
(** [t.AddDate(years, months, days)]. *)
Variable AddDate : Z -> Z -> Z -> Z -> Z.
(** Configuration: [c.issuerAdapterURL], [c.homePage], [c.didCommVpHTML]. *)
Variable issuerAdapterURL : string.
Variable homePage : string.
Variable didCommVpHTML : string.
(** [c.tokenIssuer.AuthCodeURL(w)] and [c.extTokenIssuer.AuthCodeURL(w)]:
    the URL returned and what the call does to the response writer. *)
Variable tokenIssuer_AuthCodeURL : Response -> string * Response.
Variable extTokenIssuer_AuthCodeURL : Response -> string * Response.
(** [c.tokenResolver.Resolve(token)]; the pointer returned may be nil. *)
Variable Resolve : string -> result (option Introspection).
(** [c.oidcClient], taken to be configured. *)
Variable CreateOIDCRequest : string -> string -> result string.
Variable HandleOIDCCallback : string -> result string.
(** [errors.Is(err, storage.ErrDataNotFound)] on an error of the store,
    given by its text. *)
Variable isDataNotFound : string -> bool.
(** [template.ParseFiles(file)] and [t.Execute(w, data)]: the bytes the
    execution writes and the error it ends with, if any. *)
Variable Template : Type.
Variable ParseFiles : string -> result Template.
Variable Execute : Template -> vc -> string * option string.
(** [json.NewDecoder(r.Body).Decode(&data)] for a [data] that points to a
    struct: the JSON [null] leaves [data] nil. *)
Variable decodeAdapterTokenReq : string -> result (option adapterTokenReq).
Variable decodeAdapterDataReq : string -> result (option adapterDataReq).
(** [json.Unmarshal(bytes, &userData)] into a [userDataMap]. *)
Variable decodeUserData : string -> result userDataMap.
(** The handlers behind [callback] and behind the bearer-token branch of
    [didcommCredentialHandler]; they reach further services and are left
    open here. *)
Variable getDataFromExternalSource : URLRequest -> string -> string -> P S unit.
Variable getDataFromCms : URLRequest -> string -> P S unit.
Variable getCredentialUsingAccessToken : Request -> P S unit.
(** [http.Redirect(w, r, url, code)] of net/http, as a whole: what the call
    leaves on the response writer.  For a GET request it sets the
    [Location] header, sets the content type [text/html] when none was set,
    writes the status and then a short HTML body with a link to the
    target.  [callback] goes on writing after the call, so it is taken
    with all of that. *)
Variable httpRedirect : URLRequest -> string -> Z -> Response -> Response.

Abbreviation P := (Service.P S).

Definition respond (f : Response -> Response) : P unit := lift (onResponse f).

Definition fail (status : Z) (msg : string) : P unit :=
  lift (writeErrorResponse status msg).

(** A call of [AuthCodeURL] on the response writer. *)
Definition authCodeURL (issuer : Response -> string * Response) : P string :=
  fun e =>
    let '(u, w) := issuer (resp (base e)) in
    (Go u, Build_Env (Build_State w (world (base e))) (fields e)).

(** [t.Execute(w, data)]: the bytes go to the response writer (nothing is
    written for an empty rendering); the error is only logged. *)
Definition execute (t : Template) (data : vc) : P unit :=
  let '(out, _) := Execute t data in
  if isEmpty out then pureP tt else respond (Write out).

Definition settings (r : URLRequest) : P unit :=
  let u := homePage in
  t <- lift now ;;
  let expire := AddDate t 0 0 1 in
  match queryValues r "vcsProfile" with
  | [] => fail StatusBadRequest "vcs profile is empty" ;; stop
  | vcsProfile0 :: _ =>
      respond (addCookie {| cookieName := vcsProfileCookie; cookieValue := vcsProfile0;
                            cookieExpires := expire; cookiePath := EmptyString |}) ;;
      respond (Redirect u StatusTemporaryRedirect)
  end.

Definition prepareAuthCodeURL (scope : string) : P string :=
  u <- authCodeURL tokenIssuer_AuthCodeURL ;;
  if String.eqb scope Assembly.externalScopeQueryParam
  then pureP (u ++ "&scope=" ++ "PermanentResidentCard")
  else pureP (u ++ "&scope=" ++ scope).

(** login using oauth2, will redirect to Auth Code URL *)
Definition login (r : URLRequest) : P unit :=
  let scope := queryValues r "scope" in
  extAuthURL <- authCodeURL extTokenIssuer_AuthCodeURL ;;
  u <- match scope with
       | scope0 :: _ =>
           (* If the scope is PermanentResidentCard but external auth url is not defined
              then proceed with trustbloc login service *)
           if String.eqb scope0 Assembly.externalScopeQueryParam
              && negb (Strings.Contains extAuthURL "EXTERNAL")
           then
             setFields (fun c => {| didcommScopes := didcommScopes c;
                                    assuranceScopes := assuranceScopes c;
                                    externalLogin := true |}) ;;
             u <- authCodeURL extTokenIssuer_AuthCodeURL ;;
             pureP (u ++ "&scope=" ++ ScopeOpenID ++ " " ++ scope0)
           else prepareAuthCodeURL scope0
       | [] => pureP EmptyString
       end ;;
  t <- lift now ;;
  let expire := AddDate t 0 0 1 in
  match queryValues r "vcsProfile" with
  | [] => fail StatusBadRequest "vcs profile is empty" ;; stop
  | vcsProfile0 :: _ =>
      respond (addCookie {| cookieName := vcsProfileCookie; cookieValue := vcsProfile0;
                            cookieExpires := expire; cookiePath := EmptyString |}) ;;
      respond (addCookie {| cookieName := callbackURLCookie; cookieValue := EmptyString;
                            cookieExpires := expire; cookiePath := EmptyString |}) ;;
      respond (Redirect u StatusTemporaryRedirect)
  end.

(** callback for oauth2 login *)
Definition callback (r : URLRequest) : P unit :=
  match queryValues r "error" with
  | error0 :: _ =>
      if String.eqb error0 "access_denied"
      then respond (httpRedirect r homePage StatusTemporaryRedirect)
      else pureP tt
  | [] => pureP tt
  end ;;
  vcsProfile <- orStop (pureP (Cookie (Req r) vcsProfileCookie))
    (fun err => fail StatusBadRequest ("failed to get cookie: " ++ err)) ;;
  c <- getFields ;;
  if externalLogin c
  then getDataFromExternalSource r Assembly.externalScopeQueryParam vcsProfile
  else getDataFromCms r vcsProfile.

(** initiateDIDCommConnection initiates a DIDComm connection from the
    issuer to the user's wallet *)
Definition initiateDIDCommConnection (r : Request) : P unit :=
  let issuerID := FormValue r "adapterProfile" in
  stopIf (String.eqb issuerID "") (fail StatusBadRequest "missing adapterProfile") ;;
  let scope := FormValue r "didCommScope" in
  stopIf (String.eqb scope "") (fail StatusBadRequest "missing didCommScope") ;;
  let assuranceScope := FormValue r "assuranceScope" in
  setFields (fun c => {| didcommScopes := {[scope]} ∪ didcommScopes c;
                         assuranceScopes := assuranceScopes c;
                         externalLogin := externalLogin c |}) ;;
  (if negb (String.eqb assuranceScope "")
   then setFields (fun c => {| didcommScopes := didcommScopes c;
                               assuranceScopes := <[scope := assuranceScope]> (assuranceScopes c);
                               externalLogin := externalLogin c |})
   else pureP tt) ;;
  let rURL := issuerAdapterURL ++ "/" ++ issuerID ++ "/connect/wallet?cred=" ++ scope in
  respond (Redirect rURL StatusFound).

Definition hasAccessToken (r : Request) : bool :=
  let authHeader := Header_Get r "Authorization" in
  String.prefix "Bearer " authHeader.

(** [getTokenInfo]: the introspection and the access token, or the error
    returned after the response was written. *)
Definition getTokenInfo (r : Request) : P (result (Introspection * string)) :=
  let authHeader := Header_Get r "Authorization" in
  if negb (String.prefix "Bearer " authHeader) then
    respond (addHeader "Www-Authenticate" "Bearer") ;;
    respond (WriteHeader StatusUnauthorized) ;;
    pureP (Err "missing bearer token")
  else
    let accessToken := TrimPrefix authHeader "Bearer " in
    match Resolve accessToken with
    | Err e =>
        fail StatusBadRequest ("failed to get token info: " ++ e) ;;
        pureP (Err (str1 dquote ++ "failed to get token info: " ++ e))
    | Ok p =>
        info <- deref p ;;
        if negb (Active info) then
          fail StatusUnauthorized ("Bearer error=" ++ quoted "invalid_token") ;;
          pureP (Err "token is invalid")
        else pureP (Ok (info, accessToken))
    end.

(** The loop of [getDIDCommScopes] over the parts of [scopes]. *)
Definition getDIDCommScopes (c : Fields) (scopes : string) : list string :=
  fold_left (fun out scope =>
               if bool_decide (scope ∈ didcommScopes c) then (out ++ [scope])%list else out)
            (Strings.Split scopes " ") [].

Definition createOIDCRequest (r : URLRequest) : P unit :=
  let scope := Url.Values_Get (Query r) "scope" in
  stopIf (String.eqb scope "") (fail StatusBadRequest "missing scope") ;;
  state <- lift (newUUID uuidSource) ;;
  redirectURL <- orStop (pureP (CreateOIDCRequest state scope))
    (fun err => fail StatusInternalServerError ("failed to create oidc request : " ++ err)) ;;
  let response := marshalCreateOIDCRequestResponse redirectURL in
  orStop (lift (storePut state state))
    (fun err => fail StatusInternalServerError
                  ("failed to write state to transient store : " ++ err)) ;;
  respond (setHeader "Content-Type" "application/json") ;;
  respond (Write response).

Definition didcommDemoResult (data : string) : P unit :=
  t <- orStop (pureP (ParseFiles didCommVpHTML))
    (fun err => fail StatusInternalServerError ("unable to load html: " ++ err)) ;;
  respond (setHeader "Content-Type" "text/html; charset=utf-8") ;;
  execute t {| Msg := EmptyString; Data := data |}.

Definition handleOIDCCallback (r : URLRequest) : P unit :=
  let state := Url.Values_Get (Query r) "state" in
  stopIf (String.eqb state "") (didcommDemoResult "missing state") ;;
  let code := Url.Values_Get (Query r) "code" in
  stopIf (String.eqb code "") (didcommDemoResult "missing code") ;;
  got <- lift (storeGet state) ;;
  match got with
  | Err err =>
      if isDataNotFound err then didcommDemoResult "invalid state parameter" ;; stop
      else didcommDemoResult ("failed to query transient store for state : " ++ err) ;; stop
  | Ok _ =>
      data <- orStop (pureP (HandleOIDCCallback code))
        (fun err => didcommDemoResult ("failed to handle oidc callback: " ++ err)) ;;
      didcommDemoResult data
  end.

Definition didcommTokenHandler (r : Request) : P unit :=
  data <- orStop (pureP (decodeAdapterTokenReq (Body r)))
    (fun err => fail StatusBadRequest ("invalid request: " ++ err)) ;;
  data <- deref data ;;
  cred <- orStop (lift (storeGet (reqState data)))
    (fun err => fail StatusBadRequest ("invalid state : " ++ err)) ;;
  tkn <- lift (newUUID uuidSource) ;;
  orStop (lift (storePut tkn cred))
    (fun err => fail StatusInternalServerError
                  ("failed to store adapter token and userID mapping : " ++ err)) ;;
  userInfo <- orStop (pureP (decodeUserData cred))
    (fun err => fail StatusInternalServerError ("failed to read user state info : " ++ err)) ;;
  let resp := {| respToken := tkn; respUserID := userID userInfo |} in
  let respBytes := marshalAdapterTokenResp resp in
  lift (writeResponse StatusOK respBytes).

Definition didcommCredentialHandler (r : Request) : P unit :=
  stopIf (hasAccessToken r) (getCredentialUsingAccessToken r) ;;
  data <- orStop (pureP (decodeAdapterDataReq (Body r)))
    (fun err => fail StatusBadRequest ("invalid request: " ++ err)) ;;
  data <- deref data ;;
  userDataBytes <- orStop (lift (storeGet (reqToken data)))
    (fun err => fail StatusBadRequest ("failed to get token data : " ++ err)) ;;
  userData <- orStop (pureP (decodeUserData userDataBytes))
    (fun err => fail StatusInternalServerError ("user data unmarshal failed: " ++ err)) ;;
  lift (writeResponse StatusOK (Service.userData userData)).
End Handlers.

End Service.

(** ** Sample values for the login, DIDComm and OIDC handlers *)

Module SampleService.
Import Service.

(** A calendar that adds twenty-four hours for a day. *)
Definition addDate (t years months days : Z) : Z := t + days * (24 * 3600 * Time.Second).

(** Token issuers that leave the response writer alone. *)
Definition authCodeURL (w : Response) : string * Response :=
  ("https://auth.example/authorize?client_id=issuer", w).
Definition extAuthCodeURL (w : Response) : string * Response :=
  ("https://login.example/authorize?client_id=issuer", w).

(** A resolver that knows the token [good]. *)
Definition resolve (token : string) : result (option Introspection) :=
  if String.eqb token "good"
  then Ok (Some {| Active := true; Subject := "alice@example.com"; Scope := "StudentCard" |})
  else Err "unknown token".

Definition createRequest (state scope : string) : result string :=
  Ok ("https://op.example/auth?state=" ++ state ++ "&scope=" ++ scope).
Definition handleCallback (code : string) : result string := Ok ("claims-for-" ++ code).
Definition notFound (err : string) : bool := String.eqb err ErrDataNotFound.

(** Templates that are their file name and render it before the data. *)
Definition parseFiles (file : string) : result string := Ok file.
Definition executeTemplate (t : string) (data : vc) : string * option string :=
  (t ++ ":" ++ Data data, None).

(** Bodies that are the state or the token itself, [null] apart; user
    data that are their own bytes, the bytes [bad] apart. *)
Definition decodeTokenReq (body : string) : result (option adapterTokenReq) :=
  if String.eqb body "null" then Ok None else Ok (Some {| reqState := body |}).
Definition decodeDataReq (body : string) : result (option adapterDataReq) :=
  if String.eqb body "null" then Ok None else Ok (Some {| reqToken := body |}).
Definition decodeUser (bytes : string) : result userDataMap :=
  if String.eqb bytes "bad" then Err "invalid character"
  else Ok {| userID := "user1"; userData := bytes; userAssuranceScope := EmptyString |}.

(** Data handlers that answer with the profile. *)
Definition dataFromExternalSource (r : URLRequest) (scope vcsProfile : string)
  : P (gmap string string) unit :=
  fail StatusOK ("external " ++ scope ++ " " ++ vcsProfile).
Definition dataFromCms (r : URLRequest) (vcsProfile : string) : P (gmap string string) unit :=
  fail StatusOK ("cms " ++ vcsProfile).
Definition credentialUsingAccessToken (r : Request) : P (gmap string string) unit :=
  fail StatusOK "offline".

Definition fields0 : Fields :=
  {| didcommScopes := ∅; assuranceScopes := ∅; externalLogin := false |}.

(** A GET request with a query. *)
Definition getRequest (query : gmap string (list string)) (cookies : list (string * string))
  : URLRequest :=
  {| Req := {| Method := "GET"; parseFormErr := None; Form := ∅; Header := ∅;
               Cookies := cookies; Vars := ∅; Body := EmptyString |};
     Query := query |}.

(** What [http.Redirect] does with the status 307 for a GET request, a
    response without content type and an absolute target of plain
    letters: the [Location] header, the content type, the status, and the
    link to the target followed by two line feeds. *)
Definition redirectGET (r : URLRequest) (target : string) (code : Z) (w : Response)
  : Response :=
  Write ("<a href=" ++ quoted target ++ ">Temporary Redirect</a>."
           ++ String "010" (String "010" EmptyString))
    (Redirect target code
       (setHeader "Content-Type" "text/html; charset=utf-8" (setHeader "Location" target w))).

(** A request with a query, a form or a body only. *)
Definition queryRequest (query : gmap string (list string)) (cookies : list (string * string))
  : URLRequest :=
  {| Req := Sample.request ∅ ∅ cookies EmptyString; Query := query |}.
Definition bodyRequest (body : string) : Request :=
  {| Method := "POST"; parseFormErr := None; Form := ∅; Header := ∅; Cookies := [];
     Vars := ∅; Body := body |}.

(** A presentation by [did:example:holder] with one proof. *)
Definition parsePresentation (authResp : string) : result AuthResponse.Presentation :=
  Ok {| AuthResponse.Holder := "did:example:holder";
        AuthResponse.Proofs :=
          [<["challenge" := Assembly.AString "c1"]> {["domain" := Assembly.AString "d1"]}] |}.

(** The five requests of an issuance on the in-memory store, and the
    worlds they leave behind. *)
Definition issuanceRequest : Request := bodyRequest "https://issuer.example".
Definition authorizeRequest : Request :=
  Sample.authorizeRequest "%7B%7D" "https://wallet.example/cb" "c1" "xyz".
Definition tokenRequest : Request :=
  Sample.tokenRequest "uuid-2" "https://wallet.example/cb" "authorization_code" "uuid-0".
Definition credentialRequest : Request := Sample.credentialRequest "Bearer uuid-3" "uuid-0".


(** A subject whose credential subject comes ready-made. *)
Definition subjectWithOverride : gmap string Assembly.any :=
  <["vccredentialsubject" := Assembly.AMap {["name" := Assembly.AString "Bob"]}]>
    {["name" := Assembly.AString "Alice"]}.

(** A subject whose metadata has a context that is no array. *)
Definition subjectWithBadContext : gmap string Assembly.any :=
  <["vcmetadata" := Assembly.AMap {["@context" := Assembly.AString "a"]}]>
    {["name" := Assembly.AString "Alice"]}.

End SampleService.

(** * Part II: properties *)

Example Split_plain : Strings.Split "Bearer abc" "Bearer " = [""; "abc"].
Proof. reflexivity. Qed.

Example Split_none : Strings.Split "Basic abc" "Bearer " = ["Basic abc"].
Proof. reflexivity. Qed.

Example Split_only : Strings.Split "Bearer " "Bearer " = [""; ""].
Proof. reflexivity. Qed.

Example Split_twice : Strings.Split "Bearer a Bearer b" "Bearer " = [""; "a "; "b"].
Proof. reflexivity. Qed.

Example PathUnescape_hex : Url.PathUnescape id "a%41+%2f" = Ok "aA+/".
Proof. reflexivity. Qed.

Example PathUnescape_bad : Url.PathUnescape id "a%4" = Err "invalid URL escape %4".
Proof. reflexivity. Qed.

Example DecodeRune_euro : Utf8.DecodeRuneInString (String "226" (String "130" (String "172" "x"))) = (8364, 3%nat).
Proof. reflexivity. Qed.

Example EncodeRune_euro : Utf8.EncodeRune 8364 = String "226" (String "130" (String "172" "")).
Proof. reflexivity. Qed.

Example DecodeRune_bad : Utf8.DecodeRuneInString (String "255" "x") = (Utf8.RuneError, 1%nat).
Proof. reflexivity. Qed.

Example Valid_bad : Utf8.ValidString (String "255" "") = false.
Proof. reflexivity. Qed.

Example appendString_html :
  Json.appendString "a<b" = String dquote ("a" ++ String backslash "u003cb" ++ str1 dquote).
Proof. reflexivity. Qed.

Example appendString_bad_utf8 :
  Json.appendString (String "255" "") = String dquote (String backslash "ufffd" ++ str1 dquote).
Proof. reflexivity. Qed.

Example MarshalStrings_sorted :
  Json.MarshalStrings (<["b" := "2"]> (<["a" := "1"]> ∅))
  = Ok ("{" ++ Json.appendString "a" ++ ":" ++ Json.appendString "1" ++ ","
            ++ Json.appendString "b" ++ ":" ++ Json.appendString "2" ++ "}").
Proof. vm_compute. reflexivity. Qed.

Example Unmarshal_back :
  Json.Unmarshal ("{" ++ Json.appendString "a" ++ " : "
                      ++ Json.appendString (String "x" (String "195" (String "169" (String "010" ""))))
                      ++ ", " ++ Json.appendString "b" ++ ":null} ")
  = Some (<["a" := String "x" (String "195" (String "169" (String "010" "")))]> (<["b" := ""]> ∅)).
Proof. vm_compute. reflexivity. Qed.

Example Unmarshal_number : Json.Unmarshal ("{" ++ Json.appendString "a" ++ ":1}") = None.
Proof. vm_compute. reflexivity. Qed.

(** ** Bytes, masks and shifts *)

Import Utf8 Json.


Lemma ofZ_byteZ c : ofZ (byteZ c) = c.
Proof. unfold ofZ, byteZ. rewrite N2Z.id. apply ascii_N_embedding. Qed.

Lemma byteZ_ofZ z : 0 <= z < 256 -> byteZ (ofZ z) = z.
Proof.
  intros H. unfold ofZ, byteZ. rewrite N_ascii_embedding; lia.
Qed.

Lemma byteZ_inj a b : byteZ a = byteZ b -> a = b.
Proof. intros H. rewrite <- (ofZ_byteZ a), <- (ofZ_byteZ b). congruence. Qed.























Lemma append_cons c a b : String c a ++ b = String c (a ++ b).
Proof. reflexivity. Qed.

Lemma append_nil a : "" ++ a = a.
Proof. reflexivity. Qed.

Lemma append_assoc a b c : (a ++ b) ++ c = a ++ (b ++ c).
Proof. induction a as [|x a IH]; [reflexivity|]. rewrite !append_cons, IH. reflexivity. Qed.

Lemma append_nil_r a : a ++ "" = a.
Proof. induction a as [|x a IH]; [reflexivity|]. rewrite append_cons, IH. reflexivity. Qed.

















(** ** The decoder on what the encoder writes *)












Lemma str1_app c x : str1 c ++ x = String c x.
Proof. reflexivity. Qed.

Ltac norm_app :=
  repeat first [ rewrite append_cons | rewrite append_assoc | rewrite append_nil
               | rewrite str1_app ].








Import Operation.

(** ** The store *)

#[export] Instance MemStore_laws : StoreLaws (gmap string string).
Proof.
  split.
  - intros s s' k v. cbn. destruct (isEmpty k); [discriminate|]. intros [= <-].
    rewrite lookup_insert_eq. reflexivity.
  - intros s s' k v k'. cbn. destruct (isEmpty k); [discriminate|]. intros [= <-] Hne.
    rewrite lookup_insert_ne by congruence. reflexivity.
Qed.

Lemma length_append a b : String.length (a ++ b) = (String.length a + String.length b)%nat.
Proof. induction a as [|c a IH]; [reflexivity|]. rewrite append_cons. cbn. rewrite IH. reflexivity. Qed.

Lemma authcode_ne_authstate a b : getAuthCodeKeyPrefix a <> getAuthStateKeyPrefix b.
Proof. unfold getAuthCodeKeyPrefix, getAuthStateKeyPrefix. norm_app. discriminate. Qed.

Lemma authstate_ne_authcode a b : getAuthStateKeyPrefix a <> getAuthCodeKeyPrefix b.
Proof. unfold getAuthCodeKeyPrefix, getAuthStateKeyPrefix. norm_app. discriminate. Qed.

Lemma authcode_ne_token a b : getAuthCodeKeyPrefix a <> getAccessTokenKeyPrefix b.
Proof. unfold getAuthCodeKeyPrefix, getAccessTokenKeyPrefix. norm_app. discriminate. Qed.

Lemma authstate_ne_token a b : getAuthStateKeyPrefix a <> getAccessTokenKeyPrefix b.
Proof. unfold getAuthStateKeyPrefix, getAccessTokenKeyPrefix. norm_app. discriminate. Qed.

Lemma credstore_ne_key key : key <> getCredStoreKeyPrefix key.
Proof.
  intros E. apply (f_equal String.length) in E. unfold getCredStoreKeyPrefix in E.
  rewrite length_append in E. cbn in E. lia.
Qed.

(** ** Strings that are no valid UTF-8 *)



















(** ** The handlers *)

Ltac hsimpl :=
  cbn -[getAccessTokenKeyPrefix getAuthCodeKeyPrefix getAuthStateKeyPrefix
        getCredStoreKeyPrefix Var FormValue Header_Get Url.Values_Get Url.PathUnescape
        Json.Marshal Json.MarshalStrings Json.Unmarshal tokenResponse oidcErrorBody
        Strings.Split String.append Z.add Z.mul].

Ltac run_handler :=
  unfold serve, orReturn, returnIf, required, sendOIDCErrorResponse, writeResponse,
    writeErrorResponse, setOIDCResponseHeaders, enableCors, saveIssuanceConfig,
    signVCWithED25519, storeGet, storePut, newUUID, now, bind, pure, ret, onResponse;
  hsimpl.

(** The token response, marshalled: the members in key order, and the
    [time.Duration] [3600 * time.Second] as its count of nanoseconds. *)
Lemma Marshal_tokenResponse compact token :
  Json.Marshal compact (tokenResponse token) = Ok (tokenBody token).
Proof.
  unfold Json.Marshal, tokenResponse.
  match goal with
  | |- context [merge_sort ?R ?l] =>
      replace (merge_sort R l) with
        [("access_token", VString token); ("expires_in", VInt 3600000000000);
         ("token_type", VString "Bearer")]
        by (vm_compute; reflexivity)
  end.
  cbn [encodeMembers encodeValue List.length Nat.eqb].
  unfold tokenBody. norm_app. reflexivity.
Qed.

Lemma tokenResponse_members token :
  tokenResponse token
  = <["token_type" := VString "Bearer"]>
      (<["access_token" := VString token]>
         (<["expires_in" := VInt 3600000000000]> ∅)).
Proof. reflexivity. Qed.

(** *** The token endpoint *)

Section TokenEndpoint.
Context {S : Type} `{Store S}.
Variable uuidSource : nat -> string.
Variable jsonCompact : string -> result string.

#[local] Abbreviation Token := (oidcTokenEndpoint uuidSource jsonCompact).

(** A code exchange that passes every check, step by step. *)
Lemma oidcTokenEndpoint_ok (r : Request) (w : World S) authState authRqstBytes authRequest s' :
  FormValue r "grant_type" = "authorization_code" ->
  Get (store w) (getAuthCodeKeyPrefix (FormValue r "code")) = Ok authState ->
  Get (store w) (getAuthStateKeyPrefix authState) = Ok authRqstBytes ->
  Json.Unmarshal authRqstBytes = Some authRequest ->
  default "" (authRequest !! "redirect_uri") = FormValue r "redirect_uri" ->
  Put (store w) (getAccessTokenKeyPrefix (uuidSource (drawn w))) (Var r "id") = Ok s' ->
  serve (Token r) w
  = ({| headers := oidcHeaders; status := Some StatusOK;
        body := tokenBody (uuidSource (drawn w)); cookies := []; redirect := None |},
     {| store := s';
        accesses := (accesses w ++
                       [AGet (getAuthCodeKeyPrefix (FormValue r "code"));
                        AGet (getAuthStateKeyPrefix authState);
                        APut (getAccessTokenKeyPrefix (uuidSource (drawn w))) (Var r "id")])%list;
        drawn := Datatypes.S (drawn w);
        clock := clock w |}).
Proof.
  intros Hg Hcode Hstate Hjson Heq Hput. apply String.eqb_eq in Heq.
  unfold oidcTokenEndpoint. run_handler. rewrite Hg. hsimpl.
  rewrite Hcode. hsimpl. rewrite Hstate. hsimpl. rewrite Hjson. hsimpl. rewrite Heq. hsimpl.
  rewrite Hput. hsimpl. rewrite Marshal_tokenResponse. hsimpl.
  unfold logged, Write, WriteHeader, setHeader, emptyResponse. hsimpl.
  rewrite <- !app_assoc. reflexivity.
Qed.

(** C4: a Token call whose grant_type is not [authorization_code] is
    answered with status 400 and the body
    [{"error": "unsupported grant type"}] (one member, error, with that
    message), and leaves the world as it was: no read and no write of the
    store, no UUID drawn. *)
Theorem token_unsupported_grant_type (r : Request) (w : World S) :
  FormValue r "grant_type" <> "authorization_code" ->
  status (fst (serve (Token r) w)) = Some StatusBadRequest
  /\ body (fst (serve (Token r) w)) = oidcErrorBody "unsupported grant type"
  /\ Json.Unmarshal (body (fst (serve (Token r) w)))
     = Some {["error" := "unsupported grant type"]}
  /\ snd (serve (Token r) w) = w.
Proof.
  intros Hg. apply String.eqb_neq in Hg.
  unfold oidcTokenEndpoint. run_handler. rewrite Hg. hsimpl.
  repeat split.
Qed.

(** C5: a Token call whose code resolves to a stored authorization request
    with a redirect_uri other than the call's is answered with status 500
    and the message [request validation failed]; the store is read twice
    and not written, so no access token is stored. *)
Theorem token_redirect_mismatch (r : Request) (w : World S) authState authRqstBytes authRequest :
  FormValue r "grant_type" = "authorization_code" ->
  Get (store w) (getAuthCodeKeyPrefix (FormValue r "code")) = Ok authState ->
  Get (store w) (getAuthStateKeyPrefix authState) = Ok authRqstBytes ->
  Json.Unmarshal authRqstBytes = Some authRequest ->
  default "" (authRequest !! "redirect_uri") <> FormValue r "redirect_uri" ->
  status (fst (serve (Token r) w)) = Some StatusInternalServerError
  /\ body (fst (serve (Token r) w)) = oidcErrorBody "request validation failed"
  /\ store (snd (serve (Token r) w)) = store w
  /\ accesses (snd (serve (Token r) w))
     = (accesses w ++ [AGet (getAuthCodeKeyPrefix (FormValue r "code"));
                       AGet (getAuthStateKeyPrefix authState)])%list
  /\ drawn (snd (serve (Token r) w)) = drawn w.
Proof.
  intros Hg Hcode Hstate Hjson Hne. apply String.eqb_neq in Hne.
  unfold oidcTokenEndpoint. run_handler. rewrite Hg. hsimpl.
  rewrite Hcode. hsimpl. rewrite Hstate. hsimpl. rewrite Hjson. hsimpl. rewrite Hne. hsimpl.
  rewrite <- app_assoc. repeat split.
Qed.

(** C1, as the code has it: a successful Token call draws a fresh UUID as
    the access token, puts the path's issuer id under
    [access_token_{token}] and answers 200 with the marshalled map whose
    token_type is [Bearer] and whose access_token is the token; its
    expires_in is the number 3600000000000 (the nanoseconds of
    [3600 * time.Second]), not 3600. *)
Theorem token_success (r : Request) (w : World S) authState authRqstBytes authRequest s' :
  FormValue r "grant_type" = "authorization_code" ->
  Get (store w) (getAuthCodeKeyPrefix (FormValue r "code")) = Ok authState ->
  Get (store w) (getAuthStateKeyPrefix authState) = Ok authRqstBytes ->
  Json.Unmarshal authRqstBytes = Some authRequest ->
  default "" (authRequest !! "redirect_uri") = FormValue r "redirect_uri" ->
  Put (store w) (getAccessTokenKeyPrefix (uuidSource (drawn w))) (Var r "id") = Ok s' ->
  status (fst (serve (Token r) w)) = Some StatusOK
  /\ Json.Marshal jsonCompact
       (<["token_type" := VString "Bearer"]>
          (<["access_token" := VString (uuidSource (drawn w))]>
             (<["expires_in" := VInt 3600000000000]> ∅)))
     = Ok (body (fst (serve (Token r) w)))
  /\ body (fst (serve (Token r) w)) = tokenBody (uuidSource (drawn w))
  /\ store (snd (serve (Token r) w)) = s'
  /\ accesses (snd (serve (Token r) w))
     = (accesses w ++
          [AGet (getAuthCodeKeyPrefix (FormValue r "code"));
           AGet (getAuthStateKeyPrefix authState);
           APut (getAccessTokenKeyPrefix (uuidSource (drawn w))) (Var r "id")])%list
  /\ drawn (snd (serve (Token r) w)) = Datatypes.S (drawn w).
Proof.
  intros Hg Hcode Hstate Hjson Heq Hput.
  rewrite (oidcTokenEndpoint_ok r w authState authRqstBytes authRequest s') by assumption.
  cbn [fst snd status body store accesses drawn].
  rewrite <- tokenResponse_members, Marshal_tokenResponse. repeat split.
Qed.

(** X1: A Token call whose code is not in the store is answered with status
    400 and the message [invalid state], after the one read of
    [authcode_{code}]: nothing is written and no token is minted. *)
Theorem token_unknown_code (r : Request) (w : World S) e :
  FormValue r "grant_type" = "authorization_code" ->
  Get (store w) (getAuthCodeKeyPrefix (FormValue r "code")) = Err e ->
  status (fst (serve (Token r) w)) = Some StatusBadRequest
  /\ body (fst (serve (Token r) w)) = oidcErrorBody "invalid state"
  /\ store (snd (serve (Token r) w)) = store w
  /\ accesses (snd (serve (Token r) w))
     = (accesses w ++ [AGet (getAuthCodeKeyPrefix (FormValue r "code"))])%list
  /\ drawn (snd (serve (Token r) w)) = drawn w.
Proof.
  intros Hg Hcode.
  unfold oidcTokenEndpoint. run_handler. rewrite Hg. hsimpl. rewrite Hcode. hsimpl.
  repeat split.
Qed.
End TokenEndpoint.

(** *** The authorize endpoints *)

Lemma unescapePath_empty q s : Url.PathUnescape q s = Ok "" <-> s = "".
Proof.
  unfold Url.PathUnescape. split; [|intros ->; reflexivity].
  destruct s as [|c t]; [reflexivity|]. cbn [Url.unescapePath].
  destruct (Ascii.eqb c "%").
  - destruct t as [|a [|b t]]; try discriminate.
    destruct (Url.ishex a && Url.ishex b); [|discriminate].
    destruct (Url.unescapePath q t); discriminate.
  - destruct (Url.unescapePath q t); discriminate.
Qed.

Section Authorize.
Context {S : Type} `{Store S}.
Variable uuidSource : nat -> string.
Variable strconvQuote : string -> string.

#[local] Abbreviation Authorize := (oidcAuthorize uuidSource strconvQuote).
#[local] Abbreviation SendAuthorizeResponse := (oidcSendAuthorizeResponse uuidSource).

(** C3: an Authorize call in which one of claims, redirect_uri, client_id
    and state is empty after URL-unescaping is answered with status 400 and
    leaves the world as it was: the store is neither read nor written. *)
Theorem authorize_missing_parameter (r : Request) (w : World S) :
  (Url.PathUnescape strconvQuote (Url.Values_Get (Form r) "claims") = Ok ""
   \/ Url.PathUnescape strconvQuote (Url.Values_Get (Form r) "redirect_uri") = Ok ""
   \/ Url.PathUnescape strconvQuote (Url.Values_Get (Form r) "client_id") = Ok ""
   \/ Url.PathUnescape strconvQuote (Url.Values_Get (Form r) "state") = Ok "") ->
  status (fst (serve (Authorize r) w)) = Some StatusBadRequest
  /\ snd (serve (Authorize r) w) = w.
Proof.
  intros Hempty.
  assert (Hcheck : forall claims redirectURI,
             Url.PathUnescape strconvQuote (Url.Values_Get (Form r) "claims") = Ok claims ->
             Url.PathUnescape strconvQuote (Url.Values_Get (Form r) "redirect_uri")
             = Ok redirectURI ->
             isEmpty claims || isEmpty redirectURI
             || isEmpty (Url.Values_Get (Form r) "client_id")
             || isEmpty (Url.Values_Get (Form r) "state") = true).
  { intros claims redirectURI Hc Hu.
    destruct Hempty as [E|[E|[E|E]]].
    - rewrite E in Hc. injection Hc as <-. reflexivity.
    - rewrite E in Hu. injection Hu as <-. cbn. rewrite ?orb_true_r. reflexivity.
    - apply unescapePath_empty in E. rewrite E. cbn. rewrite ?orb_true_r. reflexivity.
    - apply unescapePath_empty in E. rewrite E. cbn. rewrite ?orb_true_r. reflexivity. }
  unfold oidcAuthorize. run_handler.
  destruct (parseFormErr r); hsimpl; [split; reflexivity|].
  destruct (Url.PathUnescape strconvQuote (Url.Values_Get (Form r) "claims")) as [claims|e] eqn:Hc;
    hsimpl; [|split; reflexivity].
  destruct (Url.PathUnescape strconvQuote (Url.Values_Get (Form r) "redirect_uri"))
    as [redirectURI|e] eqn:Hu; hsimpl; [|split; reflexivity].
  rewrite (Hcheck claims redirectURI eq_refl eq_refl). hsimpl. split; reflexivity.
Qed.

(** What a 302 of [oidcAuthorize] says of the request and the store. *)
Lemma authorize_found (r : Request) (w : World S) :
  status (fst (serve (Authorize r) w)) = Some StatusFound ->
  exists claims redirectURI bs s',
    Url.PathUnescape strconvQuote (Url.Values_Get (Form r) "claims") = Ok claims
    /\ Url.PathUnescape strconvQuote (Url.Values_Get (Form r) "redirect_uri") = Ok redirectURI
    /\ Json.MarshalStrings (authorizationRequest claims redirectURI r) = Ok bs
    /\ Put (store w) (getAuthStateKeyPrefix (uuidSource (drawn w))) bs = Ok s'
    /\ snd (serve (Authorize r) w)
       = {| store := s';
            accesses := (accesses w ++
                           [APut (getAuthStateKeyPrefix (uuidSource (drawn w))) bs])%list;
            drawn := Datatypes.S (drawn w); clock := clock w |}
    /\ cookies (fst (serve (Authorize r) w))
       = [{| cookieName := "state"; cookieValue := uuidSource (drawn w);
             cookieExpires := clock w + 5 * Time.Minute; cookiePath := "/" |}]
    /\ redirect (fst (serve (Authorize r) w)) = Some oidcIssuanceLogin.
Proof.
  unfold oidcAuthorize. run_handler.
  destruct (parseFormErr r); hsimpl; [discriminate|].
  destruct (Url.PathUnescape strconvQuote (Url.Values_Get (Form r) "claims")) as [claims|e] eqn:Hc;
    hsimpl; [|discriminate].
  destruct (Url.PathUnescape strconvQuote (Url.Values_Get (Form r) "redirect_uri"))
    as [redirectURI|e] eqn:Hu; hsimpl; [|discriminate].
  destruct (isEmpty claims || isEmpty redirectURI
            || isEmpty (Url.Values_Get (Form r) "client_id")
            || isEmpty (Url.Values_Get (Form r) "state")); hsimpl; [discriminate|].
  fold (authorizationRequest claims redirectURI r).
  destruct (Json.MarshalStrings (authorizationRequest claims redirectURI r)) as [bs|e] eqn:Hm;
    hsimpl; [|discriminate].
  destruct (Put (store w) (getAuthStateKeyPrefix (uuidSource (drawn w))) bs) as [s'|e] eqn:Hp;
    hsimpl; [|discriminate].
  intros _. exists claims, redirectURI, bs, s'. repeat split; first [assumption | reflexivity].
Qed.

(** What a 302 of [oidcSendAuthorizeResponse] says of the request and the
    store. *)
Lemma sendAuthorizeResponse_found (r : Request) (w : World S) :
  status (fst (serve (SendAuthorizeResponse r) w)) = Some StatusFound ->
  exists stateCookie bs authRequest redirectURI state s',
    Cookie r "state" = Ok stateCookie
    /\ Get (store w) (getAuthStateKeyPrefix stateCookie) = Ok bs
    /\ Json.Unmarshal bs = Some authRequest
    /\ authRequest !! "redirect_uri" = Some redirectURI
    /\ authRequest !! "state" = Some state
    /\ Put (store w) (getAuthCodeKeyPrefix (uuidSource (drawn w))) stateCookie = Ok s'
    /\ snd (serve (SendAuthorizeResponse r) w)
       = {| store := s';
            accesses := (accesses w ++
                           [AGet (getAuthStateKeyPrefix stateCookie);
                            APut (getAuthCodeKeyPrefix (uuidSource (drawn w))) stateCookie])%list;
            drawn := Datatypes.S (drawn w); clock := clock w |}
    /\ redirect (fst (serve (SendAuthorizeResponse r) w))
       = Some (redirectURI ++ "?code=" ++ uuidSource (drawn w) ++ "&state=" ++ state).
Proof.
  unfold oidcSendAuthorizeResponse. run_handler.
  destruct (Cookie r "state") as [stateCookie|e] eqn:Hck; hsimpl; [|discriminate].
  destruct (Get (store w) (getAuthStateKeyPrefix stateCookie)) as [bs|e] eqn:Hg;
    hsimpl; [|discriminate].
  destruct (Json.Unmarshal bs) as [authRequest|] eqn:Hj; hsimpl; [|discriminate].
  destruct (authRequest !! "redirect_uri") as [redirectURI|] eqn:Hr; hsimpl; [|discriminate].
  destruct (authRequest !! "state") as [state|] eqn:Hs; hsimpl; [|discriminate].
  destruct (Put (store w) (getAuthCodeKeyPrefix (uuidSource (drawn w))) stateCookie)
    as [s'|e] eqn:Hp; hsimpl; [|discriminate].
  intros _. exists stateCookie, bs, authRequest, redirectURI, state, s'.
  unfold logged. hsimpl. rewrite <- !app_assoc. repeat split; first [assumption | reflexivity].
Qed.

(** X2: A successful Authorize call (302) sets one cookie, [state], with the
    fresh UUID as its value, the path [/] and an expiry five minutes
    after the time of the call, redirects to the login page, and its one
    store access is the write of [authstate_{state}]. *)
Theorem authorize_sets_state_cookie (r : Request) (w : World S) :
  status (fst (serve (Authorize r) w)) = Some StatusFound ->
  cookies (fst (serve (Authorize r) w))
  = [{| cookieName := "state"; cookieValue := uuidSource (drawn w);
        cookieExpires := clock w + 300000000000; cookiePath := "/" |}]
  /\ redirect (fst (serve (Authorize r) w)) = Some "/oidc/login"
  /\ exists bs,
      accesses (snd (serve (Authorize r) w))
      = (accesses w ++ [APut (getAuthStateKeyPrefix (uuidSource (drawn w))) bs])%list.
Proof.
  intros Hfound.
  destruct (authorize_found r w Hfound)
    as (claims & redirectURI & bs & s' & _ & _ & _ & _ & Hw & Hck & Hred).
  split; [exact Hck|]. split; [exact Hred|]. exists bs. rewrite Hw. reflexivity.
Qed.

Context `{!StoreLaws S}.
Variable jsonCompact : string -> result string.

#[local] Abbreviation Token := (oidcTokenEndpoint uuidSource jsonCompact).


(** C7: when SendAuthorizeResponse has minted a code (its answer is the
    302), the code stands in the store for the state of the cookie, and
    a Token call with that code, the redirect_uri of the stored request and
    grant_type [authorization_code] is answered with 200 and a bearer
    token, and so is a second such call after it: the first exchange does
    not invalidate the code.  The two writes of the access tokens are
    taken to succeed (a failing write is the endpoint's 500). *)
Theorem code_exchange_repeats (r1 : Request) (w : World S) :
  status (fst (serve (SendAuthorizeResponse r1) w)) = Some StatusFound ->
  exists authState authRequest redirectURI,
    Cookie r1 "state" = Ok authState
    /\ loadAuthorizationRequest (store w) authState = Some authRequest
    /\ authRequest !! "redirect_uri" = Some redirectURI
    /\ Get (store (snd (serve (SendAuthorizeResponse r1) w)))
           (getAuthCodeKeyPrefix (uuidSource (drawn w))) = Ok authState
    /\ forall (r2 r3 : Request) (s2 s3 : S),
        FormValue r2 "code" = uuidSource (drawn w) ->
        FormValue r2 "redirect_uri" = redirectURI ->
        FormValue r2 "grant_type" = "authorization_code" ->
        FormValue r3 "code" = uuidSource (drawn w) ->
        FormValue r3 "redirect_uri" = redirectURI ->
        FormValue r3 "grant_type" = "authorization_code" ->
        Put (store (snd (serve (SendAuthorizeResponse r1) w)))
            (getAccessTokenKeyPrefix (uuidSource (1 + drawn w)%nat)) (Var r2 "id") = Ok s2 ->
        Put s2 (getAccessTokenKeyPrefix (uuidSource (2 + drawn w)%nat)) (Var r3 "id") = Ok s3 ->
        status (fst (serve (Token r2) (snd (serve (SendAuthorizeResponse r1) w)))) = Some StatusOK
        /\ body (fst (serve (Token r2) (snd (serve (SendAuthorizeResponse r1) w))))
           = tokenBody (uuidSource (1 + drawn w)%nat)
        /\ status (fst (serve (Token r3)
                          (snd (serve (Token r2) (snd (serve (SendAuthorizeResponse r1) w))))))
           = Some StatusOK
        /\ body (fst (serve (Token r3)
                        (snd (serve (Token r2) (snd (serve (SendAuthorizeResponse r1) w))))))
           = tokenBody (uuidSource (2 + drawn w)%nat).
Proof.
  intros Hfound.
  destruct (sendAuthorizeResponse_found r1 w Hfound)
    as (stateCookie & bs & authRequest & redirectURI & state & s1
        & Hck & Hg & Hj & Hr & Hs & Hp & Hw & Hred).
  assert (Hcode1 : Get s1 (getAuthCodeKeyPrefix (uuidSource (drawn w))) = Ok stateCookie)
    by exact (get_put _ _ _ _ Hp).
  exists stateCookie, authRequest, redirectURI.
  split; [exact Hck|]. split; [unfold loadAuthorizationRequest; rewrite Hg; exact Hj|].
  split; [exact Hr|]. rewrite Hw. cbn [store]. split; [exact Hcode1|].
  intros r2 r3 s2 s3 Hc2 Hu2 Hg2 Hc3 Hu3 Hg3 Hp2 Hp3.
  assert (Hstate1 : Get s1 (getAuthStateKeyPrefix stateCookie) = Ok bs)
    by (rewrite (get_put_ne _ _ _ _ _ Hp) by apply authstate_ne_authcode; exact Hg).
  assert (Hcode2 : Get s2 (getAuthCodeKeyPrefix (uuidSource (drawn w))) = Ok stateCookie)
    by (rewrite (get_put_ne _ _ _ _ _ Hp2) by apply authcode_ne_token; exact Hcode1).
  assert (Hstate2 : Get s2 (getAuthStateKeyPrefix stateCookie) = Ok bs)
    by (rewrite (get_put_ne _ _ _ _ _ Hp2) by apply authstate_ne_token; exact Hstate1).
  rewrite (oidcTokenEndpoint_ok uuidSource jsonCompact r2 _ stateCookie bs authRequest s2);
    cbn [store drawn fst snd status body];
    rewrite ?Hc2, ?Hu2, ?Hr; try assumption; try reflexivity.
  rewrite (oidcTokenEndpoint_ok uuidSource jsonCompact r3 _ stateCookie bs authRequest s3);
    cbn [store drawn fst snd status body];
    rewrite ?Hc3, ?Hu3, ?Hr; try assumption; try reflexivity.
  repeat split.
Qed.
End Authorize.

(** *** The credential endpoint *)

Lemma splitFrom_no_separator sep t : forall cur,
  Strings.Contains t sep = false -> Strings.splitFrom sep O cur t = [cur ++ t].
Proof.
  induction t as [|c t IH]; intros cur Hc.
  - cbn. rewrite append_nil_r. reflexivity.
  - cbn [Strings.Contains] in Hc. apply orb_false_iff in Hc. destruct Hc as [Hp Hc].
    cbn [Strings.splitFrom]. rewrite Hp. rewrite IH by exact Hc.
    rewrite append_assoc. reflexivity.
Qed.

(** A header of the exact form: the scheme, a space and a token that does
    not itself contain the separator. *)
Lemma Split_bearer token :
  Strings.Contains token "Bearer " = false ->
  Strings.Split ("Bearer " ++ token) "Bearer " = [""; token].
Proof.
  intros Hc. unfold Strings.Split. norm_app. cbn.
  replace (String.prefix "" token) with true by (destruct token; reflexivity).
  rewrite splitFrom_no_separator by exact Hc. reflexivity.
Qed.

Section CredentialEndpoint.
Context {S : Type} `{Store S}.
Variable jsonCompact : string -> result string.
Variable VC : Type.
Variable ParseCredential : string -> result VC.
Variable AddLinkedDataProof : VC -> LinkedDataProofContext -> result VC.
Variable MarshalJSON : VC -> result string.

#[local] Abbreviation CredentialEndpoint :=
  (oidcCredentialEndpoint jsonCompact VC ParseCredential AddLinkedDataProof MarshalJSON).

(** C10: a Credential call whose Authorization header is [Bearer {token}]
    with a non-empty token (free of the separator itself) that has no
    [access_token_{token}] entry is answered with status 400 and the body
    [{"error": "unsupported format requested"}], the message of the
    unsupported-format error; the store is not written. *)
Theorem credential_unknown_token (r : Request) (w : World S) token e :
  Header_Get r "Authorization" = "Bearer " ++ token ->
  token <> "" ->
  Strings.Contains token "Bearer " = false ->
  Get (store w) (getAccessTokenKeyPrefix token) = Err e ->
  status (fst (serve (CredentialEndpoint r) w)) = Some StatusBadRequest
  /\ body (fst (serve (CredentialEndpoint r) w)) = oidcErrorBody "unsupported format requested"
  /\ Json.Unmarshal (body (fst (serve (CredentialEndpoint r) w)))
     = Some {["error" := "unsupported format requested"]}
  /\ store (snd (serve (CredentialEndpoint r) w)) = store w.
Proof.
  intros Hh Hne Hc Hg. apply String.eqb_neq in Hne.
  unfold oidcCredentialEndpoint. run_handler.
  destruct (negb (FormValue r "format" =? "")%string && negb (FormValue r "format" =? "ldp_vc")%string);
    hsimpl; [repeat split|].
  rewrite Hh, (Split_bearer token Hc). hsimpl. rewrite Hne. hsimpl. rewrite Hg. hsimpl.
  repeat split.
Qed.

(** C2: what the endpoint does with the Authorization header.  A format
    other than the empty one and [ldp_vc] is answered 400
    [unsupported format requested] before the header is read.  Otherwise
    the header is cut at every occurrence of [Bearer ]: unless that gives
    exactly two parts the answer is 400 [malformed token] and the store is
    not touched; when the second part is empty the answer is 403
    [invalid token] and the store is not touched; otherwise the second
    part is the token looked up, whatever stands before [Bearer ].  A
    header [Bearer {token}] whose token does not itself contain [Bearer ]
    is cut into the empty part and the token. *)
Theorem credential_header_parse (r : Request) (w : World S) :
  (FormValue r "format" <> "" -> FormValue r "format" <> "ldp_vc" ->
     status (fst (serve (CredentialEndpoint r) w)) = Some StatusBadRequest
     /\ body (fst (serve (CredentialEndpoint r) w))
        = oidcErrorBody "unsupported format requested"
     /\ snd (serve (CredentialEndpoint r) w) = w)
  /\ (FormValue r "format" = "" \/ FormValue r "format" = "ldp_vc" ->
      (List.length (Strings.Split (Header_Get r "Authorization") "Bearer ") <> 2%nat ->
         status (fst (serve (CredentialEndpoint r) w)) = Some StatusBadRequest
         /\ body (fst (serve (CredentialEndpoint r) w)) = oidcErrorBody "malformed token"
         /\ snd (serve (CredentialEndpoint r) w) = w)
      /\ (forall before,
            Strings.Split (Header_Get r "Authorization") "Bearer " = [before; ""] ->
            status (fst (serve (CredentialEndpoint r) w)) = Some StatusForbidden
            /\ body (fst (serve (CredentialEndpoint r) w)) = oidcErrorBody "invalid token"
            /\ snd (serve (CredentialEndpoint r) w) = w)
      /\ (forall before token,
            Strings.Split (Header_Get r "Authorization") "Bearer " = [before; token] ->
            token <> "" ->
            exists rest,
              accesses (snd (serve (CredentialEndpoint r) w))
              = (accesses w ++ AGet (getAccessTokenKeyPrefix token) :: rest)%list))
  /\ (forall token,
        Strings.Contains token "Bearer " = false ->
        Strings.Split ("Bearer " ++ token) "Bearer " = [""; token]).
Proof.
  split; [|split; [|apply Split_bearer]].
  { intros Hne1 Hne2. apply String.eqb_neq in Hne1, Hne2.
    unfold oidcCredentialEndpoint. run_handler. rewrite Hne1, Hne2. hsimpl.
    repeat split. }
  intros Hf.
  assert (Hfmt : negb (FormValue r "format" =? "")%string
                 && negb (FormValue r "format" =? "ldp_vc")%string = false)
    by (destruct Hf as [-> | ->]; reflexivity).
  split; [|split].
  - intros Hlen. apply Nat.eqb_neq in Hlen.
    unfold oidcCredentialEndpoint. run_handler. rewrite Hfmt. hsimpl. rewrite Hlen. hsimpl.
    repeat split.
  - intros before Hs.
    unfold oidcCredentialEndpoint. run_handler. rewrite Hfmt. hsimpl. rewrite Hs. hsimpl.
    repeat split.
  - intros before token Hs Hne. apply String.eqb_neq in Hne.
    unfold oidcCredentialEndpoint. run_handler. rewrite Hfmt. hsimpl. rewrite Hs. hsimpl.
    rewrite Hne. hsimpl.
    destruct (Get (store w) (getAccessTokenKeyPrefix token)) as [issuerID|e]; hsimpl;
      [|eexists; reflexivity].
    destruct (negb (Var r "id" =? issuerID)%string); hsimpl; [eexists; reflexivity|].
    destruct (Get (store w) (getCredStoreKeyPrefix (Var r "id"))) as [credentialBytes|e]; hsimpl;
      [|unfold logged; hsimpl; rewrite <- app_assoc; eexists; reflexivity].
    destruct (ParseCredential credentialBytes) as [credential|e]; hsimpl;
      [|unfold logged; hsimpl; rewrite <- app_assoc; eexists; reflexivity].
    destruct (AddLinkedDataProof credential _) as [signed|e]; hsimpl;
      [|unfold logged; hsimpl; rewrite <- app_assoc; eexists; reflexivity].
    destruct (MarshalJSON signed) as [credBytes|e]; hsimpl;
      [|unfold logged; hsimpl; rewrite <- app_assoc; eexists; reflexivity].
    destruct (Json.Marshal _ _) as [response|e]; hsimpl;
      unfold logged; hsimpl; rewrite <- app_assoc; eexists; reflexivity.
Qed.

(** X3: A Credential call whose token was issued for another issuer id than
    the one of the path is answered with status 403 and the message
    [invalid transaction]; the credential is not read. *)
Theorem credential_issuer_mismatch (r : Request) (w : World S) before token issuerID :
  FormValue r "format" = "" \/ FormValue r "format" = "ldp_vc" ->
  Strings.Split (Header_Get r "Authorization") "Bearer " = [before; token] ->
  token <> "" ->
  Get (store w) (getAccessTokenKeyPrefix token) = Ok issuerID ->
  Var r "id" <> issuerID ->
  status (fst (serve (CredentialEndpoint r) w)) = Some StatusForbidden
  /\ body (fst (serve (CredentialEndpoint r) w)) = oidcErrorBody "invalid transaction"
  /\ store (snd (serve (CredentialEndpoint r) w)) = store w
  /\ accesses (snd (serve (CredentialEndpoint r) w))
     = (accesses w ++ [AGet (getAccessTokenKeyPrefix token)])%list.
Proof.
  intros Hf Hs Hne Hg Hid.
  assert (Hfmt : negb (FormValue r "format" =? "")%string
                 && negb (FormValue r "format" =? "ldp_vc")%string = false)
    by (destruct Hf as [-> | ->]; reflexivity).
  apply String.eqb_neq in Hne. apply String.eqb_neq in Hid.
  unfold oidcCredentialEndpoint. run_handler. rewrite Hfmt. hsimpl. rewrite Hs. hsimpl.
  rewrite Hne. hsimpl. rewrite Hg. hsimpl. rewrite Hid. hsimpl. repeat split.
Qed.

(** X4: The success path of the Credential endpoint: with a token issued for
    the path's issuer id and a stored credential that parses, signs (an
    Ed25519Signature2018 assertion proof created at the time of the call)
    and marshals, the answer is 200 with the marshalled object of the
    members format and credential, the credential as raw JSON; the store
    is read twice and not written, so the token and the credential stay
    usable. *)
Theorem credential_served (r : Request) (w : World S) before token credentialBytes
    credential signed credBytes response :
  FormValue r "format" = "" \/ FormValue r "format" = "ldp_vc" ->
  Strings.Split (Header_Get r "Authorization") "Bearer " = [before; token] ->
  token <> "" ->
  Get (store w) (getAccessTokenKeyPrefix token) = Ok (Var r "id") ->
  Get (store w) (getCredStoreKeyPrefix (Var r "id")) = Ok credentialBytes ->
  ParseCredential credentialBytes = Ok credential ->
  AddLinkedDataProof credential
    {| SignatureType := "Ed25519Signature2018"; VerificationMethod := kid;
       Purpose := "assertionMethod"; Created := clock w |} = Ok signed ->
  MarshalJSON signed = Ok credBytes ->
  Json.Marshal jsonCompact
    (<["format" := VString (FormValue r "format")]> (<["credential" := VRaw credBytes]> ∅))
  = Ok response ->
  status (fst (serve (CredentialEndpoint r) w)) = Some StatusOK
  /\ body (fst (serve (CredentialEndpoint r) w)) = response
  /\ headers (fst (serve (CredentialEndpoint r) w)) = oidcHeaders
  /\ store (snd (serve (CredentialEndpoint r) w)) = store w
  /\ accesses (snd (serve (CredentialEndpoint r) w))
     = (accesses w ++ [AGet (getAccessTokenKeyPrefix token);
                       AGet (getCredStoreKeyPrefix (Var r "id"))])%list.
Proof.
  intros Hf Hs Hne Hg Hc Hp Hsig Hm Hj.
  assert (Hfmt : negb (FormValue r "format" =? "")%string
                 && negb (FormValue r "format" =? "ldp_vc")%string = false)
    by (destruct Hf as [-> | ->]; reflexivity).
  apply String.eqb_neq in Hne.
  unfold oidcCredentialEndpoint. run_handler. rewrite Hfmt. hsimpl. rewrite Hs. hsimpl.
  rewrite Hne. hsimpl. rewrite Hg. hsimpl. rewrite String.eqb_refl. hsimpl.
  rewrite Hc. hsimpl. rewrite Hp. hsimpl. unfold logged. hsimpl. rewrite Hsig. hsimpl.
  rewrite Hm. hsimpl. rewrite Hj. hsimpl. rewrite <- app_assoc. repeat split.
Qed.
End CredentialEndpoint.

(** *** The issuer configuration builder *)

Section Issuance.
Context {S : Type} `{Store S} `{!StoreLaws S}.
Variable uuidSource : nat -> string.
Variable walletURL : string.
Variable Manifests : Type.
Variable decodeIssuanceRequest : string -> result (oidcIssuanceRequest Manifests).
Variable marshalIndentIssuerConfiguration : issuerConfiguration Manifests -> result string.
Variable URL : Type.
Variable urlParse : string -> result URL.
Variable urlQuery : URL -> gmap string (list string).
Variable valuesEncode : gmap string (list string) -> string.
Variable urlSetRawQuery : URL -> string -> URL.
Variable urlString : URL -> string.

#[local] Abbreviation InitiateIssuance :=
  (initiateIssuance uuidSource walletURL Manifests decodeIssuanceRequest
     marshalIndentIssuerConfiguration URL urlParse urlQuery valuesEncode urlSetRawQuery
     urlString).

(** What a 200 of [initiateIssuance] says of the request and the store. *)
Lemma initiateIssuance_ok (r : Request) (w : World S) :
  status (fst (serve (InitiateIssuance r) w)) = Some StatusOK ->
  exists req issuerConf s1 s2,
    decodeIssuanceRequest (Body r) = Ok req
    /\ marshalIndentIssuerConfiguration
         {| Issuer := IssuerURL req ++ "/" ++ uuidSource (drawn w);
            AuthorizationEndpoint :=
              (IssuerURL req ++ "/" ++ uuidSource (drawn w)) ++ "/oidc/authorize";
            TokenEndpoint := (IssuerURL req ++ "/" ++ uuidSource (drawn w)) ++ "/oidc/token";
            CredentialEndpoint :=
              (IssuerURL req ++ "/" ++ uuidSource (drawn w)) ++ "/oidc/credential";
            CredentialManifests := CredManifest req |} = Ok issuerConf
    /\ Put (store w) (uuidSource (drawn w)) issuerConf = Ok s1
    /\ Put s1 (getCredStoreKeyPrefix (uuidSource (drawn w))) (Credential req) = Ok s2
    /\ snd (serve (InitiateIssuance r) w)
       = {| store := s2;
            accesses := (accesses w ++
                           [APut (uuidSource (drawn w)) issuerConf;
                            APut (getCredStoreKeyPrefix (uuidSource (drawn w)))
                                 (Credential req)])%list;
            drawn := Datatypes.S (drawn w); clock := clock w |}.
Proof.
  unfold initiateIssuance. run_handler.
  destruct (decodeIssuanceRequest (Body r)) as [req|e] eqn:Hd; hsimpl; [|discriminate].
  destruct (marshalIndentIssuerConfiguration _) as [issuerConf|e] eqn:Hm; hsimpl; [|discriminate].
  destruct (Put (store w) (uuidSource (drawn w)) issuerConf) as [s1|e] eqn:Hp1; hsimpl;
    [|discriminate].
  destruct (Put s1 (getCredStoreKeyPrefix (uuidSource (drawn w))) (Credential req))
    as [s2|e] eqn:Hp2; hsimpl; [|discriminate].
  destruct (parseWalletURL _ _ _ _ _ _ _ _ _ _) as [redirectURL|e]; hsimpl; [|discriminate].
  intros _. exists req, issuerConf, s1, s2. unfold logged. hsimpl.
  rewrite <- app_assoc. repeat split; first [assumption | reflexivity].
Qed.

(** [wellKnownConfiguration] on a stored id, step by step. *)
Lemma wellKnownConfiguration_ok (r : Request) (w : World S) issuerConf :
  Get (store w) (Var r "id") = Ok issuerConf ->
  serve (wellKnownConfiguration r) w
  = ({| headers := <["Content-Type" := ["application/json"]]>
                     (<["Access-Control-Allow-Origin" := ["*"]]> ∅);
        status := Some StatusOK; body := issuerConf; cookies := []; redirect := None |},
     {| store := store w; accesses := (accesses w ++ [AGet (Var r "id")])%list;
        drawn := drawn w; clock := clock w |}).
Proof.
  intros Hg. unfold wellKnownConfiguration. run_handler. rewrite Hg. hsimpl.
  unfold logged, Write, WriteHeader, setHeader, emptyResponse. hsimpl. reflexivity.
Qed.

(** C8: after a successful initiateIssuance (status 200), with key the
    UUID drawn and issuer the request's issuer URL, a slash and the key,
    the store holds under key the marshalled well-known configuration
    whose issuer is issuer and whose authorization, token and credential
    endpoints are issuer followed by [/oidc/authorize], [/oidc/token] and
    [/oidc/credential], and under [cred_store_{key}] the credential bytes
    of the request. *)
Theorem initiateIssuance_persists (r : Request) (w : World S) :
  status (fst (serve (InitiateIssuance r) w)) = Some StatusOK ->
  exists req issuerConf,
    decodeIssuanceRequest (Body r) = Ok req
    /\ marshalIndentIssuerConfiguration
         {| Issuer := IssuerURL req ++ "/" ++ uuidSource (drawn w);
            AuthorizationEndpoint :=
              (IssuerURL req ++ "/" ++ uuidSource (drawn w)) ++ "/oidc/authorize";
            TokenEndpoint := (IssuerURL req ++ "/" ++ uuidSource (drawn w)) ++ "/oidc/token";
            CredentialEndpoint :=
              (IssuerURL req ++ "/" ++ uuidSource (drawn w)) ++ "/oidc/credential";
            CredentialManifests := CredManifest req |} = Ok issuerConf
    /\ Get (store (snd (serve (InitiateIssuance r) w))) (uuidSource (drawn w)) = Ok issuerConf
    /\ Get (store (snd (serve (InitiateIssuance r) w)))
           (getCredStoreKeyPrefix (uuidSource (drawn w))) = Ok (Credential req)
    /\ accesses (snd (serve (InitiateIssuance r) w))
       = (accesses w ++
            [APut (uuidSource (drawn w)) issuerConf;
             APut (getCredStoreKeyPrefix (uuidSource (drawn w))) (Credential req)])%list.
Proof.
  intros Hok.
  destruct (initiateIssuance_ok r w Hok) as (req & issuerConf & s1 & s2 & Hd & Hm & Hp1 & Hp2 & Hw).
  exists req, issuerConf. rewrite Hw. cbn [store accesses].
  split; [exact Hd|]. split; [exact Hm|]. split; [|split].
  - rewrite (get_put_ne _ _ _ _ _ Hp2) by apply credstore_ne_key. exact (get_put _ _ _ _ Hp1).
  - exact (get_put _ _ _ _ Hp2).
  - reflexivity.
Qed.

(** X5: The configuration a successful initiateIssuance stored is the one the
    well-known endpoint serves for the new id: status 200, the marshalled
    configuration as the body, the content type [application/json] and
    the CORS header, and no write.  The store is taken to keep both laws
    of [StoreLaws]: a value put is the value got, and a put leaves the
    other keys as they were (the configuration is put before the
    credential). *)
Theorem wellKnownConfiguration_after_initiateIssuance (r r2 : Request) (w : World S) :
  status (fst (serve (InitiateIssuance r) w)) = Some StatusOK ->
  Var r2 "id" = uuidSource (drawn w) ->
  exists req issuerConf,
    decodeIssuanceRequest (Body r) = Ok req
    /\ marshalIndentIssuerConfiguration
         {| Issuer := IssuerURL req ++ "/" ++ uuidSource (drawn w);
            AuthorizationEndpoint :=
              (IssuerURL req ++ "/" ++ uuidSource (drawn w)) ++ "/oidc/authorize";
            TokenEndpoint := (IssuerURL req ++ "/" ++ uuidSource (drawn w)) ++ "/oidc/token";
            CredentialEndpoint :=
              (IssuerURL req ++ "/" ++ uuidSource (drawn w)) ++ "/oidc/credential";
            CredentialManifests := CredManifest req |} = Ok issuerConf
    /\ status (fst (serve (wellKnownConfiguration r2) (snd (serve (InitiateIssuance r) w))))
       = Some StatusOK
    /\ body (fst (serve (wellKnownConfiguration r2) (snd (serve (InitiateIssuance r) w))))
       = issuerConf
    /\ headers (fst (serve (wellKnownConfiguration r2) (snd (serve (InitiateIssuance r) w))))
         !! "Content-Type" = Some ["application/json"]
    /\ headers (fst (serve (wellKnownConfiguration r2) (snd (serve (InitiateIssuance r) w))))
         !! "Access-Control-Allow-Origin" = Some ["*"]
    /\ store (snd (serve (wellKnownConfiguration r2) (snd (serve (InitiateIssuance r) w))))
       = store (snd (serve (InitiateIssuance r) w)).
Proof.
  intros Hok Hid.
  destruct (initiateIssuance_ok r w Hok) as (req & issuerConf & s1 & s2 & Hd & Hm & Hp1 & Hp2 & Hw).
  exists req, issuerConf. split; [exact Hd|]. split; [exact Hm|].
  rewrite Hw.
  rewrite (wellKnownConfiguration_ok r2 _ issuerConf).
  - repeat split.
  - cbn [store]. rewrite Hid.
    rewrite (get_put_ne _ _ _ _ _ Hp2) by apply credstore_ne_key. exact (get_put _ _ _ _ Hp1).
Qed.
End Issuance.

(** *** Credential assembly *)

Section AssemblyFacts.
Import Assembly.
Variable retrieveProfile : string -> result IssuerProfile.
Variable now : Z.
Variable uuid : string.
Variable marshalCredential : Credential -> result string.

Lemma assertStrings_strings (ctx : list string) : assertStrings (AString <$> ctx) = Done ctx.
Proof. induction ctx as [|c ctx IH]; [reflexivity|]. cbn. rewrite IH. reflexivity. Qed.

(** C9, amended: for a subject whose vcmetadata entry is a map with an
    [@context] array of strings, and a profile that is retrieved,
    PrepareCredential marshals a credential whose [@context] is exactly
    the elements of that array, in order, for every scope but
    [subject_data]; for the scope [subject_data] the [@context] is the
    credentials context and the citizenship context, whatever the
    array. *)
Theorem prepareCredential_context (subject vcMetaData : gmap string any) (ctx : list string)
    (scope vcsProfile : string) (profile : IssuerProfile) :
  subject !! "vcmetadata" = Some (AMap vcMetaData) ->
  vcMetaData !! "@context" = Some (AList (AString <$> ctx)) ->
  retrieveProfile vcsProfile = Ok profile ->
  exists cred subject',
    assembleCredential retrieveProfile now uuid subject scope vcsProfile
    = Done (Ok cred, subject')
    /\ prepareCredential retrieveProfile now uuid marshalCredential subject scope vcsProfile
       = Done (marshalCredential cred, subject')
    /\ Context cred
       = if String.eqb scope externalScopeQueryParam
         then [credentialContext; citizenshipContext]
         else ctx.
Proof.
  intros Hmeta Hctx Hprofile.
  unfold prepareCredential, assembleCredential.
  rewrite lookup_insert_ne by discriminate. rewrite Hmeta.
  unfold getCustomContext. rewrite Hctx, assertStrings_strings, Hprofile.
  destruct (String.eqb scope externalScopeQueryParam); eexists _, _; repeat split.
Qed.
End AssemblyFacts.

(** *** The store keys *)

(** X6: The four key functions write into namespaces of their own: each is
    injective, and no key of one is a key of another. *)
Theorem key_namespaces (a b : string) :
  ((getCredStoreKeyPrefix a = getCredStoreKeyPrefix b <-> a = b)
   /\ (getAuthStateKeyPrefix a = getAuthStateKeyPrefix b <-> a = b)
   /\ (getAuthCodeKeyPrefix a = getAuthCodeKeyPrefix b <-> a = b)
   /\ (getAccessTokenKeyPrefix a = getAccessTokenKeyPrefix b <-> a = b))
  /\ getCredStoreKeyPrefix a <> getAuthStateKeyPrefix b
  /\ getCredStoreKeyPrefix a <> getAuthCodeKeyPrefix b
  /\ getCredStoreKeyPrefix a <> getAccessTokenKeyPrefix b
  /\ getAuthStateKeyPrefix a <> getAuthCodeKeyPrefix b
  /\ getAuthStateKeyPrefix a <> getAccessTokenKeyPrefix b
  /\ getAuthCodeKeyPrefix a <> getAccessTokenKeyPrefix b.
Proof.
  unfold getCredStoreKeyPrefix, getAuthStateKeyPrefix, getAuthCodeKeyPrefix,
    getAccessTokenKeyPrefix.
  norm_app. split; [|repeat split; discriminate].
  repeat split; first [intros E; injection E; auto | intros ->; reflexivity].
Qed.

(** ** The statements at sample inputs *)

Lemma token_unsupported_grant_type_witness :
  status (fst (serve (oidcTokenEndpoint Sample.uuids Sample.compact
                        (Sample.tokenRequest "c1" "https://wallet.example/cb" "implicit" "issuer1"))
                     (Sample.world0 Sample.codeStore)))
  = Some StatusBadRequest.
Proof.
  apply (token_unsupported_grant_type Sample.uuids Sample.compact
           (Sample.tokenRequest "c1" "https://wallet.example/cb" "implicit" "issuer1")
           (Sample.world0 Sample.codeStore)).
  vm_compute. discriminate.
Defined.

Lemma token_redirect_mismatch_witness :
  status (fst (serve (oidcTokenEndpoint Sample.uuids Sample.compact
                        (Sample.tokenRequest "c1" "https://evil.example/cb"
                           "authorization_code" "issuer1"))
                     (Sample.world0 Sample.codeStore)))
  = Some StatusInternalServerError.
Proof.
  apply (token_redirect_mismatch Sample.uuids Sample.compact
           (Sample.tokenRequest "c1" "https://evil.example/cb" "authorization_code" "issuer1")
           (Sample.world0 Sample.codeStore) "st1" Sample.storedRequest
           (<["state" := "xyz"]> {["redirect_uri" := "https://wallet.example/cb"]}));
    vm_compute; first [reflexivity | discriminate].
Defined.

(** The exchange of the code [c1]: the body of the answer, byte for byte. *)
Lemma token_success_witness :
  body (fst (serve (oidcTokenEndpoint Sample.uuids Sample.compact
                      (Sample.tokenRequest "c1" "https://wallet.example/cb"
                         "authorization_code" "issuer1"))
                   (Sample.world0 Sample.codeStore)))
  = tokenBody (Sample.uuids (drawn (Sample.world0 Sample.codeStore)))
  /\ tokenBody (Sample.uuids (drawn (Sample.world0 Sample.codeStore)))
     = "{" ++ quoted "access_token" ++ ":" ++ quoted "uuid-0" ++ ","
           ++ quoted "expires_in" ++ ":3600000000000,"
           ++ quoted "token_type" ++ ":" ++ quoted "Bearer" ++ "}".
Proof.
  split; [|vm_compute; reflexivity].
  apply (token_success Sample.uuids Sample.compact
           (Sample.tokenRequest "c1" "https://wallet.example/cb" "authorization_code" "issuer1")
           (Sample.world0 Sample.codeStore) "st1" Sample.storedRequest
           (<["state" := "xyz"]> {["redirect_uri" := "https://wallet.example/cb"]})
           (<["access_token_uuid-0" := "issuer1"]> Sample.codeStore));
    vm_compute; reflexivity.
Defined.

(** The same exchange against the answer the OAuth reading expects: the
    map with expires_in 3600 marshals to other bytes than the body
    written. *)
Lemma token_expires_in_is_nanoseconds :
  status (fst (serve (oidcTokenEndpoint Sample.uuids Sample.compact
                        (Sample.tokenRequest "c1" "https://wallet.example/cb"
                           "authorization_code" "issuer1"))
                     (Sample.world0 Sample.codeStore))) = Some StatusOK
  /\ body (fst (serve (oidcTokenEndpoint Sample.uuids Sample.compact
                         (Sample.tokenRequest "c1" "https://wallet.example/cb"
                            "authorization_code" "issuer1"))
                      (Sample.world0 Sample.codeStore)))
     = "{" ++ quoted "access_token" ++ ":" ++ quoted "uuid-0" ++ ","
           ++ quoted "expires_in" ++ ":3600000000000,"
           ++ quoted "token_type" ++ ":" ++ quoted "Bearer" ++ "}"
  /\ Json.Marshal Sample.compact
       (<["token_type" := VString "Bearer"]>
          (<["access_token" := VString "uuid-0"]>
             (<["expires_in" := VInt 3600]> ∅)))
     <> Ok (body (fst (serve (oidcTokenEndpoint Sample.uuids Sample.compact
                                (Sample.tokenRequest "c1" "https://wallet.example/cb"
                                   "authorization_code" "issuer1"))
                             (Sample.world0 Sample.codeStore)))).
Proof.
  split; [vm_compute; reflexivity|]. split; [vm_compute; reflexivity|].
  vm_compute. discriminate.
Qed.

Lemma authorize_missing_parameter_witness :
  status (fst (serve (oidcAuthorize Sample.uuids id
                        (Sample.authorizeRequest "claims" "https://wallet.example/cb" "c1" ""))
                     (Sample.world0 ∅))) = Some StatusBadRequest
  /\ snd (serve (oidcAuthorize Sample.uuids id
                   (Sample.authorizeRequest "claims" "https://wallet.example/cb" "c1" ""))
                (Sample.world0 ∅)) = Sample.world0 ∅.
Proof.
  apply (authorize_missing_parameter Sample.uuids id
           (Sample.authorizeRequest "claims" "https://wallet.example/cb" "c1" "")
           (Sample.world0 ∅)).
  right. right. right. vm_compute. reflexivity.
Defined.



Lemma code_exchange_repeats_witness :
  exists authState authRequest redirectURI,
    Cookie (Sample.request ∅ ∅ [("state", "st1")] "issuer1") "state" = Ok authState
    /\ loadAuthorizationRequest (store (Sample.world0 Sample.codeStore)) authState
       = Some authRequest
    /\ authRequest !! "redirect_uri" = Some redirectURI
    /\ Get (store (snd (serve (oidcSendAuthorizeResponse Sample.uuids
                                 (Sample.request ∅ ∅ [("state", "st1")] "issuer1"))
                              (Sample.world0 Sample.codeStore))))
           (getAuthCodeKeyPrefix (Sample.uuids (drawn (Sample.world0 Sample.codeStore))))
       = Ok authState
    /\ forall (r2 r3 : Request) (s2 s3 : gmap string string),
        FormValue r2 "code" = Sample.uuids (drawn (Sample.world0 Sample.codeStore)) ->
        FormValue r2 "redirect_uri" = redirectURI ->
        FormValue r2 "grant_type" = "authorization_code" ->
        FormValue r3 "code" = Sample.uuids (drawn (Sample.world0 Sample.codeStore)) ->
        FormValue r3 "redirect_uri" = redirectURI ->
        FormValue r3 "grant_type" = "authorization_code" ->
        Put (store (snd (serve (oidcSendAuthorizeResponse Sample.uuids
                                  (Sample.request ∅ ∅ [("state", "st1")] "issuer1"))
                               (Sample.world0 Sample.codeStore))))
            (getAccessTokenKeyPrefix
               (Sample.uuids (1 + drawn (Sample.world0 Sample.codeStore))%nat))
            (Var r2 "id") = Ok s2 ->
        Put s2 (getAccessTokenKeyPrefix
                  (Sample.uuids (2 + drawn (Sample.world0 Sample.codeStore))%nat))
            (Var r3 "id") = Ok s3 ->
        status (fst (serve (oidcTokenEndpoint Sample.uuids Sample.compact r2)
                       (snd (serve (oidcSendAuthorizeResponse Sample.uuids
                                      (Sample.request ∅ ∅ [("state", "st1")] "issuer1"))
                                   (Sample.world0 Sample.codeStore))))) = Some StatusOK
        /\ body (fst (serve (oidcTokenEndpoint Sample.uuids Sample.compact r2)
                        (snd (serve (oidcSendAuthorizeResponse Sample.uuids
                                       (Sample.request ∅ ∅ [("state", "st1")] "issuer1"))
                                    (Sample.world0 Sample.codeStore)))))
           = tokenBody (Sample.uuids (1 + drawn (Sample.world0 Sample.codeStore))%nat)
        /\ status (fst (serve (oidcTokenEndpoint Sample.uuids Sample.compact r3)
                          (snd (serve (oidcTokenEndpoint Sample.uuids Sample.compact r2)
                                  (snd (serve (oidcSendAuthorizeResponse Sample.uuids
                                                 (Sample.request ∅ ∅ [("state", "st1")]
                                                    "issuer1"))
                                              (Sample.world0 Sample.codeStore)))))))
           = Some StatusOK
        /\ body (fst (serve (oidcTokenEndpoint Sample.uuids Sample.compact r3)
                        (snd (serve (oidcTokenEndpoint Sample.uuids Sample.compact r2)
                                (snd (serve (oidcSendAuthorizeResponse Sample.uuids
                                               (Sample.request ∅ ∅ [("state", "st1")]
                                                  "issuer1"))
                                            (Sample.world0 Sample.codeStore)))))))
           = tokenBody (Sample.uuids (2 + drawn (Sample.world0 Sample.codeStore))%nat).
Proof.
  apply (code_exchange_repeats (S := gmap string string) Sample.uuids Sample.compact
           (Sample.request ∅ ∅ [("state", "st1")] "issuer1") (Sample.world0 Sample.codeStore)).
  vm_compute. reflexivity.
Defined.

(** The code [uuid-0], minted for the state [st1], exchanged twice on the
    in-memory store: both answers are 200. *)
Example code_exchanged_twice :
  status (fst (serve (oidcTokenEndpoint Sample.uuids Sample.compact
                        (Sample.tokenRequest "uuid-0" "https://wallet.example/cb"
                           "authorization_code" "issuer1"))
                     (snd (serve (oidcSendAuthorizeResponse Sample.uuids
                                    (Sample.request ∅ ∅ [("state", "st1")] "issuer1"))
                                 (Sample.world0 Sample.codeStore))))) = Some StatusOK
  /\ status (fst (serve (oidcTokenEndpoint Sample.uuids Sample.compact
                           (Sample.tokenRequest "uuid-0" "https://wallet.example/cb"
                              "authorization_code" "issuer1"))
                        (snd (serve (oidcTokenEndpoint Sample.uuids Sample.compact
                                       (Sample.tokenRequest "uuid-0" "https://wallet.example/cb"
                                          "authorization_code" "issuer1"))
                                    (snd (serve (oidcSendAuthorizeResponse Sample.uuids
                                                   (Sample.request ∅ ∅ [("state", "st1")]
                                                      "issuer1"))
                                                (Sample.world0 Sample.codeStore)))))))
     = Some StatusOK.
Proof. split; vm_compute; reflexivity. Qed.

Lemma initiateIssuance_persists_witness :
  exists req issuerConf,
    Sample.decodeIssuance
      (Body {| Method := "POST"; parseFormErr := None; Form := ∅; Header := ∅; Cookies := [];
               Vars := ∅; Body := "https://issuer.example" |}) = Ok req
    /\ Sample.marshalConfiguration
         {| Issuer := IssuerURL req ++ "/" ++ Sample.uuids (drawn (Sample.world0 ∅));
            AuthorizationEndpoint :=
              (IssuerURL req ++ "/" ++ Sample.uuids (drawn (Sample.world0 ∅)))
                ++ "/oidc/authorize";
            TokenEndpoint :=
              (IssuerURL req ++ "/" ++ Sample.uuids (drawn (Sample.world0 ∅))) ++ "/oidc/token";
            CredentialEndpoint :=
              (IssuerURL req ++ "/" ++ Sample.uuids (drawn (Sample.world0 ∅)))
                ++ "/oidc/credential";
            CredentialManifests := CredManifest req |} = Ok issuerConf
    /\ Get (store (snd (serve (initiateIssuance Sample.uuids "https://wallet.example/init"
                                 string Sample.decodeIssuance Sample.marshalConfiguration
                                 string Sample.parseURL Sample.queryOf Sample.encodeQuery
                                 Sample.withQuery id
                                 {| Method := "POST"; parseFormErr := None; Form := ∅;
                                    Header := ∅; Cookies := []; Vars := ∅;
                                    Body := "https://issuer.example" |})
                              (Sample.world0 ∅))))
           (Sample.uuids (drawn (Sample.world0 ∅))) = Ok issuerConf
    /\ Get (store (snd (serve (initiateIssuance Sample.uuids "https://wallet.example/init"
                                 string Sample.decodeIssuance Sample.marshalConfiguration
                                 string Sample.parseURL Sample.queryOf Sample.encodeQuery
                                 Sample.withQuery id
                                 {| Method := "POST"; parseFormErr := None; Form := ∅;
                                    Header := ∅; Cookies := []; Vars := ∅;
                                    Body := "https://issuer.example" |})
                              (Sample.world0 ∅))))
           (getCredStoreKeyPrefix (Sample.uuids (drawn (Sample.world0 ∅))))
       = Ok (Credential req)
    /\ accesses (snd (serve (initiateIssuance Sample.uuids "https://wallet.example/init"
                               string Sample.decodeIssuance Sample.marshalConfiguration
                               string Sample.parseURL Sample.queryOf Sample.encodeQuery
                               Sample.withQuery id
                               {| Method := "POST"; parseFormErr := None; Form := ∅;
                                  Header := ∅; Cookies := []; Vars := ∅;
                                  Body := "https://issuer.example" |})
                            (Sample.world0 ∅)))
       = (accesses (Sample.world0 ∅) ++
            [APut (Sample.uuids (drawn (Sample.world0 ∅))) issuerConf;
             APut (getCredStoreKeyPrefix (Sample.uuids (drawn (Sample.world0 ∅))))
                  (Credential req)])%list.
Proof.
  apply (initiateIssuance_persists (S := gmap string string) Sample.uuids
           "https://wallet.example/init" string Sample.decodeIssuance
           Sample.marshalConfiguration string Sample.parseURL Sample.queryOf
           Sample.encodeQuery Sample.withQuery id
           {| Method := "POST"; parseFormErr := None; Form := ∅; Header := ∅; Cookies := [];
              Vars := ∅; Body := "https://issuer.example" |} (Sample.world0 ∅)).
  vm_compute. reflexivity.
Defined.

(** The well-known document of the sample issuance, as stored. *)
Example initiateIssuance_stored :
  Get (store (snd (serve (initiateIssuance Sample.uuids "https://wallet.example/init"
                            string Sample.decodeIssuance Sample.marshalConfiguration
                            string Sample.parseURL Sample.queryOf Sample.encodeQuery
                            Sample.withQuery id
                            {| Method := "POST"; parseFormErr := None; Form := ∅;
                               Header := ∅; Cookies := []; Vars := ∅;
                               Body := "https://issuer.example" |})
                         (Sample.world0 ∅)))) "uuid-0"
  = Ok ("{" ++ quoted "issuer" ++ ": " ++ quoted "https://issuer.example/uuid-0" ++ ","
            ++ quoted "authorization_endpoint" ++ ": "
            ++ quoted "https://issuer.example/uuid-0/oidc/authorize" ++ ","
            ++ quoted "token_endpoint" ++ ": "
            ++ quoted "https://issuer.example/uuid-0/oidc/token" ++ ","
            ++ quoted "credential_endpoint" ++ ": "
            ++ quoted "https://issuer.example/uuid-0/oidc/credential" ++ ","
            ++ quoted "credential_manifests" ++ ": {}}").
Proof. vm_compute. reflexivity. Qed.

Lemma credential_unknown_token_witness :
  status (fst (serve (oidcCredentialEndpoint Sample.compact string Sample.parseVC Sample.signVC
                        Sample.marshalVC (Sample.credentialRequest "Bearer tok" "issuer1"))
                     (Sample.world0 ∅))) = Some StatusBadRequest
  /\ body (fst (serve (oidcCredentialEndpoint Sample.compact string Sample.parseVC Sample.signVC
                         Sample.marshalVC (Sample.credentialRequest "Bearer tok" "issuer1"))
                      (Sample.world0 ∅))) = oidcErrorBody "unsupported format requested"
  /\ Json.Unmarshal
       (body (fst (serve (oidcCredentialEndpoint Sample.compact string Sample.parseVC
                            Sample.signVC Sample.marshalVC
                            (Sample.credentialRequest "Bearer tok" "issuer1"))
                         (Sample.world0 ∅))))
     = Some {["error" := "unsupported format requested"]}
  /\ store (snd (serve (oidcCredentialEndpoint Sample.compact string Sample.parseVC Sample.signVC
                          Sample.marshalVC (Sample.credentialRequest "Bearer tok" "issuer1"))
                       (Sample.world0 ∅))) = store (Sample.world0 ∅).
Proof.
  apply (credential_unknown_token (S := gmap string string) Sample.compact string Sample.parseVC
           Sample.signVC Sample.marshalVC (Sample.credentialRequest "Bearer tok" "issuer1")
           (Sample.world0 ∅) "tok" ErrDataNotFound);
    first [discriminate | vm_compute; reflexivity].
Defined.

(** The header [xBearer tok] is not of the form [Bearer {token}]; the
    endpoint looks the token [tok] up all the same and, finding it,
    serves the credential with status 200. *)
Lemma credential_header_prefix_reaches_lookup :
  (forall token, "xBearer tok" <> "Bearer " ++ token)
  /\ status (fst (serve (oidcCredentialEndpoint Sample.compact string Sample.parseVC
                           Sample.signVC Sample.marshalVC
                           (Sample.credentialRequest "xBearer tok" "issuer1"))
                        (Sample.world0 (<["access_token_tok" := "issuer1"]>
                                          {["cred_store_issuer1" := "{}"]}))))
     = Some StatusOK
  /\ accesses (snd (serve (oidcCredentialEndpoint Sample.compact string Sample.parseVC
                             Sample.signVC Sample.marshalVC
                             (Sample.credentialRequest "xBearer tok" "issuer1"))
                          (Sample.world0 (<["access_token_tok" := "issuer1"]>
                                            {["cred_store_issuer1" := "{}"]}))))
     = [AGet "access_token_tok"; AGet "cred_store_issuer1"].
Proof.
  split; [intros token; discriminate|]. split; vm_compute; reflexivity.
Qed.

Lemma credential_header_parse_witness :
  Strings.Split (Header_Get (Sample.credentialRequest "xBearer tok" "issuer1") "Authorization")
    "Bearer " = ["x"; "tok"]
  /\ exists rest,
      accesses (snd (serve (oidcCredentialEndpoint Sample.compact string Sample.parseVC
                              Sample.signVC Sample.marshalVC
                              (Sample.credentialRequest "xBearer tok" "issuer1"))
                           (Sample.world0 ∅)))
      = (accesses (Sample.world0 ∅) ++ AGet (getAccessTokenKeyPrefix "tok") :: rest)%list.
Proof.
  split; [vm_compute; reflexivity|].
  apply (proj2 (proj2
           (proj1 (proj2
              (credential_header_parse (S := gmap string string) Sample.compact string
                 Sample.parseVC Sample.signVC Sample.marshalVC
                 (Sample.credentialRequest "xBearer tok" "issuer1") (Sample.world0 ∅)))
              (or_introl eq_refl))) "x" "tok"); [vm_compute; reflexivity|discriminate].
Defined.

Lemma prepareCredential_context_witness :
  exists cred subject',
    Assembly.assembleCredential Sample.profile 0 "uuid-0" Sample.subjectWithContext
      "VerifiedEmployee" "demo" = Assembly.Done (Ok cred, subject')
    /\ Assembly.prepareCredential Sample.profile 0 "uuid-0" (fun _ => Ok "{}")
         Sample.subjectWithContext "VerifiedEmployee" "demo"
       = Assembly.Done (Ok "{}", subject')
    /\ Assembly.Context cred = ["a"; "b"].
Proof.
  apply (prepareCredential_context Sample.profile 0 "uuid-0" (fun _ => Ok "{}")
           Sample.subjectWithContext
           {["@context" := Assembly.AList [Assembly.AString "a"; Assembly.AString "b"]]}
           ["a"; "b"] "VerifiedEmployee" "demo"
           {| Assembly.Name := "demo"; Assembly.DID := "did:example:issuer";
              Assembly.URI := "https://issuer.example/credentials" |});
    vm_compute; reflexivity.
Defined.

(** With the scope [subject_data] the override [a], [b] is not the
    credential's [@context]. *)
Lemma prepareCredential_context_ignored_for_subject_data :
  assembledContext
    (Assembly.assembleCredential Sample.profile 0 "uuid-0" Sample.subjectWithContext
       "subject_data" "demo")
  = Some [Assembly.credentialContext; Assembly.citizenshipContext]
  /\ assembledContext
       (Assembly.assembleCredential Sample.profile 0 "uuid-0" Sample.subjectWithContext
          "subject_data" "demo")
     <> Some ["a"; "b"].
Proof.
  split; [vm_compute; reflexivity|]. vm_compute. discriminate.
Qed.

Lemma token_unknown_code_witness :
  status (fst (serve (oidcTokenEndpoint Sample.uuids Sample.compact
                        (Sample.tokenRequest "c2" "https://wallet.example/cb"
                           "authorization_code" "issuer1"))
                     (Sample.world0 Sample.codeStore))) = Some StatusBadRequest.
Proof.
  apply (token_unknown_code Sample.uuids Sample.compact
           (Sample.tokenRequest "c2" "https://wallet.example/cb" "authorization_code" "issuer1")
           (Sample.world0 Sample.codeStore) ErrDataNotFound);
    vm_compute; reflexivity.
Defined.

Lemma authorize_sets_state_cookie_witness :
  cookies (fst (serve (oidcAuthorize Sample.uuids id
                         (Sample.authorizeRequest "%7B%7D" "https://wallet.example/cb"
                            "c1" "xyz"))
                      (Sample.world0 ∅)))
  = [{| cookieName := "state";
        cookieValue := Sample.uuids (drawn (Sample.world0 ∅));
        cookieExpires := clock (Sample.world0 ∅) + 300000000000; cookiePath := "/" |}].
Proof.
  apply (authorize_sets_state_cookie (S := gmap string string) Sample.uuids id
           (Sample.authorizeRequest "%7B%7D" "https://wallet.example/cb" "c1" "xyz")
           (Sample.world0 ∅)).
  vm_compute. reflexivity.
Defined.

Lemma credential_issuer_mismatch_witness :
  status (fst (serve (oidcCredentialEndpoint Sample.compact string Sample.parseVC Sample.signVC
                        Sample.marshalVC (Sample.credentialRequest "Bearer tok" "issuer2"))
                     (Sample.world0 {["access_token_tok" := "issuer1"]})))
  = Some StatusForbidden.
Proof.
  apply (credential_issuer_mismatch (S := gmap string string) Sample.compact string
           Sample.parseVC Sample.signVC Sample.marshalVC
           (Sample.credentialRequest "Bearer tok" "issuer2")
           (Sample.world0 {["access_token_tok" := "issuer1"]}) "" "tok" "issuer1");
    first [discriminate | left; vm_compute; reflexivity | vm_compute; reflexivity
          | vm_compute; discriminate].
Defined.

Lemma credential_served_witness :
  body (fst (serve (oidcCredentialEndpoint Sample.compact string Sample.parseVC Sample.signVC
                      Sample.marshalVC (Sample.credentialRequest "Bearer tok" "issuer1"))
                   (Sample.world0 (<["access_token_tok" := "issuer1"]>
                                     {["cred_store_issuer1" := "{}"]}))))
  = "{" ++ quoted "credential" ++ ":{" ++ quoted "signed" ++ ":{}},"
        ++ quoted "format" ++ ":" ++ quoted "" ++ "}".
Proof.
  apply (credential_served (S := gmap string string) Sample.compact string
           Sample.parseVC Sample.signVC Sample.marshalVC
           (Sample.credentialRequest "Bearer tok" "issuer1")
           (Sample.world0 (<["access_token_tok" := "issuer1"]>
                             {["cred_store_issuer1" := "{}"]}))
           "" "tok" "{}" "{}"
           ("{" ++ quoted "signed" ++ ":{}}") ("{" ++ quoted "signed" ++ ":{}}")
           ("{" ++ quoted "credential" ++ ":{" ++ quoted "signed" ++ ":{}},"
                ++ quoted "format" ++ ":" ++ quoted "" ++ "}"));
    first [discriminate | left; vm_compute; reflexivity | vm_compute; reflexivity].
Defined.

Lemma wellKnownConfiguration_after_initiateIssuance_witness :
  exists req issuerConf,
    Sample.decodeIssuance
      (Body {| Method := "POST"; parseFormErr := None; Form := ∅; Header := ∅; Cookies := [];
               Vars := ∅; Body := "https://issuer.example" |}) = Ok req
    /\ Sample.marshalConfiguration
         {| Issuer := IssuerURL req ++ "/" ++ Sample.uuids (drawn (Sample.world0 ∅));
            AuthorizationEndpoint :=
              (IssuerURL req ++ "/" ++ Sample.uuids (drawn (Sample.world0 ∅)))
                ++ "/oidc/authorize";
            TokenEndpoint :=
              (IssuerURL req ++ "/" ++ Sample.uuids (drawn (Sample.world0 ∅))) ++ "/oidc/token";
            CredentialEndpoint :=
              (IssuerURL req ++ "/" ++ Sample.uuids (drawn (Sample.world0 ∅)))
                ++ "/oidc/credential";
            CredentialManifests := CredManifest req |} = Ok issuerConf
    /\ status (fst (serve (wellKnownConfiguration (Sample.request ∅ ∅ [] "uuid-0"))
                      (snd (serve (initiateIssuance Sample.uuids "https://wallet.example/init"
                                     string Sample.decodeIssuance Sample.marshalConfiguration
                                     string Sample.parseURL Sample.queryOf Sample.encodeQuery
                                     Sample.withQuery id
                                     {| Method := "POST"; parseFormErr := None; Form := ∅;
                                        Header := ∅; Cookies := []; Vars := ∅;
                                        Body := "https://issuer.example" |})
                                  (Sample.world0 ∅))))) = Some StatusOK
    /\ body (fst (serve (wellKnownConfiguration (Sample.request ∅ ∅ [] "uuid-0"))
                    (snd (serve (initiateIssuance Sample.uuids "https://wallet.example/init"
                                   string Sample.decodeIssuance Sample.marshalConfiguration
                                   string Sample.parseURL Sample.queryOf Sample.encodeQuery
                                   Sample.withQuery id
                                   {| Method := "POST"; parseFormErr := None; Form := ∅;
                                      Header := ∅; Cookies := []; Vars := ∅;
                                      Body := "https://issuer.example" |})
                                (Sample.world0 ∅))))) = issuerConf
    /\ headers (fst (serve (wellKnownConfiguration (Sample.request ∅ ∅ [] "uuid-0"))
                       (snd (serve (initiateIssuance Sample.uuids "https://wallet.example/init"
                                      string Sample.decodeIssuance Sample.marshalConfiguration
                                      string Sample.parseURL Sample.queryOf Sample.encodeQuery
                                      Sample.withQuery id
                                      {| Method := "POST"; parseFormErr := None; Form := ∅;
                                         Header := ∅; Cookies := []; Vars := ∅;
                                         Body := "https://issuer.example" |})
                                   (Sample.world0 ∅))))) !! "Content-Type"
       = Some ["application/json"]
    /\ headers (fst (serve (wellKnownConfiguration (Sample.request ∅ ∅ [] "uuid-0"))
                       (snd (serve (initiateIssuance Sample.uuids "https://wallet.example/init"
                                      string Sample.decodeIssuance Sample.marshalConfiguration
                                      string Sample.parseURL Sample.queryOf Sample.encodeQuery
                                      Sample.withQuery id
                                      {| Method := "POST"; parseFormErr := None; Form := ∅;
                                         Header := ∅; Cookies := []; Vars := ∅;
                                         Body := "https://issuer.example" |})
                                   (Sample.world0 ∅))))) !! "Access-Control-Allow-Origin"
       = Some ["*"]
    /\ store (snd (serve (wellKnownConfiguration (Sample.request ∅ ∅ [] "uuid-0"))
                     (snd (serve (initiateIssuance Sample.uuids "https://wallet.example/init"
                                    string Sample.decodeIssuance Sample.marshalConfiguration
                                    string Sample.parseURL Sample.queryOf Sample.encodeQuery
                                    Sample.withQuery id
                                    {| Method := "POST"; parseFormErr := None; Form := ∅;
                                       Header := ∅; Cookies := []; Vars := ∅;
                                       Body := "https://issuer.example" |})
                                 (Sample.world0 ∅)))))
       = store (snd (serve (initiateIssuance Sample.uuids "https://wallet.example/init"
                              string Sample.decodeIssuance Sample.marshalConfiguration
                              string Sample.parseURL Sample.queryOf Sample.encodeQuery
                              Sample.withQuery id
                              {| Method := "POST"; parseFormErr := None; Form := ∅;
                                 Header := ∅; Cookies := []; Vars := ∅;
                                 Body := "https://issuer.example" |})
                           (Sample.world0 ∅))).
Proof.
  apply (wellKnownConfiguration_after_initiateIssuance (S := gmap string string) Sample.uuids
           "https://wallet.example/init" string Sample.decodeIssuance
           Sample.marshalConfiguration string Sample.parseURL Sample.queryOf
           Sample.encodeQuery Sample.withQuery id
           {| Method := "POST"; parseFormErr := None; Form := ∅; Header := ∅; Cookies := [];
              Vars := ∅; Body := "https://issuer.example" |}
           (Sample.request ∅ ∅ [] "uuid-0") (Sample.world0 ∅));
    vm_compute; reflexivity.
Defined.

(** ** The handlers on every path *)




Section EveryPath.
Context {S : Type} `{Store S}.
#[local] Set Default Proof Using "Type".
Variable uuidSource : nat -> string.
Variable strconvQuote : string -> string.
Variable jsonCompact : string -> result string.
Variable VC : Type.
Variable ParseCredential : string -> result VC.
Variable AddLinkedDataProof : VC -> LinkedDataProofContext -> result VC.
Variable MarshalJSON : VC -> result string.

#[local] Abbreviation Token := (oidcTokenEndpoint uuidSource jsonCompact).
#[local] Abbreviation Authorize := (oidcAuthorize uuidSource strconvQuote).
#[local] Abbreviation SendAuthorizeResponse := (oidcSendAuthorizeResponse uuidSource).
#[local] Abbreviation CredentialEndpoint :=
  (oidcCredentialEndpoint jsonCompact VC ParseCredential AddLinkedDataProof MarshalJSON).

(** X7: Whatever the request and the store, the Token endpoint answers with
    the three OIDC headers, and every answer other than the 200 leaves the
    store as it was and carries a body that is a JSON object with the one
    member [error]. *)
Theorem token_endpoint_failure_frame (r : Request) (w : World S) :
  headers (fst (serve (Token r) w)) = oidcHeaders
  /\ (status (fst (serve (Token r) w)) <> Some StatusOK ->
      store (snd (serve (Token r) w)) = store w
      /\ exists msg,
          body (fst (serve (Token r) w)) = oidcErrorBody msg
          /\ Json.Unmarshal (body (fst (serve (Token r) w))) = Some {["error" := msg]}).
Proof.
  unfold oidcTokenEndpoint. run_handler.
  destruct (negb (FormValue r "grant_type" =? "authorization_code")%string); hsimpl;
    [split; [reflexivity|]; intros _; split; [reflexivity|]; eexists; split; reflexivity|].
  destruct (Get (store w) (getAuthCodeKeyPrefix (FormValue r "code"))) as [authState|e]; hsimpl;
    [|split; [reflexivity|]; intros _; split; [reflexivity|]; eexists; split; reflexivity].
  destruct (Get (store w) (getAuthStateKeyPrefix authState)) as [bs|e]; hsimpl;
    [|split; [reflexivity|]; intros _; split; [reflexivity|]; eexists; split; reflexivity].
  destruct (Json.Unmarshal bs) as [authRequest|]; hsimpl;
    [|split; [reflexivity|]; intros _; split; [reflexivity|]; eexists; split; reflexivity].
  destruct (negb (default "" (authRequest !! "redirect_uri") =? FormValue r "redirect_uri")%string);
    hsimpl;
    [split; [reflexivity|]; intros _; split; [reflexivity|]; eexists; split; reflexivity|].
  destruct (Put (store w) (getAccessTokenKeyPrefix (uuidSource (drawn w))) (Var r "id"))
    as [s'|e]; hsimpl;
    [|split; [reflexivity|]; intros _; split; [reflexivity|]; eexists; split; reflexivity].
  rewrite Marshal_tokenResponse. hsimpl. split; [reflexivity|]. intros Hne.
  exfalso. apply Hne. reflexivity.
Qed.

(** X8: The Credential endpoint only reads: whatever the request, the store is
    left as it was, no UUID is drawn, and the accesses it makes are at most
    two reads. *)
Theorem credential_endpoint_read_only (r : Request) (w : World S) :
  store (snd (serve (CredentialEndpoint r) w)) = store w
  /\ drawn (snd (serve (CredentialEndpoint r) w)) = drawn w
  /\ headers (fst (serve (CredentialEndpoint r) w)) = oidcHeaders
  /\ exists keys,
      accesses (snd (serve (CredentialEndpoint r) w)) = (accesses w ++ (AGet <$> keys))%list
      /\ (List.length keys <= 2)%nat.
Proof.
  unfold oidcCredentialEndpoint. run_handler.
  destruct (negb (FormValue r "format" =? "")%string && negb (FormValue r "format" =? "ldp_vc")%string);
    hsimpl; [repeat split; exists []; rewrite app_nil_r; split; [reflexivity|cbn; lia]|].
  destruct (negb (List.length (Strings.Split (Header_Get r "Authorization") "Bearer ") =? 2)%nat);
    hsimpl; [repeat split; exists []; rewrite app_nil_r; split; [reflexivity|cbn; lia]|].
  destruct (nth 1 (Strings.Split (Header_Get r "Authorization") "Bearer ") "" =? "")%string;
    hsimpl; [repeat split; exists []; rewrite app_nil_r; split; [reflexivity|cbn; lia]|].
  set (token := nth 1 (Strings.Split (Header_Get r "Authorization") "Bearer ") "").
  destruct (Get (store w) (getAccessTokenKeyPrefix token)) as [issuerID|e]; hsimpl;
    [|repeat split; exists [getAccessTokenKeyPrefix token]; split; [reflexivity|cbn; lia]].
  destruct (negb (Var r "id" =? issuerID)%string); hsimpl;
    [repeat split; exists [getAccessTokenKeyPrefix token]; split; [reflexivity|cbn; lia]|].
  assert (Hfin : forall acc : list access,
             acc = ((accesses w ++ [AGet (getAccessTokenKeyPrefix token)])
                      ++ [AGet (getCredStoreKeyPrefix (Var r "id"))])%list ->
             exists keys, acc = (accesses w ++ (AGet <$> keys))%list /\ (List.length keys <= 2)%nat).
  { intros acc ->. exists [getAccessTokenKeyPrefix token; getCredStoreKeyPrefix (Var r "id")].
    rewrite <- app_assoc. split; [reflexivity|cbn; lia]. }
  destruct (Get (store w) (getCredStoreKeyPrefix (Var r "id"))) as [credentialBytes|e]; hsimpl;
    [|unfold logged; hsimpl; repeat split; apply Hfin; reflexivity].
  destruct (ParseCredential credentialBytes) as [credential|e]; hsimpl;
    [|unfold logged; hsimpl; repeat split; apply Hfin; reflexivity].
  destruct (AddLinkedDataProof credential _) as [signed|e]; hsimpl;
    [|unfold logged; hsimpl; repeat split; apply Hfin; reflexivity].
  destruct (MarshalJSON signed) as [credBytes|e]; hsimpl;
    [|unfold logged; hsimpl; repeat split; apply Hfin; reflexivity].
  destruct (Json.Marshal _ _) as [response|e]; hsimpl;
    unfold logged; hsimpl; repeat split; apply Hfin; reflexivity.
Qed.

(** X9: An Authorize call that is not answered with the 302 leaves the store
    as it was or failed to write it: the store is unchanged, no cookie is
    set and nothing is redirected; and on no path does Authorize read the
    store. *)
Theorem authorize_failure_frame (r : Request) (w : World S) :
  status (fst (serve (Authorize r) w)) <> Some StatusFound ->
  store (snd (serve (Authorize r) w)) = store w
  /\ cookies (fst (serve (Authorize r) w)) = []
  /\ redirect (fst (serve (Authorize r) w)) = None
  /\ Forall (fun a => match a with AGet _ => False | APut _ _ => True end)
       (skipn (List.length (accesses w)) (accesses (snd (serve (Authorize r) w)))).
Proof.
  unfold oidcAuthorize. run_handler.
  assert (Hnone : Forall (fun a => match a with AGet _ => False | APut _ _ => True end)
                    (skipn (List.length (accesses w)) (accesses w)))
    by (rewrite skipn_all; constructor).
  destruct (parseFormErr r); hsimpl; [intros _; repeat split; exact Hnone|].
  destruct (Url.PathUnescape strconvQuote (Url.Values_Get (Form r) "claims")) as [claims|e];
    hsimpl; [|intros _; repeat split; exact Hnone].
  destruct (Url.PathUnescape strconvQuote (Url.Values_Get (Form r) "redirect_uri"))
    as [redirectURI|e]; hsimpl; [|intros _; repeat split; exact Hnone].
  destruct (isEmpty claims || isEmpty redirectURI
            || isEmpty (Url.Values_Get (Form r) "client_id")
            || isEmpty (Url.Values_Get (Form r) "state")); hsimpl;
    [intros _; repeat split; exact Hnone|].
  destruct (Json.MarshalStrings _) as [bs|e]; hsimpl; [|intros _; repeat split; exact Hnone].
  destruct (Put (store w) (getAuthStateKeyPrefix (uuidSource (drawn w))) bs) as [s'|e]; hsimpl.
  - intros Hne. exfalso. apply Hne. reflexivity.
  - intros _. repeat split. rewrite drop_app_length. repeat constructor.
Qed.

(** X10: SendAuthorizeResponse without the state cookie answers 403 and touches
    nothing; with a state that is not in the store it answers 400 after
    the one read; and whenever its answer is not the 302 the store is
    unchanged and nothing is redirected, so no code stands in the store. *)
Theorem sendAuthorizeResponse_failure_frame (r : Request) (w : World S) :
  status (fst (serve (SendAuthorizeResponse r) w)) <> Some StatusFound ->
  store (snd (serve (SendAuthorizeResponse r) w)) = store w
  /\ redirect (fst (serve (SendAuthorizeResponse r) w)) = None
  /\ (forall e, Cookie r "state" = Err e ->
        status (fst (serve (SendAuthorizeResponse r) w)) = Some StatusForbidden
        /\ body (fst (serve (SendAuthorizeResponse r) w)) = "invalid state"
        /\ snd (serve (SendAuthorizeResponse r) w) = w)
  /\ (forall authState e,
        Cookie r "state" = Ok authState ->
        Get (store w) (getAuthStateKeyPrefix authState) = Err e ->
        status (fst (serve (SendAuthorizeResponse r) w)) = Some StatusBadRequest
        /\ body (fst (serve (SendAuthorizeResponse r) w)) = "invalid request"
        /\ drawn (snd (serve (SendAuthorizeResponse r) w)) = drawn w).
Proof.
  unfold oidcSendAuthorizeResponse. run_handler.
  destruct (Cookie r "state") as [stateCookie|e0]; hsimpl;
    [|intros _; repeat split; intros; discriminate].
  destruct (Get (store w) (getAuthStateKeyPrefix stateCookie)) as [bs|e1] eqn:Hg; hsimpl.
  2:{ intros _. repeat split; try (intros; discriminate).
      all: intros authState e [= <-] Hg'; reflexivity. }
  assert (Hrest : forall (P1 P2 : Prop),
             (forall e : string, @Ok string stateCookie = Err e -> P1)
             /\ (forall authState e, Ok stateCookie = Ok authState ->
                   Get (store w) (getAuthStateKeyPrefix authState) = Err e -> P2)).
  { intros P1 P2. split; [intros; discriminate|].
    intros authState e [= <-] Hg'. rewrite Hg in Hg'. discriminate. }
  destruct (Json.Unmarshal bs) as [authRequest|]; hsimpl;
    [|intros _; split; [reflexivity|]; split; [reflexivity|]; apply Hrest].
  destruct (authRequest !! "redirect_uri") as [redirectURI|]; hsimpl;
    [|intros _; split; [reflexivity|]; split; [reflexivity|]; apply Hrest].
  destruct (authRequest !! "state") as [state|]; hsimpl;
    [|intros _; split; [reflexivity|]; split; [reflexivity|]; apply Hrest].
  destruct (Put (store w) (getAuthCodeKeyPrefix (uuidSource (drawn w))) stateCookie)
    as [s'|e]; hsimpl.
  - intros Hne. exfalso. apply Hne. reflexivity.
  - intros _. split; [reflexivity|]. split; [reflexivity|]. apply Hrest.
Qed.

(** X11: The well-known endpoint for an id that is not in the store answers
    500 (not 404) with the store's error in the body, and sets the CORS
    header but no content type. *)
Theorem wellKnownConfiguration_unknown_id (r : Request) (w : World S) e :
  Get (store w) (Var r "id") = Err e ->
  status (fst (serve (wellKnownConfiguration r) w)) = Some StatusInternalServerError
  /\ body (fst (serve (wellKnownConfiguration r) w))
     = "failed to read well known configuration : " ++ e
  /\ headers (fst (serve (wellKnownConfiguration r) w))
     = {["Access-Control-Allow-Origin" := ["*"]]}
  /\ store (snd (serve (wellKnownConfiguration r) w)) = store w.
Proof.
  intros Hg. unfold wellKnownConfiguration. run_handler. rewrite Hg. hsimpl. repeat split.
Qed.

End EveryPath.

(** ** The issuance flow, end to end *)

Section Flow.
Context {S : Type} `{Store S} (laws : StoreLaws S).
Variable uuidSource : nat -> string.
Variable strconvQuote : string -> string.
Variable jsonCompact : string -> result string.
Variable walletURL : string.
Variable Manifests : Type.
Variable decodeIssuanceRequest : string -> result (oidcIssuanceRequest Manifests).
Variable marshalIndentIssuerConfiguration : issuerConfiguration Manifests -> result string.
Variable URL : Type.
Variable urlParse : string -> result URL.
Variable urlQuery : URL -> gmap string (list string).
Variable valuesEncode : gmap string (list string) -> string.
Variable urlSetRawQuery : URL -> string -> URL.
Variable urlString : URL -> string.
Variable VC : Type.
Variable ParseCredential : string -> result VC.
Variable AddLinkedDataProof : VC -> LinkedDataProofContext -> result VC.
Variable MarshalJSON : VC -> result string.

#[local] Abbreviation InitiateIssuance :=
  (initiateIssuance uuidSource walletURL Manifests decodeIssuanceRequest
     marshalIndentIssuerConfiguration URL urlParse urlQuery valuesEncode urlSetRawQuery
     urlString).
#[local] Abbreviation Authorize := (oidcAuthorize uuidSource strconvQuote).
#[local] Abbreviation SendAuthorizeResponse := (oidcSendAuthorizeResponse uuidSource).
#[local] Abbreviation Token := (oidcTokenEndpoint uuidSource jsonCompact).
#[local] Abbreviation CredentialEndpoint :=
  (oidcCredentialEndpoint jsonCompact VC ParseCredential AddLinkedDataProof MarshalJSON).

End Flow.

(** ** The wallet URL of an issuance *)

Lemma splitFrom_nonempty (sep : string) (s : string) : forall skip cur,
  Strings.splitFrom sep skip cur s <> [].
Proof.
  induction s as [|c s IH]; intros skip cur; cbn [Strings.splitFrom]; [discriminate|].
  destruct skip; [|apply IH].
  destruct (String.prefix sep (String c s)); [discriminate | apply IH].
Qed.

Lemma Values_Add_all (key : string) (vs : list string) : forall q : gmap string (list string),
  vs <> [] ->
  fold_left (fun q v => Url.Values_Add q key v) vs q !! key
  = Some (default [] (q !! key) ++ vs)%list.
Proof.
  induction vs as [|v vs IH]; intros q Hne; [congruence|].
  cbn [fold_left]. destruct vs as [|v' vs].
  - cbn [fold_left]. unfold Url.Values_Add. rewrite lookup_insert_eq. reflexivity.
  - rewrite IH by discriminate. unfold Url.Values_Add. rewrite lookup_insert_eq.
    cbn [default from_option id]. rewrite <- app_assoc. reflexivity.
Qed.

Lemma Values_Add_other (key k : string) (vs : list string) : forall q : gmap string (list string),
  k <> key ->
  fold_left (fun q v => Url.Values_Add q key v) vs q !! k = q !! k.
Proof.
  induction vs as [|v vs IH]; intros q Hne; [reflexivity|].
  cbn [fold_left]. rewrite IH by exact Hne. unfold Url.Values_Add.
  apply lookup_insert_ne. congruence.
Qed.

Section WalletURL.
Context {S : Type} `{Store S}.
#[local] Set Default Proof Using "Type".
Variable uuidSource : nat -> string.
Variable walletURL : string.
Variable Manifests : Type.
Variable decodeIssuanceRequest : string -> result (oidcIssuanceRequest Manifests).
Variable marshalIndentIssuerConfiguration : issuerConfiguration Manifests -> result string.
Variable URL : Type.
Variable urlParse : string -> result URL.
Variable urlQuery : URL -> gmap string (list string).
Variable valuesEncode : gmap string (list string) -> string.
Variable urlSetRawQuery : URL -> string -> URL.
Variable urlString : URL -> string.

#[local] Abbreviation InitiateIssuance :=
  (initiateIssuance uuidSource walletURL Manifests decodeIssuanceRequest
     marshalIndentIssuerConfiguration URL urlParse urlQuery valuesEncode urlSetRawQuery
     urlString).

(** X13: The body of a successful initiateIssuance is the wallet URL (the
    request's, or the configured one when the request has none) with a
    query in which [issuer] is the new issuer alone, the credential types
    and the manifest ids of the request are appended, in order, to those
    the wallet URL already had, and every other parameter is kept.  Both
    lists come from [strings.Split] and are never empty: a request
    without credential types adds one empty [credential_type]. *)
Theorem initiateIssuance_wallet_redirect (r : Request) (w : World S) :
  status (fst (serve (InitiateIssuance r) w)) = Some StatusOK ->
  exists req u q,
    decodeIssuanceRequest (Body r) = Ok req
    /\ urlParse (if isEmpty (WalletInitIssuanceURL req) then walletURL
                 else WalletInitIssuanceURL req) = Ok u
    /\ body (fst (serve (InitiateIssuance r) w)) = urlString (urlSetRawQuery u (valuesEncode q))
    /\ q !! "issuer" = Some [IssuerURL req ++ "/" ++ uuidSource (drawn w)]
    /\ q !! "credential_type"
       = Some (default [] (urlQuery u !! "credential_type")
                 ++ Strings.Split (CredentialTypes req) ",")%list
    /\ q !! "manifest_id"
       = Some (default [] (urlQuery u !! "manifest_id")
                 ++ Strings.Split (ManifestIDs req) ",")%list
    /\ (forall k, k <> "issuer" -> k <> "credential_type" -> k <> "manifest_id" ->
          q !! k = urlQuery u !! k)
    /\ (CredentialTypes req = "" -> Strings.Split (CredentialTypes req) "," = [""]).
Proof.
  unfold initiateIssuance. run_handler.
  destruct (decodeIssuanceRequest (Body r)) as [req|e] eqn:Hd; hsimpl; [|discriminate].
  destruct (marshalIndentIssuerConfiguration _) as [issuerConf|e]; hsimpl; [|discriminate].
  destruct (Put (store w) (uuidSource (drawn w)) issuerConf) as [s1|e]; hsimpl; [|discriminate].
  destruct (Put s1 (getCredStoreKeyPrefix (uuidSource (drawn w))) (Credential req))
    as [s2|e]; hsimpl; [|discriminate].
  unfold parseWalletURL.
  destruct (urlParse _) as [u|e] eqn:Hu; hsimpl; [|discriminate].
  intros _. exists req, u. eexists. split; [reflexivity|]. split; [exact Hu|].
  split; [reflexivity|].
  split.
  { rewrite !Values_Add_other by discriminate. apply lookup_insert_eq. }
  split.
  { rewrite Values_Add_other by discriminate.
    rewrite Values_Add_all by apply splitFrom_nonempty.
    unfold Url.Values_Set. rewrite lookup_insert_ne by discriminate. reflexivity. }
  split.
  { rewrite Values_Add_all by apply splitFrom_nonempty.
    rewrite Values_Add_other by discriminate.
    unfold Url.Values_Set. rewrite lookup_insert_ne by discriminate. reflexivity. }
  split.
  { intros k H1 H2 H3. rewrite !Values_Add_other by congruence.
    unfold Url.Values_Set. apply lookup_insert_ne. congruence. }
  intros ->. reflexivity.
Qed.
End WalletURL.

(** ** Form validation *)

Import Forms.

(** X14: [validateForm] accepts a form exactly when every key has a first
    value (an empty one counts); otherwise its error names the first key
    without one, all keys before it having one. *)
Theorem validateForm_first_missing (formVals : gmap string (list string)) (keys : list string) :
  (validateForm formVals keys = Ok tt
   <-> Forall (fun k => exists v vs, formVals !! k = Some (v :: vs)) keys)
  /\ (forall e, validateForm formVals keys = Err e ->
        exists before k rest,
          keys = (before ++ k :: rest)%list
          /\ Forall (fun k => exists v vs, formVals !! k = Some (v :: vs)) before
          /\ (formVals !! k = None \/ formVals !! k = Some [])
          /\ e = "invalid '" ++ k ++ "'").
Proof.
  induction keys as [|key keys [IHok IHerr]].
  - split; [split; [constructor | reflexivity] | discriminate].
  - cbn [validateForm]. unfold getFormValue.
    destruct (formVals !! key) as [[|v vs]|] eqn:Hk; cbn [snd].
    + split.
      * split; [discriminate|]. intros Hall. apply Forall_cons_1 in Hall.
        destruct Hall as [(v & vs & Hv) _]. congruence.
      * intros e [= <-]. exists [], key, keys. repeat split; [constructor | right; exact Hk].
    + split.
      * rewrite IHok. split.
        -- intros Hall. constructor; [exists v, vs; exact Hk | exact Hall].
        -- intros Hall. apply Forall_cons_1 in Hall. apply Hall.
      * intros e He. destruct (IHerr e He) as (before & k & rest & -> & Hb & Hm & ->).
        exists (key :: before), k, rest. repeat split; [|exact Hm].
        constructor; [exists v, vs; exact Hk | exact Hb].
    + split.
      * split; [discriminate|]. intros Hall. apply Forall_cons_1 in Hall.
        destruct Hall as [(v & vs & Hv) _]. congruence.
      * intros e [= <-]. exists [], key, keys. repeat split; [constructor | left; exact Hk].
Qed.

(** ** The DID auth response *)

Section AuthResponseFacts.
Import Assembly AuthResponse.
#[local] Set Default Proof Using "Type".
Variable ParsePresentation : string -> result Presentation.

(** X15: [validateAuthResp] accepts exactly the presentations of the holder
    whose first proof has the challenge and the domain asked for; only the
    first proof is looked at.  A presentation of the holder without any
    proof makes it panic.  A challenge and a domain that are [null] pass
    for the empty challenge and domain. *)
Theorem validateAuthResp_accepts_iff (authResp holder domain challenge : string) :
  (validateAuthResp ParsePresentation authResp holder domain challenge = Done (Ok tt)
   <-> exists vp proof rest,
         ParsePresentation authResp = Ok vp /\ Holder vp = holder
         /\ Proofs vp = proof :: rest
         /\ (proof !! "challenge" = Some (AString challenge)
             \/ (proof !! "challenge" = Some ANil /\ challenge = ""))
         /\ (proof !! "domain" = Some (AString domain)
             \/ (proof !! "domain" = Some ANil /\ domain = "")))
  /\ (forall vp, ParsePresentation authResp = Ok vp -> Holder vp = holder -> Proofs vp = [] ->
        validateAuthResp ParsePresentation authResp holder domain challenge = Panic).
Proof.
  unfold validateAuthResp. split.
  - split.
    + destruct (ParsePresentation authResp) as [vp|e]; [|discriminate].
      destruct (String.eqb (Holder vp) holder) eqn:Hh; cbn [negb]; [|discriminate].
      apply String.eqb_eq in Hh.
      destruct (Proofs vp) as [|proof rest] eqn:Hproofs; [discriminate|].
      unfold proofString.
      destruct (proof !! "challenge") as [[| | |c| |]|] eqn:Hpc; cbn [negb]; try discriminate;
        destruct (proof !! "domain") as [[| | |d| |]|] eqn:Hpd; cbn [negb]; try discriminate.
      all: repeat match goal with
             | |- context [String.eqb ?a ?b] => destruct (String.eqb_spec a b)
             end; cbn [negb orb]; try discriminate.
      all: subst; intros _; exists vp, proof, rest; repeat split;
        first [assumption | left; assumption | right; split; [assumption | reflexivity]].
    + intros (vp & proof & rest & -> & <- & -> & Hc & Hd).
      rewrite String.eqb_refl. cbn [negb]. unfold proofString.
      destruct Hc as [-> | [-> ->]], Hd as [-> | [-> ->]];
        cbn [negb]; rewrite ?String.eqb_refl; reflexivity.
  - intros vp -> <- ->. rewrite String.eqb_refl. reflexivity.
Qed.
End AuthResponseFacts.

(** ** Credential assembly, further *)

Section AssemblyMore.
Import Assembly.
#[local] Set Default Proof Using "Type".
Variable retrieveProfile : string -> result IssuerProfile.
Variable now : Z.
Variable uuid : string.
Variable marshalCredential : Credential -> result string.

Lemma assertStrings_Done (l : list any) (ss : list string) :
  assertStrings l = Done ss -> l = AString <$> ss.
Proof.
  revert ss. induction l as [|a l IH]; intros ss.
  - intros [= <-]. reflexivity.
  - cbn [assertStrings]. destruct a; try discriminate.
    destruct (assertStrings l) as [ss'|]; [|discriminate].
    intros [= <-]. cbn. rewrite (IH ss' eq_refl). reflexivity.
Qed.

(** X16: Whenever [prepareCredential] returns, with a credential or with the
    error of the profile, the caller's subject map has been changed: its
    [id] is the empty string, the four CMS members are gone and every
    other member is as it was. *)
Theorem prepareCredential_changes_subject (subject subject' : gmap string any)
    (scope vcsProfile : string) (res : result string) :
  prepareCredential retrieveProfile now uuid marshalCredential subject scope vcsProfile
  = Done (res, subject') ->
  subject' !! "id" = Some (AString "")
  /\ subject' !! "created_at" = None /\ subject' !! "updated_at" = None
  /\ subject' !! "userid" = None /\ subject' !! "vcmetadata" = None
  /\ (forall k, k <> "id" -> k <> "created_at" -> k <> "updated_at" -> k <> "userid" ->
        k <> "vcmetadata" -> subject' !! k = subject !! k).
Proof.
  unfold prepareCredential, assembleCredential.
  rewrite lookup_insert_ne by discriminate.
  set (cleaned := delete "vcmetadata" (delete "userid" (delete "updated_at"
                    (delete "created_at" (<["id" := AString ""]> subject))))).
  assert (Hcleaned : cleaned !! "id" = Some (AString "")
            /\ cleaned !! "created_at" = None /\ cleaned !! "updated_at" = None
            /\ cleaned !! "userid" = None /\ cleaned !! "vcmetadata" = None
            /\ (forall k, k <> "id" -> k <> "created_at" -> k <> "updated_at" -> k <> "userid" ->
                  k <> "vcmetadata" -> cleaned !! k = subject !! k)).
  { unfold cleaned. repeat split.
    - rewrite !lookup_delete_ne by discriminate. apply lookup_insert_eq.
    - rewrite !lookup_delete_ne by discriminate. apply lookup_delete_eq.
    - rewrite !lookup_delete_ne by discriminate. apply lookup_delete_eq.
    - rewrite lookup_delete_ne by discriminate. apply lookup_delete_eq.
    - apply lookup_delete_eq.
    - intros k H1 H2 H3 H4 H5. rewrite !lookup_delete_ne by congruence.
      apply lookup_insert_ne. congruence. }
  assert (Hgo : forall custom : outcome (list string * gmap string any),
             match
               match custom with
               | Done (vcContext, customFields) =>
                   match retrieveProfile vcsProfile with
                   | Ok profileResponse =>
                       let '(types, sub, customFields0, context) :=
                         if String.eqb scope externalScopeQueryParam
                         then (["VerifiableCredential"; "PermanentResidentCard"],
                               index cleaned "subjectData",
                               <["name" := AString "Permanent Resident Card"]> customFields,
                               [credentialContext; citizenshipContext])
                         else (["VerifiableCredential"; scope], AMap cleaned, customFields,
                               vcContext) in
                       Done (Ok {| Context := context;
                                   ID := URI profileResponse ++ "/" ++ uuid;
                                   Types := types;
                                   Subject := match cleaned !! "vccredentialsubject" with
                                              | Some (AMap s) => AMap s
                                              | _ => sub
                                              end;
                                   CredIssuer :=
                                     {| IssuerID := DID profileResponse;
                                        IssuerCustomFields :=
                                          {["name" := AString (Name profileResponse)]} |};
                                   Issued := now;
                                   CustomFields := customFields0 |}, cleaned)
                   | Err e =>
                       Done (Err ("retrieve profile - name=" ++ vcsProfile ++ " err=" ++ e),
                             cleaned)
                   end
               | Panic => Panic
               end
             with
             | Done (Ok cred, subject'0) => Done (marshalCredential cred, subject'0)
             | Done (Err e, subject'0) => Done (Err e, subject'0)
             | Panic => Panic
             end = Done (res, subject') -> subject' = cleaned).
  { intros [[vcContext customFields]|]; [|discriminate].
    destruct (retrieveProfile vcsProfile); [|intros [= _ <-]; reflexivity].
    destruct (String.eqb scope externalScopeQueryParam); intros [= _ <-]; reflexivity. }
  intros Hrun. apply Hgo in Hrun. subst subject'. exact Hcleaned.
Qed.

(** X17: On the nil map [prepareCredential] panics at its first statement.
    On a subject map that was made and has no override (no [vcmetadata],
    or one that is no map or has no [@context]), with a profile that is
    retrieved, the credential's [@context] is the two default contexts for
    every scope but [subject_data], and the credentials and citizenship
    contexts for [subject_data]. *)
Theorem prepareCredential_default_context (subject : option (gmap string any))
    (scope vcsProfile : string) (profile : IssuerProfile) :
  (forall m vcMetaData, subject = Some m -> m !! "vcmetadata" = Some (AMap vcMetaData) ->
     vcMetaData !! "@context" = None) ->
  retrieveProfile vcsProfile = Ok profile ->
  match subject with
  | None =>
      prepareCredentialOf retrieveProfile now uuid marshalCredential None scope vcsProfile
      = Panic
  | Some m =>
      exists cred subject',
        assembleCredential retrieveProfile now uuid m scope vcsProfile
        = Done (Ok cred, subject')
        /\ prepareCredentialOf retrieveProfile now uuid marshalCredential (Some m) scope
             vcsProfile
           = Done (marshalCredential cred, subject')
        /\ Context cred
           = (if String.eqb scope externalScopeQueryParam
              then ["https://www.w3.org/2018/credentials/v1"; "https://w3id.org/citizenship/v1"]
              else ["https://www.w3.org/2018/credentials/v1";
                    "https://trustbloc.github.io/context/vc/examples-ext-v1.jsonld"])
        /\ Types cred
           = (if String.eqb scope externalScopeQueryParam
              then ["VerifiableCredential"; "PermanentResidentCard"]
              else ["VerifiableCredential"; scope])
        /\ ID cred = URI profile ++ "/" ++ uuid
        /\ IssuerID (CredIssuer cred) = DID profile
  end.
Proof.
  intros Hmeta Hprofile.
  destruct subject as [m|]; [|reflexivity].
  specialize (fun vcMetaData => Hmeta m vcMetaData eq_refl).
  unfold prepareCredentialOf, prepareCredential, assembleCredential.
  rewrite lookup_insert_ne by discriminate.
  destruct (m !! "vcmetadata") as [[| | | | |vcMetaData]|] eqn:Hm; rewrite ?Hprofile.
  6:{ unfold getCustomContext. rewrite (Hmeta vcMetaData eq_refl), ?Hprofile.
      destruct (String.eqb scope externalScopeQueryParam); eexists _, _; repeat split. }
  all: destruct (String.eqb scope externalScopeQueryParam); eexists _, _; repeat split.
Qed.

(** X18: A [vcmetadata] map whose [@context] is not an array of strings makes
    [prepareCredential] panic, for every scope (also [subject_data], which
    does not use the override) and before the profile is asked for. *)
Theorem prepareCredential_panics_on_bad_context (subject vcMetaData : gmap string any)
    (ctx : any) (scope vcsProfile : string) :
  subject !! "vcmetadata" = Some (AMap vcMetaData) ->
  vcMetaData !! "@context" = Some ctx ->
  (forall ss : list string, ctx <> AList (AString <$> ss)) ->
  prepareCredential retrieveProfile now uuid marshalCredential subject scope vcsProfile = Panic.
Proof.
  intros Hmeta Hctx Hbad.
  unfold prepareCredential, assembleCredential.
  rewrite lookup_insert_ne by discriminate. rewrite Hmeta.
  unfold getCustomContext. rewrite Hctx.
  destruct ctx as [| | | |l|]; try reflexivity.
  destruct (assertStrings l) as [ss|] eqn:Hl; [|reflexivity].
  exfalso. apply (Hbad ss). f_equal. apply assertStrings_Done. exact Hl.
Qed.

(** X19: A [vccredentialsubject] member that is a map becomes the credential's
    subject as it is, for every scope: the blanked [id] and the rest of the
    subject map are not part of it. *)
Theorem prepareCredential_subject_override (subject subject' s : gmap string any)
    (scope vcsProfile : string) (cred : Credential) :
  subject !! "vccredentialsubject" = Some (AMap s) ->
  assembleCredential retrieveProfile now uuid subject scope vcsProfile
  = Done (Ok cred, subject') ->
  Subject cred = AMap s
  /\ prepareCredential retrieveProfile now uuid marshalCredential subject scope vcsProfile
     = Done (marshalCredential cred, subject').
Proof.
  intros Hs Hrun. unfold prepareCredential. rewrite Hrun. split; [|reflexivity].
  revert Hrun. unfold assembleCredential.
  rewrite lookup_insert_ne by discriminate.
  rewrite !lookup_delete_ne by discriminate. rewrite lookup_insert_ne by discriminate.
  rewrite Hs.
  match goal with
  | |- context [match ?c with Done _ => _ | Panic => Panic end] => destruct c as [[vcContext cf]|]
  end; [|discriminate].
  destruct (retrieveProfile vcsProfile); [|discriminate].
  destruct (String.eqb scope externalScopeQueryParam); intros [= <- _]; reflexivity.
Qed.
End AssemblyMore.

(** ** The login, DIDComm and OIDC handlers *)

Import Service.
#[local] Open Scope service_scope.

Ltac run_service :=
  unfold handle, orStop, stopIf, fail, respond, execute, authCodeURL, deref, getFields,
    setFields, lift, bindP, pureP, stop, crash;
  run_handler.

Lemma Contains_snoc (cur : string) (c : ascii) :
  Strings.Contains cur " " = false -> c <> " "%char ->
  Strings.Contains (cur ++ str1 c) " " = false.
Proof.
  intros Hcur Hc. induction cur as [|a cur IH].
  - rewrite append_nil. cbn [Strings.Contains str1 String.prefix].
    destruct (ascii_dec " " c) as [E|_]; [congruence|reflexivity].
  - cbn [Strings.Contains] in Hcur. apply orb_false_iff in Hcur. destruct Hcur as [Ha Hcur].
    rewrite append_cons. cbn [Strings.Contains]. rewrite (IH Hcur), orb_false_r.
    cbn [String.prefix] in Ha |- *. destruct (ascii_dec " " a); [|reflexivity].
    destruct cur; discriminate.
Qed.

Lemma splitFrom_space (s : string) : forall cur,
  Strings.Contains cur " " = false ->
  Forall (fun part => Strings.Contains part " " = false) (Strings.splitFrom " " O cur s).
Proof.
  induction s as [|c s IH]; intros cur Hcur.
  - cbn. repeat constructor. exact Hcur.
  - cbn [Strings.splitFrom String.prefix String.length Nat.pred].
    destruct (ascii_dec " " c) as [E|N].
    + replace (String.prefix "" s) with true by (destruct s; reflexivity).
      constructor; [exact Hcur|]. apply IH. reflexivity.
    + apply IH. apply Contains_snoc; [exact Hcur | congruence].
Qed.

Lemma getDIDCommScopes_filter (c : Fields) (scopes : string) :
  getDIDCommScopes c scopes
  = List.filter (fun scope => bool_decide (scope ∈ didcommScopes c)) (Strings.Split scopes " ").
Proof.
  unfold getDIDCommScopes.
  assert (Hgen : forall l out,
             fold_left (fun out scope =>
                          if bool_decide (scope ∈ didcommScopes c)
                          then (out ++ [scope])%list else out) l out
             = (out ++ List.filter (fun scope => bool_decide (scope ∈ didcommScopes c)) l)%list).
  { induction l as [|a l IH]; intros out; cbn [fold_left List.filter].
    - rewrite app_nil_r. reflexivity.
    - rewrite IH. destruct (bool_decide (a ∈ didcommScopes c)); [|reflexivity].
      rewrite <- app_assoc. reflexivity. }
  apply (Hgen _ []).
Qed.

(** X20: [getDIDCommScopes] returns the parts of the space-separated scopes
    that are registered, in their order and as often as they occur; a
    registered scope that contains a space is therefore never returned. *)
Theorem getDIDCommScopes_registered_parts (c : Fields) (scopes : string) :
  (forall scope, In scope (getDIDCommScopes c scopes)
     <-> scope ∈ didcommScopes c /\ In scope (Strings.Split scopes " "))
  /\ (forall scope, Strings.Contains scope " " = true -> ~ In scope (getDIDCommScopes c scopes))
  /\ (didcommScopes c = ∅ -> getDIDCommScopes c scopes = []).
Proof.
  rewrite getDIDCommScopes_filter. split; [|split].
  - intros scope. rewrite filter_In, bool_decide_eq_true. tauto.
  - intros scope Hsp Hin. apply filter_In in Hin. destruct Hin as [Hin _].
    pose proof (splitFrom_space scopes "" eq_refl) as Hall.
    rewrite List.Forall_forall in Hall. unfold Strings.Split in Hin.
    rewrite (Hall _ Hin) in Hsp. discriminate.
  - intros Hempty. rewrite Hempty.
    induction (Strings.Split scopes " ") as [|a l IH]; [reflexivity|].
    cbn [List.filter]. rewrite bool_decide_eq_false_2 by set_solver. exact IH.
Qed.

Section ServiceFacts.
Context {S : Type} `{Store S}.
#[local] Set Default Proof Using "Type".
Variable uuidSource : nat -> string.
Variable AddDate : Z -> Z -> Z -> Z -> Z.
Variable issuerAdapterURL : string.
Variable homePage : string.
Variable didCommVpHTML : string.
Variable tokenIssuer_AuthCodeURL : Response -> string * Response.
Variable extTokenIssuer_AuthCodeURL : Response -> string * Response.
Variable Resolve : string -> result (option Introspection).
Variable CreateOIDCRequest : string -> string -> result string.
Variable HandleOIDCCallback : string -> result string.
Variable isDataNotFound : string -> bool.
Variable Template : Type.
Variable ParseFiles : string -> result Template.
Variable Execute : Template -> vc -> string * option string.
Variable decodeAdapterTokenReq : string -> result (option adapterTokenReq).
Variable decodeAdapterDataReq : string -> result (option adapterDataReq).
Variable decodeUserData : string -> result userDataMap.
Variable getDataFromExternalSource : URLRequest -> string -> string -> P S unit.
Variable getDataFromCms : URLRequest -> string -> P S unit.
Variable getCredentialUsingAccessToken : Request -> P S unit.
Variable httpRedirect : URLRequest -> string -> Z -> Response -> Response.

#[local] Abbreviation InitiateDIDCommConnection :=
  (initiateDIDCommConnection (S := S) issuerAdapterURL).
#[local] Abbreviation Login :=
  (login (S := S) AddDate tokenIssuer_AuthCodeURL extTokenIssuer_AuthCodeURL).
#[local] Abbreviation Callback :=
  (callback homePage getDataFromExternalSource getDataFromCms httpRedirect).
#[local] Abbreviation CreateRequest := (createOIDCRequest uuidSource CreateOIDCRequest).
#[local] Abbreviation OIDCCallback :=
  (handleOIDCCallback didCommVpHTML HandleOIDCCallback isDataNotFound Template ParseFiles
     Execute).
#[local] Abbreviation TokenHandler :=
  (didcommTokenHandler uuidSource decodeAdapterTokenReq decodeUserData).
#[local] Abbreviation CredentialHandler :=
  (didcommCredentialHandler decodeAdapterDataReq decodeUserData
     getCredentialUsingAccessToken).

(** X21: A DIDComm connection request with an adapter profile and a scope
    registers the scope (and its assurance scope, if one is given), keeps
    every scope registered before, leaves the store alone and redirects to
    the adapter; from then on [getDIDCommScopes] returns the scope whenever
    it is one of the parts of a token's scopes. *)
Theorem initiateDIDCommConnection_registers (r : Request) (w : World S) (c : Fields) :
  FormValue r "adapterProfile" <> "" ->
  FormValue r "didCommScope" <> "" ->
  panicked (handle (InitiateDIDCommConnection r) w c) = false
  /\ status (answer (handle (InitiateDIDCommConnection r) w c)) = Some StatusFound
  /\ redirect (answer (handle (InitiateDIDCommConnection r) w c))
     = Some (issuerAdapterURL ++ "/" ++ FormValue r "adapterProfile"
               ++ "/connect/wallet?cred=" ++ FormValue r "didCommScope")
  /\ after (handle (InitiateDIDCommConnection r) w c) = w
  /\ didcommScopes (service (handle (InitiateDIDCommConnection r) w c))
     = {[FormValue r "didCommScope"]} ∪ didcommScopes c
  /\ assuranceScopes (service (handle (InitiateDIDCommConnection r) w c))
     = (if String.eqb (FormValue r "assuranceScope") ""
        then assuranceScopes c
        else <[FormValue r "didCommScope" := FormValue r "assuranceScope"]> (assuranceScopes c))
  /\ (forall scopes,
        In (FormValue r "didCommScope") (Strings.Split scopes " ") ->
        In (FormValue r "didCommScope")
           (getDIDCommScopes (service (handle (InitiateDIDCommConnection r) w c)) scopes)).
Proof.
  intros Hp Hs. apply String.eqb_neq in Hp. apply String.eqb_neq in Hs.
  unfold initiateDIDCommConnection. run_service. rewrite Hp. hsimpl. rewrite Hs. hsimpl.
  destruct (FormValue r "assuranceScope" =? "")%string; hsimpl.
  all: repeat split.
  all: intros scopes Hin; rewrite getDIDCommScopes_filter; apply filter_In;
    split; [exact Hin|]; apply bool_decide_eq_true; cbn [didcommScopes];
    apply elem_of_union; left; apply elem_of_singleton; reflexivity.
Qed.

(** X22: Without an adapter profile or without a scope the request is refused
    with 400 and nothing is registered. *)
Theorem initiateDIDCommConnection_missing_parameter (r : Request) (w : World S) (c : Fields) :
  FormValue r "adapterProfile" = "" \/ FormValue r "didCommScope" = "" ->
  status (answer (handle (InitiateDIDCommConnection r) w c)) = Some StatusBadRequest
  /\ body (answer (handle (InitiateDIDCommConnection r) w c))
     = (if String.eqb (FormValue r "adapterProfile") ""
        then "missing adapterProfile" else "missing didCommScope")
  /\ redirect (answer (handle (InitiateDIDCommConnection r) w c)) = None
  /\ service (handle (InitiateDIDCommConnection r) w c) = c
  /\ after (handle (InitiateDIDCommConnection r) w c) = w.
Proof.
  intros Hm. unfold initiateDIDCommConnection. run_service.
  destruct (FormValue r "adapterProfile" =? "")%string eqn:Hp; hsimpl;
    [repeat split; destruct w; reflexivity|].
  destruct Hm as [Hm|Hm]; [rewrite Hm in Hp; discriminate|].
  rewrite Hm. hsimpl. repeat split; destruct w; reflexivity.
Qed.

(** What a 200 of [createOIDCRequest] says of the request and the store. *)
Lemma createOIDCRequest_ok (r : URLRequest) (w : World S) (c : Fields) :
  status (answer (handle (CreateRequest r) w c)) = Some StatusOK ->
  exists redirectURL s',
    Url.Values_Get (Query r) "scope" <> ""
    /\ CreateOIDCRequest (uuidSource (drawn w)) (Url.Values_Get (Query r) "scope")
       = Ok redirectURL
    /\ Put (store w) (uuidSource (drawn w)) (uuidSource (drawn w)) = Ok s'
    /\ handle (CreateRequest r) w c
       = {| panicked := false;
            answer := {| headers := {["Content-Type" := ["application/json"]]};
                         status := Some StatusOK;
                         body := marshalCreateOIDCRequestResponse redirectURL;
                         cookies := []; redirect := None |};
            after := {| store := s';
                        accesses := (accesses w ++
                                       [APut (uuidSource (drawn w)) (uuidSource (drawn w))])%list;
                        drawn := Datatypes.S (drawn w); clock := clock w |};
            service := c |}.
Proof.
  unfold createOIDCRequest. run_service.
  destruct (Url.Values_Get (Query r) "scope" =? "")%string eqn:Hs; hsimpl; [discriminate|].
  apply String.eqb_neq in Hs.
  destruct (CreateOIDCRequest (uuidSource (drawn w)) (Url.Values_Get (Query r) "scope"))
    as [redirectURL|e]; hsimpl; [|discriminate].
  destruct (Put (store w) (uuidSource (drawn w)) (uuidSource (drawn w))) as [s'|e]; hsimpl;
    [|discriminate].
  intros _. exists redirectURL, s'. repeat split. exact Hs.
Qed.

Section Lawful.
Context (laws : StoreLaws S).

(** X23: The state of an OIDC request that was answered with 200 is accepted
    by the callback: for a callback with that state and a code, the page
    is rendered with what the OIDC client returns for the code.  The
    callback does not write the store, so the same state is accepted
    again. *)
Theorem createOIDCRequest_state_accepted (r1 r2 : URLRequest) (w : World S) (c : Fields)
    (t : Template) (data : string) :
  status (answer (handle (CreateRequest r1) w c)) = Some StatusOK ->
  Url.Values_Get (Query r2) "state" = uuidSource (drawn w) ->
  uuidSource (drawn w) <> "" ->
  Url.Values_Get (Query r2) "code" <> "" ->
  HandleOIDCCallback (Url.Values_Get (Query r2) "code") = Ok data ->
  ParseFiles didCommVpHTML = Ok t ->
  Get (store (after (handle (CreateRequest r1) w c))) (uuidSource (drawn w))
  = Ok (uuidSource (drawn w))
  /\ panicked (handle (OIDCCallback r2) (after (handle (CreateRequest r1) w c)) c) = false
  /\ body (answer (handle (OIDCCallback r2) (after (handle (CreateRequest r1) w c)) c))
     = fst (Execute t {| Msg := ""; Data := data |})
  /\ headers (answer (handle (OIDCCallback r2) (after (handle (CreateRequest r1) w c)) c))
     = {["Content-Type" := ["text/html; charset=utf-8"]]}
  /\ store (after (handle (OIDCCallback r2) (after (handle (CreateRequest r1) w c)) c))
     = store (after (handle (CreateRequest r1) w c)).
Proof using Type laws.
  intros Hok Hstate Hne Hcode Hdata Ht.
  destruct (createOIDCRequest_ok r1 w c Hok) as (redirectURL & s' & _ & _ & Hput & ->).
  cbn [after store]. pose proof (get_put _ _ _ _ Hput) as Hget.
  split; [exact Hget|].
  apply String.eqb_neq in Hne. apply String.eqb_neq in Hcode.
  unfold handleOIDCCallback, didcommDemoResult. run_service.
  rewrite Hstate, Hne. hsimpl. rewrite Hcode. hsimpl. rewrite Hget. hsimpl.
  rewrite Hdata. hsimpl. rewrite Ht. hsimpl.
  destruct (Execute t {| Msg := ""; Data := data |}) as [out err]. cbn [fst].
  destruct out as [|a out]; hsimpl; repeat split.
Qed.
End Lawful.

(** X24: A callback whose state is not in the store renders the page with the
    message for an invalid state, whatever the code; the store is not
    written.  A missing state is reported before a missing code. *)
Theorem handleOIDCCallback_unknown_state (r : URLRequest) (w : World S) (c : Fields)
    (t : Template) (e : string) :
  Url.Values_Get (Query r) "state" <> "" ->
  Url.Values_Get (Query r) "code" <> "" ->
  Get (store w) (Url.Values_Get (Query r) "state") = Err e ->
  ParseFiles didCommVpHTML = Ok t ->
  body (answer (handle (OIDCCallback r) w c))
  = fst (Execute t {| Msg := "";
                      Data := if isDataNotFound e then "invalid state parameter"
                              else "failed to query transient store for state : " ++ e |})
  /\ store (after (handle (OIDCCallback r) w c)) = store w
  /\ accesses (after (handle (OIDCCallback r) w c))
     = (accesses w ++ [AGet (Url.Values_Get (Query r) "state")])%list.
Proof.
  intros Hs Hc Hg Ht. apply String.eqb_neq in Hs. apply String.eqb_neq in Hc.
  unfold handleOIDCCallback, didcommDemoResult. run_service.
  rewrite Hs. hsimpl. rewrite Hc. hsimpl. rewrite Hg. hsimpl.
  destruct (isDataNotFound e); hsimpl; rewrite Ht; hsimpl.
  all: match goal with |- context [Execute ?t0 ?d] => destruct (Execute t0 d) as [out err] end.
  all: cbn [fst]; destruct out as [|a out]; hsimpl; repeat split.
Qed.

(** X25: The token handler stores the new token before it reads the stored
    user data: when those do not decode, the answer is 500 and yet the
    token stands in the store for the data. *)
Theorem didcommTokenHandler_stores_before_decoding (r : Request) (w : World S) (c : Fields)
    (req : adapterTokenReq) (cred e : string) (s' : S) :
  decodeAdapterTokenReq (Body r) = Ok (Some req) ->
  Get (store w) (reqState req) = Ok cred ->
  Put (store w) (uuidSource (drawn w)) cred = Ok s' ->
  decodeUserData cred = Err e ->
  status (answer (handle (TokenHandler r) w c)) = Some StatusInternalServerError
  /\ body (answer (handle (TokenHandler r) w c)) = "failed to read user state info : " ++ e
  /\ store (after (handle (TokenHandler r) w c)) = s'
  /\ accesses (after (handle (TokenHandler r) w c))
     = (accesses w ++ [AGet (reqState req); APut (uuidSource (drawn w)) cred])%list.
Proof.
  intros Hd Hg Hp Hu. unfold didcommTokenHandler. run_service.
  rewrite Hd. hsimpl. rewrite Hg. hsimpl. rewrite Hp. hsimpl. rewrite Hu. hsimpl.
  unfold logged. hsimpl. rewrite <- app_assoc. repeat split.
Qed.

(** X26: A body that is the JSON [null] leaves the decoded request nil: the
    token handler, and the credential handler on a request without bearer
    token, then panic before they write anything. *)
Theorem didcomm_null_body_panics (r : Request) (w : World S) (c : Fields) :
  (decodeAdapterTokenReq (Body r) = Ok None ->
     panicked (handle (TokenHandler r) w c) = true
     /\ answer (handle (TokenHandler r) w c) = emptyResponse
     /\ after (handle (TokenHandler r) w c) = w)
  /\ (hasAccessToken r = false -> decodeAdapterDataReq (Body r) = Ok None ->
        panicked (handle (CredentialHandler r) w c) = true
        /\ answer (handle (CredentialHandler r) w c) = emptyResponse
        /\ after (handle (CredentialHandler r) w c) = w).
Proof.
  split.
  - intros Hd. unfold didcommTokenHandler. run_service. rewrite Hd. hsimpl.
    repeat split; try (destruct w; reflexivity).
  - intros Hb Hd. unfold didcommCredentialHandler. run_service. rewrite Hb. hsimpl.
    rewrite Hd. hsimpl. repeat split; try (destruct w; reflexivity).
Qed.

Section LawfulFlow.
Context (laws : StoreLaws S).

(** X27: From a state to the user data: the token handler answers a stored
    state with a fresh token and the user's id and stores the state's
    bytes under the token; the credential handler, called with that token
    and no bearer header, answers with the data of those bytes.  The state
    stays in the store, so it can be exchanged again.  The store is taken
    to keep both laws of [StoreLaws]: a value put is the value got, and a
    put leaves the other keys as they were. *)
Theorem didcomm_token_flow (r1 r2 : Request) (w : World S) (c : Fields)
    (req : adapterTokenReq) (cred : string) (s' : S) (user : userDataMap) :
  decodeAdapterTokenReq (Body r1) = Ok (Some req) ->
  Get (store w) (reqState req) = Ok cred ->
  Put (store w) (uuidSource (drawn w)) cred = Ok s' ->
  decodeUserData cred = Ok user ->
  hasAccessToken r2 = false ->
  decodeAdapterDataReq (Body r2) = Ok (Some {| reqToken := uuidSource (drawn w) |}) ->
  status (answer (handle (TokenHandler r1) w c)) = Some StatusOK
  /\ body (answer (handle (TokenHandler r1) w c))
     = marshalAdapterTokenResp {| respToken := uuidSource (drawn w); respUserID := userID user |}
  /\ status (answer (handle (CredentialHandler r2) (after (handle (TokenHandler r1) w c)) c))
     = Some StatusOK
  /\ body (answer (handle (CredentialHandler r2) (after (handle (TokenHandler r1) w c)) c))
     = userData user
  /\ Get (store (after (handle (CredentialHandler r2) (after (handle (TokenHandler r1) w c)) c)))
         (reqState req) = Ok cred.
Proof using Type laws.
  intros Hd Hg Hp Hu Hb Hd2.
  assert (Htoken : handle (TokenHandler r1) w c
            = {| panicked := false;
                 answer := {| headers := ∅; status := Some StatusOK;
                              body := marshalAdapterTokenResp
                                        {| respToken := uuidSource (drawn w);
                                           respUserID := userID user |};
                              cookies := []; redirect := None |};
                 after := {| store := s';
                             accesses := (accesses w ++
                                            [AGet (reqState req);
                                             APut (uuidSource (drawn w)) cred])%list;
                             drawn := Datatypes.S (drawn w); clock := clock w |};
                 service := c |}).
  { unfold didcommTokenHandler. run_service.
    rewrite Hd. hsimpl. rewrite Hg. hsimpl. rewrite Hp. hsimpl. rewrite Hu. hsimpl.
    unfold logged. hsimpl. rewrite <- app_assoc. reflexivity. }
  rewrite Htoken. cbn [answer after status body].
  split; [reflexivity|]. split; [reflexivity|].
  assert (Hstate : Get s' (reqState req) = Ok cred).
  { destruct (decide (reqState req = uuidSource (drawn w))) as [E|N].
    - rewrite E. exact (get_put _ _ _ _ Hp).
    - rewrite (get_put_ne _ _ _ _ _ Hp) by exact N. exact Hg. }
  unfold didcommCredentialHandler. run_service. rewrite Hb. hsimpl. rewrite Hd2. hsimpl.
  rewrite (get_put _ _ _ _ Hp). hsimpl. rewrite Hu. hsimpl. repeat split. exact Hstate.
Qed.
End LawfulFlow.

Lemma prefix_drop (p s : string) :
  String.prefix p s = true -> s = p ++ drop (String.length p) s.
Proof.
  revert s. induction p as [|a p IH]; intros s.
  - intros _. rewrite append_nil. reflexivity.
  - destruct s as [|b s]; [discriminate|]. cbn [String.prefix].
    destruct (ascii_dec a b) as [<-|]; [|discriminate].
    intros Hp. rewrite append_cons. cbn [String.length drop]. f_equal. apply IH. exact Hp.
Qed.

Lemma prefix_append (p t : string) : String.prefix p (p ++ t) = true.
Proof.
  induction p as [|a p IH].
  - rewrite append_nil. destruct t; reflexivity.
  - rewrite append_cons. cbn [String.prefix].
    destruct (ascii_dec a a); [exact IH | congruence].
Qed.

Lemma append_inj_l (p a b : string) : p ++ a = p ++ b -> a = b.
Proof.
  induction p as [|c p IH]; rewrite ?append_nil, ?append_cons; [auto|].
  intros [= E]. auto.
Qed.

(** X28: [getTokenInfo] lets a request through exactly when its Authorization
    header starts with [Bearer ] and the resolver knows the rest of the
    header as an active token; it then writes nothing.  Without the prefix
    the answer is 401 with the header [WWW-Authenticate: Bearer] and no
    body, and the resolver's answer plays no part. *)
Theorem getTokenInfo_accepts_iff (r : Request) (e : Env S) (info : Introspection)
    (accessToken : string) :
  (getTokenInfo Resolve r e = (Go (Ok (info, accessToken)), e)
   <-> Header_Get r "Authorization" = "Bearer " ++ accessToken
       /\ Resolve accessToken = Ok (Some info) /\ Active info = true)
  /\ (hasAccessToken r = false ->
        getTokenInfo Resolve r e
        = (Go (Err "missing bearer token"),
           Build_Env
             (Build_State
                {| headers := <["Www-Authenticate" :=
                                  (default [] (headers (resp (base e)) !! "Www-Authenticate")
                                     ++ ["Bearer"])%list]> (headers (resp (base e)));
                   status := match status (resp (base e)) with
                             | Some code => Some code
                             | None => Some StatusUnauthorized
                             end;
                   body := body (resp (base e)); cookies := cookies (resp (base e));
                   redirect := redirect (resp (base e)) |}
                (world (base e)))
             (fields e))).
Proof.
  split.
  - unfold getTokenInfo, TrimPrefix.
    destruct (String.prefix "Bearer " (Header_Get r "Authorization")) eqn:Hp; cbn [negb].
    + pose proof (prefix_drop _ _ Hp) as Hh.
      set (tok := drop (String.length "Bearer ") (Header_Get r "Authorization")) in *.
      split.
      * destruct (Resolve tok) as [[info'|]|err] eqn:Hr.
        -- unfold deref, bindP, pureP. destruct (Active info') eqn:Ha; cbn [negb].
           ++ intros [= <- <-]. repeat split; [exact Hh | exact Hr | exact Ha].
           ++ unfold fail, lift. hsimpl. discriminate.
        -- unfold deref, bindP, crash. discriminate.
        -- unfold fail, lift, bindP, pureP. hsimpl. discriminate.
      * intros (Hh' & Hr & Ha). rewrite Hh' in Hh.
        apply append_inj_l in Hh. subst accessToken.
        rewrite Hr. unfold deref, bindP, pureP. rewrite Ha. reflexivity.
    + split.
      * unfold respond, lift, bindP, pureP. hsimpl. discriminate.
      * intros (Hh & _). rewrite Hh, prefix_append in Hp. discriminate.
  - unfold hasAccessToken. intros Hp. unfold getTokenInfo. rewrite Hp. cbn [negb].
    unfold respond, lift, bindP, pureP, onResponse, addHeader, WriteHeader. hsimpl. reflexivity.
Qed.

(** X29: A login for the scope [subject_data] with an external login URL that
    is not marked EXTERNAL switches the service to external login before
    the request is validated: also the request refused for its missing
    vcsProfile (after two calls of the external issuer's AuthCodeURL on the
    response writer) leaves the switch on.  No login switches it off, and
    no login touches the store or the registered scopes. *)
Theorem login_switches_external_login (r : URLRequest) (w : World S) (c : Fields) :
  (forall rest,
     queryValues r "scope" = "subject_data" :: rest ->
     Strings.Contains (fst (extTokenIssuer_AuthCodeURL emptyResponse)) "EXTERNAL" = false ->
     queryValues r "vcsProfile" = [] ->
     answer (handle (Login r) w c)
     = Write "vcs profile is empty"
         (WriteHeader StatusBadRequest
            (snd (extTokenIssuer_AuthCodeURL (snd (extTokenIssuer_AuthCodeURL emptyResponse)))))
     /\ externalLogin (service (handle (Login r) w c)) = true)
  /\ (externalLogin c = true -> externalLogin (service (handle (Login r) w c)) = true)
  /\ didcommScopes (service (handle (Login r) w c)) = didcommScopes c
  /\ after (handle (Login r) w c) = w.
Proof.
  unfold login, prepareAuthCodeURL. run_service.
  destruct (extTokenIssuer_AuthCodeURL emptyResponse) as [extAuthURL w1] eqn:Hext.
  cbn [fst snd]. hsimpl.
  destruct (queryValues r "scope") as [|scope0 rest0] eqn:Hscope; hsimpl.
  - split; [intros; discriminate|].
    destruct (queryValues r "vcsProfile"); hsimpl; repeat split;
      first [destruct w; reflexivity | intros Hx; exact Hx].
  - destruct ((scope0 =? Assembly.externalScopeQueryParam)%string
              && negb (Strings.Contains extAuthURL "EXTERNAL")) eqn:Hcond; hsimpl.
    + destruct (extTokenIssuer_AuthCodeURL w1) as [u w2]. cbn [snd]. hsimpl.
      destruct (queryValues r "vcsProfile"); hsimpl; repeat split;
        first [destruct w; reflexivity | intros; reflexivity | intros; discriminate].
    + destruct (tokenIssuer_AuthCodeURL w1) as [u w2]. hsimpl.
      assert (Hno : forall rest : list string,
                 scope0 :: rest0 = "subject_data" :: rest ->
                 Strings.Contains extAuthURL "EXTERNAL" = false -> False).
      { intros rest [= -> _] Hc. rewrite Hc in Hcond. cbn in Hcond. discriminate. }
      split; [intros rest Hr Hc; exfalso; exact (Hno rest Hr Hc)|].
      destruct (scope0 =? Assembly.externalScopeQueryParam)%string; hsimpl.
      all: destruct (queryValues r "vcsProfile"); hsimpl; repeat split;
        first [destruct w; reflexivity | intros Hx; exact Hx].
Qed.

(** X30: The callback for [error=access_denied] redirects to the home page and
    goes on.  Without the vcsProfile cookie the message of the missing
    cookie is written after whatever [http.Redirect] wrote: the status
    stays the 307 of the redirect (the 400 that follows is superfluous),
    the headers are those of the redirect and the message is appended to
    its body.  With the cookie the data handler runs on the response
    already redirected.  [http.Redirect] is taken to write the status it
    is given. *)
Theorem callback_access_denied_goes_on (r : URLRequest) (w : World S) (c : Fields) rest :
  queryValues r "error" = "access_denied" :: rest ->
  status (httpRedirect r homePage StatusTemporaryRedirect emptyResponse)
  = Some StatusTemporaryRedirect ->
  (forall e, Cookie (Req r) vcsProfileCookie = Err e ->
     status (answer (handle (Callback r) w c)) = Some StatusTemporaryRedirect
     /\ headers (answer (handle (Callback r) w c))
        = headers (httpRedirect r homePage StatusTemporaryRedirect emptyResponse)
     /\ body (answer (handle (Callback r) w c))
        = body (httpRedirect r homePage StatusTemporaryRedirect emptyResponse)
            ++ "failed to get cookie: " ++ e
     /\ after (handle (Callback r) w c) = w)
  /\ (forall vcsProfile, Cookie (Req r) vcsProfileCookie = Ok vcsProfile ->
        Callback r (Build_Env (Build_State emptyResponse w) c)
        = (if externalLogin c
           then getDataFromExternalSource r "subject_data" vcsProfile
           else getDataFromCms r vcsProfile)
            (Build_Env
               (Build_State (httpRedirect r homePage StatusTemporaryRedirect emptyResponse) w)
               c)).
Proof.
  intros Herr Hstatus. unfold callback. run_service. rewrite Herr. hsimpl. split.
  - intros e He. rewrite He. hsimpl. rewrite Hstatus.
    repeat split; try (destruct w; reflexivity).
  - intros vcsProfile Hc. rewrite Hc. hsimpl.
    destruct (externalLogin c); destruct w; reflexivity.
Qed.
End ServiceFacts.

(** ** The further statements at sample inputs *)

Lemma authorize_failure_frame_witness :
  store (snd (serve (oidcAuthorize Sample.uuids id
                       (Sample.authorizeRequest "claims" "https://wallet.example/cb" "c1" ""))
                    (Sample.world0 ∅)))
  = store (Sample.world0 ∅).
Proof.
  apply (authorize_failure_frame (S := gmap string string) Sample.uuids id
           (Sample.authorizeRequest "claims" "https://wallet.example/cb" "c1" "")
           (Sample.world0 ∅)).
  vm_compute. discriminate.
Defined.

Lemma sendAuthorizeResponse_failure_frame_witness :
  store (snd (serve (oidcSendAuthorizeResponse Sample.uuids (Sample.request ∅ ∅ [] "issuer1"))
                    (Sample.world0 ∅)))
  = store (Sample.world0 ∅).
Proof.
  apply (sendAuthorizeResponse_failure_frame (S := gmap string string) Sample.uuids
           (Sample.request ∅ ∅ [] "issuer1") (Sample.world0 ∅)).
  vm_compute. discriminate.
Defined.

Lemma wellKnownConfiguration_unknown_id_witness :
  status (fst (serve (wellKnownConfiguration (Sample.request ∅ ∅ [] "nope"))
                     (Sample.world0 ∅)))
  = Some StatusInternalServerError.
Proof.
  apply (wellKnownConfiguration_unknown_id (S := gmap string string)
           (Sample.request ∅ ∅ [] "nope") (Sample.world0 ∅) ErrDataNotFound).
  vm_compute. reflexivity.
Defined.


Lemma initiateIssuance_wallet_redirect_witness :
  exists q : gmap string (list string),
    body (fst (serve (initiateIssuance Sample.uuids "https://wallet.example/init" string
                        Sample.decodeIssuance Sample.marshalConfiguration string
                        Sample.parseURL Sample.queryOf Sample.encodeQuery Sample.withQuery id
                        SampleService.issuanceRequest)
                     (Sample.world0 ∅)))
    = Sample.withQuery "https://wallet.example/init" (Sample.encodeQuery q)
    /\ q !! "credential_type" = Some ["VerifiedEmployee"].
Proof.
  destruct (initiateIssuance_wallet_redirect (S := gmap string string) Sample.uuids
              "https://wallet.example/init" string Sample.decodeIssuance
              Sample.marshalConfiguration string Sample.parseURL Sample.queryOf
              Sample.encodeQuery Sample.withQuery id SampleService.issuanceRequest
              (Sample.world0 ∅))
    as (req & u & q & Hd & Hu & Hb & _ & Hc & _).
  - vm_compute. reflexivity.
  - injection Hd as <-. injection Hu as <-. exists q. split; [exact Hb | exact Hc].
Defined.

Lemma prepareCredential_changes_subject_witness :
  (<["id" := Assembly.AString ""]> {["name" := Assembly.AString "Alice"]}
     : gmap string Assembly.any) !! "vcmetadata" = None.
Proof.
  apply (prepareCredential_changes_subject Sample.profile 0 "uuid-0" (fun _ => Ok "{}")
           Sample.subjectWithContext
           (<["id" := Assembly.AString ""]> {["name" := Assembly.AString "Alice"]})
           "VerifiedEmployee" "demo" (Ok "{}")).
  vm_compute. reflexivity.
Defined.

Lemma prepareCredential_default_context_witness :
  assembledContext
    (Assembly.assembleCredential Sample.profile 0 "uuid-0"
       {["name" := Assembly.AString "Alice"]} "VerifiedEmployee" "demo")
  = Some [Assembly.credentialContext; Assembly.trustBlocExampleContext]
  /\ Assembly.prepareCredentialOf Sample.profile 0 "uuid-0" (fun _ => Ok "{}") None
       "VerifiedEmployee" "demo" = Assembly.Panic.
Proof.
  split.
  - destruct (prepareCredential_default_context Sample.profile 0 "uuid-0" (fun _ => Ok "{}")
                (Some {["name" := Assembly.AString "Alice"]}) "VerifiedEmployee" "demo"
                {| Assembly.Name := "demo"; Assembly.DID := "did:example:issuer";
                   Assembly.URI := "https://issuer.example/credentials" |})
      as (cred & subject' & Ha & _ & Hc & _).
    + intros m vcMetaData [= <-] Hm. vm_compute in Hm. discriminate.
    + vm_compute. reflexivity.
    + rewrite Ha. cbn [assembledContext]. rewrite Hc. reflexivity.
  - apply (prepareCredential_default_context Sample.profile 0 "uuid-0" (fun _ => Ok "{}")
             None "VerifiedEmployee" "demo"
             {| Assembly.Name := "demo"; Assembly.DID := "did:example:issuer";
                Assembly.URI := "https://issuer.example/credentials" |}).
    + intros m vcMetaData Hs. discriminate.
    + vm_compute. reflexivity.
Defined.

Lemma prepareCredential_panics_on_bad_context_witness :
  Assembly.prepareCredential Sample.profile 0 "uuid-0" (fun _ => Ok "{}")
    SampleService.subjectWithBadContext "subject_data" "demo" = Assembly.Panic.
Proof.
  apply (prepareCredential_panics_on_bad_context Sample.profile 0 "uuid-0" (fun _ => Ok "{}")
           SampleService.subjectWithBadContext {["@context" := Assembly.AString "a"]}
           (Assembly.AString "a") "subject_data" "demo").
  - vm_compute. reflexivity.
  - vm_compute. reflexivity.
  - intros ss. discriminate.
Defined.

Lemma prepareCredential_subject_override_witness :
  Assembly.Subject
    {| Assembly.Context := [Assembly.credentialContext; Assembly.citizenshipContext];
       Assembly.ID := "https://issuer.example/credentials/uuid-0";
       Assembly.Types := ["VerifiableCredential"; "PermanentResidentCard"];
       Assembly.Subject := Assembly.AMap {["name" := Assembly.AString "Bob"]};
       Assembly.CredIssuer :=
         {| Assembly.IssuerID := "did:example:issuer";
            Assembly.IssuerCustomFields := {["name" := Assembly.AString "demo"]} |};
       Assembly.Issued := 0;
       Assembly.CustomFields := {["name" := Assembly.AString "Permanent Resident Card"]} |}
  = Assembly.AMap {["name" := Assembly.AString "Bob"]}.
Proof.
  apply (prepareCredential_subject_override Sample.profile 0 "uuid-0" (fun _ => Ok "{}")
           SampleService.subjectWithOverride
           (<["id" := Assembly.AString ""]> SampleService.subjectWithOverride)
           {["name" := Assembly.AString "Bob"]} "subject_data" "demo").
  - vm_compute. reflexivity.
  - vm_compute. reflexivity.
Defined.

Lemma initiateDIDCommConnection_registers_witness :
  status (Service.answer
            (Service.handle
               (Service.initiateDIDCommConnection "https://adapter.example"
                  (Sample.request (<["adapterProfile" := ["profile1"]]>
                                     {["didCommScope" := ["StudentCard"]]}) ∅ [] ""))
               (Sample.world0 ∅) SampleService.fields0))
  = Some StatusFound.
Proof.
  apply (initiateDIDCommConnection_registers (S := gmap string string)
           "https://adapter.example"
           (Sample.request (<["adapterProfile" := ["profile1"]]>
                              {["didCommScope" := ["StudentCard"]]}) ∅ [] "")
           (Sample.world0 ∅) SampleService.fields0); vm_compute; discriminate.
Defined.

Lemma initiateDIDCommConnection_missing_parameter_witness :
  Service.service
    (Service.handle
       (Service.initiateDIDCommConnection "https://adapter.example"
          (Sample.request {["adapterProfile" := ["profile1"]]} ∅ [] ""))
       (Sample.world0 ∅) SampleService.fields0)
  = SampleService.fields0.
Proof.
  apply (initiateDIDCommConnection_missing_parameter (S := gmap string string)
           "https://adapter.example"
           (Sample.request {["adapterProfile" := ["profile1"]]} ∅ [] "")
           (Sample.world0 ∅) SampleService.fields0).
  right. vm_compute. reflexivity.
Defined.

Lemma createOIDCRequest_state_accepted_witness :
  body (Service.answer
          (Service.handle
             (Service.handleOIDCCallback "vp.html" SampleService.handleCallback
                SampleService.notFound string SampleService.parseFiles
                SampleService.executeTemplate
                (SampleService.queryRequest
                   (<["state" := ["uuid-0"]]> {["code" := ["abc"]]}) []))
             (Service.after
                (Service.handle
                   (Service.createOIDCRequest Sample.uuids SampleService.createRequest
                      (SampleService.queryRequest {["scope" := ["openid"]]} []))
                   (Sample.world0 ∅) SampleService.fields0))
             SampleService.fields0))
  = fst (SampleService.executeTemplate "vp.html"
           {| Service.Msg := ""; Service.Data := "claims-for-abc" |}).
Proof.
  apply (createOIDCRequest_state_accepted (S := gmap string string) Sample.uuids "vp.html"
           SampleService.createRequest SampleService.handleCallback SampleService.notFound
           string SampleService.parseFiles SampleService.executeTemplate
           _
           (SampleService.queryRequest {["scope" := ["openid"]]} [])
           (SampleService.queryRequest (<["state" := ["uuid-0"]]> {["code" := ["abc"]]}) [])
           (Sample.world0 ∅) SampleService.fields0 "vp.html" "claims-for-abc");
    first [discriminate | vm_compute; reflexivity | vm_compute; discriminate].
Defined.

Lemma handleOIDCCallback_unknown_state_witness :
  store (Service.after
           (Service.handle
              (Service.handleOIDCCallback "vp.html" SampleService.handleCallback
                 SampleService.notFound string SampleService.parseFiles
                 SampleService.executeTemplate
                 (SampleService.queryRequest
                    (<["state" := ["s1"]]> {["code" := ["abc"]]}) []))
              (Sample.world0 ∅) SampleService.fields0))
  = store (Sample.world0 ∅).
Proof.
  apply (handleOIDCCallback_unknown_state (S := gmap string string) "vp.html"
           SampleService.handleCallback SampleService.notFound string SampleService.parseFiles
           SampleService.executeTemplate
           (SampleService.queryRequest (<["state" := ["s1"]]> {["code" := ["abc"]]}) [])
           (Sample.world0 ∅) SampleService.fields0 "vp.html" ErrDataNotFound);
    first [discriminate | vm_compute; reflexivity | vm_compute; discriminate].
Defined.

Lemma didcommTokenHandler_stores_before_decoding_witness :
  status (Service.answer
            (Service.handle
               (Service.didcommTokenHandler Sample.uuids SampleService.decodeTokenReq
                  SampleService.decodeUser (SampleService.bodyRequest "st1"))
               (Sample.world0 {["st1" := "bad"]}) SampleService.fields0))
  = Some StatusInternalServerError
  /\ store (Service.after
              (Service.handle
                 (Service.didcommTokenHandler Sample.uuids SampleService.decodeTokenReq
                    SampleService.decodeUser (SampleService.bodyRequest "st1"))
                 (Sample.world0 {["st1" := "bad"]}) SampleService.fields0))
     = <["uuid-0" := "bad"]> {["st1" := "bad"]}.
Proof.
  split;
    apply (didcommTokenHandler_stores_before_decoding (S := gmap string string) Sample.uuids
             SampleService.decodeTokenReq SampleService.decodeUser
             (SampleService.bodyRequest "st1") (Sample.world0 {["st1" := "bad"]})
             SampleService.fields0 {| Service.reqState := "st1" |} "bad" "invalid character"
             (<["uuid-0" := "bad"]> {["st1" := "bad"]}));
    vm_compute; reflexivity.
Defined.

Lemma didcomm_token_flow_witness :
  body (Service.answer
          (Service.handle
             (Service.didcommCredentialHandler SampleService.decodeDataReq
                SampleService.decodeUser SampleService.credentialUsingAccessToken
                (SampleService.bodyRequest "uuid-0"))
             (Service.after
                (Service.handle
                   (Service.didcommTokenHandler Sample.uuids SampleService.decodeTokenReq
                      SampleService.decodeUser (SampleService.bodyRequest "st1"))
                   (Sample.world0 {["st1" := "{}"]}) SampleService.fields0))
             SampleService.fields0))
  = "{}".
Proof.
  apply (didcomm_token_flow (S := gmap string string) Sample.uuids
           SampleService.decodeTokenReq SampleService.decodeDataReq SampleService.decodeUser
           SampleService.credentialUsingAccessToken _
           (SampleService.bodyRequest "st1") (SampleService.bodyRequest "uuid-0")
           (Sample.world0 {["st1" := "{}"]}) SampleService.fields0
           {| Service.reqState := "st1" |} "{}" (<["uuid-0" := "{}"]> {["st1" := "{}"]})
           {| Service.userID := "user1"; Service.userData := "{}";
              Service.userAssuranceScope := "" |});
    vm_compute; reflexivity.
Defined.

Lemma callback_access_denied_goes_on_witness :
  status (Service.answer
            (Service.handle
               (Service.callback "https://issuer.example/home"
                  SampleService.dataFromExternalSource SampleService.dataFromCms
                  SampleService.redirectGET
                  (SampleService.getRequest {["error" := ["access_denied"]]} []))
               (Sample.world0 ∅) SampleService.fields0))
  = Some Service.StatusTemporaryRedirect
  /\ body (Service.answer
             (Service.handle
                (Service.callback "https://issuer.example/home"
                   SampleService.dataFromExternalSource SampleService.dataFromCms
                   SampleService.redirectGET
                   (SampleService.getRequest {["error" := ["access_denied"]]} []))
                (Sample.world0 ∅) SampleService.fields0))
     = "<a href=" ++ quoted "https://issuer.example/home" ++ ">Temporary Redirect</a>."
         ++ String "010" (String "010" "failed to get cookie: http: named cookie not present").
Proof.
  assert (Herror : Service.queryValues
                     (SampleService.getRequest {["error" := ["access_denied"]]} []) "error"
                   = ["access_denied"]) by (vm_compute; reflexivity).
  assert (Hstatus : status (SampleService.redirectGET
                              (SampleService.getRequest {["error" := ["access_denied"]]} [])
                              "https://issuer.example/home" Service.StatusTemporaryRedirect
                              emptyResponse)
                    = Some Service.StatusTemporaryRedirect) by (vm_compute; reflexivity).
  assert (Hcookie : Cookie (Service.Req (SampleService.getRequest
                                           {["error" := ["access_denied"]]} []))
                      Service.vcsProfileCookie
                    = Err "http: named cookie not present") by (vm_compute; reflexivity).
  destruct (proj1 (callback_access_denied_goes_on (S := gmap string string)
                     "https://issuer.example/home" SampleService.dataFromExternalSource
                     SampleService.dataFromCms SampleService.redirectGET
                     (SampleService.getRequest {["error" := ["access_denied"]]} [])
                     (Sample.world0 ∅) SampleService.fields0 [] Herror Hstatus)
              "http: named cookie not present" Hcookie)
    as (Hs & _ & Hb & _).
  split; [exact Hs|]. rewrite Hb. vm_compute. reflexivity.
Defined.
